(** * dwmac-meson8b: PRG_ETH0 interface-mode and timing configuration

    A shallow embedding of
    [drivers/net/ethernet/stmicro/stmmac/dwmac-meson8b.c]: the register
    read-modify-write helper, the two per-SoC phy-mode setters, the
    delay/adjust programming of [meson8b_init_prg_eth] and the part of
    [meson8b_dwmac_probe] that resolves the device-tree configuration.

    C [u32] values are integers in [Z] with the wrap-around written out;
    the driver's effects (MMIO accesses, clock-framework calls, kernel log
    lines) are threaded through an explicit [world] by a small
    state-and-error monad. *)

From Stdlib Require Import ZArith Lia List String Bool DecimalString.
Import ListNotations.
Local Open Scope string_scope.
Local Open Scope Z_scope.
Local Open Scope list_scope.

(** ** 32-bit machine arithmetic *)

Definition u32 (x : Z) : Z := x mod 2 ^ 32.

(** [~x] on a [u32]. *)
Definition not32 (x : Z) : Z := u32 (Z.lnot x).

(** [x << n] on a [u32]. *)
Definition shl32 (x n : Z) : Z := u32 (Z.shiftl x n).

(** [x >> n] on a [u32] (logical, the operand is unsigned). *)
Definition shr32 (x n : Z) : Z := Z.shiftr (u32 x) n.

Definition is_u32 (x : Z) : Prop := 0 <= x < 2 ^ 32.

(** ** Bit macros of [linux/bits.h] and [linux/bitfield.h]

    The headers are not part of the driver file; the four macros it uses are
    written out with the kernel's arithmetic, on 32-bit words. *)

(** Modelled from the spec: [BIT(n)] of linux/bits.h, the single-bit mask of
    the register layout (section 6). *)
Definition BIT (n : Z) : Z := shl32 1 n.

(** Modelled from the spec: [GENMASK(h, l)] of linux/bits.h, the mask of the
    bit span [h:l] of the register layout (section 6). *)
Definition GENMASK (h l : Z) : Z :=
  Z.land (u32 (not32 0 - shl32 1 l + 1)) (Z.shiftr (not32 0) (32 - 1 - h)).

Fixpoint ctz (fuel : nat) (x : Z) : Z :=
  match fuel with
  | O => 0
  | S fuel' => if Z.odd x then 0 else 1 + ctz fuel' (Z.shiftr x 1)
  end.

(** Modelled from the spec: [__bf_shf(mask)] of linux/bitfield.h, the
    position of the lowest set bit of a mask ([ffs(mask) - 1]). *)
Definition __bf_shf (mask : Z) : Z :=
  if mask =? 0 then -1 else ctz 32 mask.

(** Modelled from the spec: [FIELD_PREP(mask, val)] of linux/bitfield.h, the
    spec's [pack]: shift the value to the field's position and mask it to the
    field's span. *)
Definition FIELD_PREP (mask val : Z) : Z :=
  Z.land (shl32 val (__bf_shf mask)) mask.

(** Modelled from the spec: [FIELD_GET(mask, reg)] of linux/bitfield.h, the
    spec's [unpack], inverse of [pack]. *)
Definition FIELD_GET (mask reg : Z) : Z :=
  Z.shiftr (Z.land reg mask) (__bf_shf mask).

(** ** Register layout (the driver's [#define]s) *)

Definition PRG_ETH0 : Z := 0x0.

Definition PRG_ETH0_RGMII_MODE : Z := BIT 0.

Definition PRG_ETH0_EXT_PHY_MODE_MASK : Z := GENMASK 2 0.
Definition PRG_ETH0_EXT_RGMII_MODE : Z := 1.
Definition PRG_ETH0_EXT_RMII_MODE : Z := 4.

Definition PRG_ETH0_CLK_M250_SEL_MASK : Z := GENMASK 4 4.

Definition PRG_ETH0_TXDLY_MASK : Z := GENMASK 6 5.

Definition PRG_ETH0_CLK_M250_DIV_SHIFT : Z := 7.
Definition PRG_ETH0_CLK_M250_DIV_WIDTH : Z := 3.

Definition PRG_ETH0_RGMII_TX_CLK_EN : Z := 10.

Definition PRG_ETH0_INVERTED_RMII_CLK : Z := BIT 11.
Definition PRG_ETH0_TX_AND_PHY_REF_CLK : Z := BIT 12.

Definition PRG_ETH0_ADJ_ENABLE : Z := BIT 13.
Definition PRG_ETH0_ADJ_SETUP : Z := BIT 14.
Definition PRG_ETH0_ADJ_DELAY : Z := GENMASK 19 15.
Definition PRG_ETH0_ADJ_SKEW : Z := GENMASK 24 20.

Definition MUX_CLK_NUM_PARENTS : nat := 2.

Definition PRG_ETH1 : Z := 0x4.

(** Error numbers of [errno.h] used by the driver. *)
Definition ENOMEM : Z := 12.
Definition EINVAL : Z := 22.
Definition EPROBE_DEFER : Z := 517.

(** ** Types of the driver *)

(** Modelled from the spec: [phy_interface_t] of linux/phy.h (v5.4), the
    enumeration the spec's InterfaceMode draws its five values from; the
    constructors are in the header's order. *)
Inductive phy_interface_t : Set :=
| PHY_INTERFACE_MODE_NA
| PHY_INTERFACE_MODE_INTERNAL
| PHY_INTERFACE_MODE_MII
| PHY_INTERFACE_MODE_GMII
| PHY_INTERFACE_MODE_SGMII
| PHY_INTERFACE_MODE_TBI
| PHY_INTERFACE_MODE_REVMII
| PHY_INTERFACE_MODE_RMII
| PHY_INTERFACE_MODE_RGMII
| PHY_INTERFACE_MODE_RGMII_ID
| PHY_INTERFACE_MODE_RGMII_RXID
| PHY_INTERFACE_MODE_RGMII_TXID
| PHY_INTERFACE_MODE_RTBI
| PHY_INTERFACE_MODE_SMII
| PHY_INTERFACE_MODE_XGMII
| PHY_INTERFACE_MODE_MOCA
| PHY_INTERFACE_MODE_QSGMII
| PHY_INTERFACE_MODE_TRGMII
| PHY_INTERFACE_MODE_1000BASEX
| PHY_INTERFACE_MODE_2500BASEX
| PHY_INTERFACE_MODE_RXAUI
| PHY_INTERFACE_MODE_XAUI
| PHY_INTERFACE_MODE_10GKR
| PHY_INTERFACE_MODE_USXGMII
| PHY_INTERFACE_MODE_MAX.

(** The enumerator's integer value. *)
Definition phy_interface_val (m : phy_interface_t) : Z :=
  match m with
  | PHY_INTERFACE_MODE_NA => 0
  | PHY_INTERFACE_MODE_INTERNAL => 1
  | PHY_INTERFACE_MODE_MII => 2
  | PHY_INTERFACE_MODE_GMII => 3
  | PHY_INTERFACE_MODE_SGMII => 4
  | PHY_INTERFACE_MODE_TBI => 5
  | PHY_INTERFACE_MODE_REVMII => 6
  | PHY_INTERFACE_MODE_RMII => 7
  | PHY_INTERFACE_MODE_RGMII => 8
  | PHY_INTERFACE_MODE_RGMII_ID => 9
  | PHY_INTERFACE_MODE_RGMII_RXID => 10
  | PHY_INTERFACE_MODE_RGMII_TXID => 11
  | PHY_INTERFACE_MODE_RTBI => 12
  | PHY_INTERFACE_MODE_SMII => 13
  | PHY_INTERFACE_MODE_XGMII => 14
  | PHY_INTERFACE_MODE_MOCA => 15
  | PHY_INTERFACE_MODE_QSGMII => 16
  | PHY_INTERFACE_MODE_TRGMII => 17
  | PHY_INTERFACE_MODE_1000BASEX => 18
  | PHY_INTERFACE_MODE_2500BASEX => 19
  | PHY_INTERFACE_MODE_RXAUI => 20
  | PHY_INTERFACE_MODE_XAUI => 21
  | PHY_INTERFACE_MODE_10GKR => 22
  | PHY_INTERFACE_MODE_USXGMII => 23
  | PHY_INTERFACE_MODE_MAX => 24
  end.

(** Modelled from the spec: [phy_interface_mode_is_rgmii] of linux/phy.h,
    the spec's "RGMII-family mode": the enumerators from RGMII to
    RGMII_TXID. *)
Definition phy_interface_mode_is_rgmii (mode : phy_interface_t) : bool :=
  (phy_interface_val PHY_INTERFACE_MODE_RGMII <=? phy_interface_val mode)
  && (phy_interface_val mode <=? phy_interface_val PHY_INTERFACE_MODE_RGMII_TXID).

(** A [struct clk *] that is not an error pointer: [None] is [NULL], a clock
    is known by its name ([__clk_get_name]). *)
Definition clk : Set := string.
Definition clk_ptr : Set := option clk.

(** A pointer-returning kernel call: a value or [ERR_PTR(errno)]. *)
Inductive err_ptr (A : Type) : Type :=
| IS_OK (a : A)
| IS_ERR (errno : Z).
Arguments IS_OK {A} a.
Arguments IS_ERR {A} errno.

(** [struct meson8b_dwmac_data]: the per-SoC [set_phy_mode] handler, one of
    the two the match table installs. *)
Inductive meson8b_dwmac_data : Set :=
| meson8b_dwmac_data_meson8b
| meson8b_dwmac_data_axg.

(** [struct meson8b_dwmac].  [dev] and the register base are the ambient
    device of the [world]. *)
Record meson8b_dwmac : Set := mk_dwmac {
  data : meson8b_dwmac_data;
  phy_mode : phy_interface_t;
  rgmii_tx_clk : clk_ptr;
  tx_delay_ns : Z;
  rx_delay_ns : Z;
  timing_adj_clk : clk_ptr
}.

(** The hardware description handed to [devm_clk_register]. *)
Inductive clk_hw : Set :=
| hw_clk_mux (reg shift mask : Z)
| hw_clk_divider (reg shift width : Z) (table : list (Z * Z)) (flags : Z)
| hw_clk_fixed_factor (mult div : Z)
| hw_clk_gate (reg bit_idx : Z).

(** ** The world: register file and observable calls *)

Inductive event : Set :=
| EvReadl (reg val : Z)
| EvWritel (val reg : Z)
| EvDevErr (fmt : string)
| EvClkSetRate (c : clk_ptr) (rate ret : Z)
| EvClkPrepareEnable (c : clk_ptr) (ret : Z)
| EvDevmAddAction (c : clk_ptr)
| EvDevmClkGet (name : string)
| EvDevmClkGetOptional (name : string)
| EvDevmClkRegister (name : string) (parent_names : list string)
                    (flags : Z) (hw : clk_hw)
| EvWarnOn
| EvStmmacDvrProbe (bsp_priv : meson8b_dwmac) (ret : Z)
| EvStmmacRemoveConfigDt.

Record world : Type := mk_world {
  regs : Z -> Z;
  trace : list event
}.

Definition log (e : event) (w : world) : world :=
  mk_world (regs w) (trace w ++ [e]).

Definition upd (f : Z -> Z) (k v : Z) : Z -> Z :=
  fun k' => if k' =? k then v else f k'.

(** The common clock framework, outside the driver: what a call returns and
    what it leaves in the register file (the clocks the driver registers
    live in PRG_ETH0). *)
Record clk_framework : Type := {
  ccf_set_rate : clk_ptr -> Z -> world -> Z * (Z -> Z);
  ccf_prepare_enable : clk_ptr -> world -> Z * (Z -> Z)
}.

(** ** The driver monad: state passing with early return *)

Inductive result (A : Type) : Type :=
| Ok (a : A)
| Err (errno : Z).
Arguments Ok {A} a.
Arguments Err {A} errno.

Definition drv (A : Type) : Type := world -> result A * world.

Definition pure {A} (a : A) : drv A := fun w => (Ok a, w).

Definition bind {A B} (c : drv A) (k : A -> drv B) : drv B :=
  fun w => match c w with
           | (Ok a, w') => k a w'
           | (Err e, w') => (Err e, w')
           end.

(** [return e;] with a non-zero [e]. *)
Definition throw {A} (e : Z) : drv A := fun w => (Err e, w).

Notation "x <- c ;; k" := (bind c (fun x => k))
  (at level 61, c at next level, right associativity).
Notation "c ;; k" := (bind c (fun _ => k))
  (at level 61, right associativity).

(** The [int] a C function of type [drv unit] hands to its caller. *)
Definition int_of (c : drv unit) : drv Z :=
  fun w => match c w with
           | (Ok _, w') => (Ok 0, w')
           | (Err e, w') => (Ok e, w')
           end.

(** [goto err_label] style cleanup: run [h] on the error path only. *)
Definition on_error {A} (c : drv A) (h : world -> world) : drv A :=
  fun w => match c w with
           | (Ok a, w') => (Ok a, w')
           | (Err e, w') => (Err e, h w')
           end.

Definition emit (e : event) : drv unit := fun w => (Ok tt, log e w).

Definition readl (reg : Z) : drv Z :=
  fun w => let v := u32 (regs w reg) in (Ok v, log (EvReadl reg v) w).

Definition writel (val reg : Z) : drv unit :=
  fun w => (Ok tt, mk_world (upd (regs w) reg (u32 val))
                            (trace w ++ [EvWritel (u32 val) reg])).

Definition dev_err (fmt : string) : drv unit := emit (EvDevErr fmt).

(** ** The platform: what the device tree and the kernel hand to probe *)

(** Flags of linux/clk-provider.h. *)
Definition CLK_SET_RATE_PARENT : Z := BIT 2.
Definition CLK_DIVIDER_ALLOW_ZERO : Z := BIT 2.
Definition CLK_DIVIDER_ROUND_CLOSEST : Z := BIT 4.

(** [__ffs(word)]: index of the lowest set bit. *)
Definition __ffs (word : Z) : Z := ctz 32 word.

(** The results of the calls probe makes outside the driver.  A property
    or clock that is absent is [None]; a failing call carries its errno. *)
Record platform_device : Type := {
  dev_name : string;
  stmmac_get_platform_resources : Z;
  stmmac_probe_config_dt : err_ptr unit;
  devm_kzalloc_dwmac : bool;
  of_device_get_match_data : option meson8b_dwmac_data;
  devm_platform_ioremap_resource : err_ptr unit;
  of_get_phy_mode : option phy_interface_t;
  of_tx_delay_ns : option Z;
  of_rx_delay_ns : option Z;
  devm_clk_get_optional : string -> err_ptr clk_ptr;
  devm_kzalloc_clk_configs : bool;
  devm_clk_get : string -> err_ptr clk;
  devm_clk_register : string -> list string -> Z -> clk_hw -> err_ptr clk;
  stmmac_dvr_probe : meson8b_dwmac -> Z
}.

(** ** The driver *)

Definition meson8b_dwmac_mask_bits (dwmac : meson8b_dwmac)
    (reg mask value : Z) : drv unit :=
  data <- readl reg ;;
  let data := Z.land data (not32 mask) in
  let data := Z.lor data (Z.land value mask) in
  writel data reg.

Definition meson8b_set_phy_mode (dwmac : meson8b_dwmac) : drv unit :=
  match phy_mode dwmac with
  | PHY_INTERFACE_MODE_RGMII
  | PHY_INTERFACE_MODE_RGMII_RXID
  | PHY_INTERFACE_MODE_RGMII_ID
  | PHY_INTERFACE_MODE_RGMII_TXID =>
      (* enable RGMII mode *)
      meson8b_dwmac_mask_bits dwmac PRG_ETH0
        PRG_ETH0_RGMII_MODE PRG_ETH0_RGMII_MODE
  | PHY_INTERFACE_MODE_RMII =>
      (* disable RGMII mode -> enables RMII mode *)
      meson8b_dwmac_mask_bits dwmac PRG_ETH0 PRG_ETH0_RGMII_MODE 0
  | _ =>
      dev_err "fail to set phy-mode %s\n" ;;
      throw (- EINVAL)
  end.

Definition meson_axg_set_phy_mode (dwmac : meson8b_dwmac) : drv unit :=
  match phy_mode dwmac with
  | PHY_INTERFACE_MODE_RGMII
  | PHY_INTERFACE_MODE_RGMII_RXID
  | PHY_INTERFACE_MODE_RGMII_ID
  | PHY_INTERFACE_MODE_RGMII_TXID =>
      (* enable RGMII mode *)
      meson8b_dwmac_mask_bits dwmac PRG_ETH0
        PRG_ETH0_EXT_PHY_MODE_MASK PRG_ETH0_EXT_RGMII_MODE
  | PHY_INTERFACE_MODE_RMII =>
      (* disable RGMII mode -> enables RMII mode *)
      meson8b_dwmac_mask_bits dwmac PRG_ETH0
        PRG_ETH0_EXT_PHY_MODE_MASK PRG_ETH0_EXT_RMII_MODE
  | _ =>
      dev_err "fail to set phy-mode %s\n" ;;
      throw (- EINVAL)
  end.

(** [dwmac->data->set_phy_mode(dwmac)]. *)
Definition set_phy_mode (d : meson8b_dwmac_data) : meson8b_dwmac -> drv unit :=
  match d with
  | meson8b_dwmac_data_meson8b => meson8b_set_phy_mode
  | meson8b_dwmac_data_axg => meson_axg_set_phy_mode
  end.

Section ClockFramework.

Variable ccf : clk_framework.

Definition clk_set_rate (c : clk_ptr) (rate : Z) : drv Z :=
  fun w => let '(r, regs') := ccf_set_rate ccf c rate w in
           (Ok r, mk_world regs' (trace w ++ [EvClkSetRate c rate r])).

Definition clk_prepare_enable (c : clk_ptr) : drv Z :=
  fun w => let '(r, regs') := ccf_prepare_enable ccf c w in
           (Ok r, mk_world regs' (trace w ++ [EvClkPrepareEnable c r])).

Definition meson8b_devm_clk_prepare_enable (dwmac : meson8b_dwmac)
    (c : clk_ptr) : drv unit :=
  ret <- clk_prepare_enable c ;;
  if negb (ret =? 0) then throw ret else
  (* devm_add_action_or_reset(dwmac->dev, clk_disable_unprepare,
                              dwmac->rgmii_tx_clk) *)
  emit (EvDevmAddAction (rgmii_tx_clk dwmac)).

Definition meson8b_init_prg_eth (dwmac : meson8b_dwmac) : drv unit :=
  let tx_dly_config :=
    FIELD_PREP PRG_ETH0_TXDLY_MASK (shr32 (tx_delay_ns dwmac) 1) in
  let rx_dly_config :=
    if rx_delay_ns dwmac =? 2
    then Z.lor PRG_ETH0_ADJ_ENABLE PRG_ETH0_ADJ_SETUP
    else 0 in
  delay_config <-
    match phy_mode dwmac with
    | PHY_INTERFACE_MODE_RGMII => pure (Z.lor tx_dly_config rx_dly_config)
    | PHY_INTERFACE_MODE_RGMII_RXID => pure tx_dly_config
    | PHY_INTERFACE_MODE_RGMII_TXID => pure rx_dly_config
    | PHY_INTERFACE_MODE_RGMII_ID
    | PHY_INTERFACE_MODE_RMII => pure 0
    | _ =>
        dev_err "unsupported phy-mode %s\n" ;;
        throw (- EINVAL)
    end ;;
  (if negb (Z.land rx_dly_config PRG_ETH0_ADJ_ENABLE =? 0) then
     match timing_adj_clk dwmac with
     | None =>
         dev_err "The timing-adjustment clock is mandatory for the RX delay re-timing\n" ;;
         throw (- EINVAL)
     | Some _ =>
         (* The timing adjustment logic is driven by a separate clock *)
         ret <- int_of (meson8b_devm_clk_prepare_enable dwmac
                          (timing_adj_clk dwmac)) ;;
         if negb (ret =? 0) then
           dev_err "Failed to enable the timing-adjustment clock\n" ;;
           throw ret
         else pure tt
     end
   else pure tt) ;;
  meson8b_dwmac_mask_bits dwmac PRG_ETH0
    (Z.lor (Z.lor (Z.lor (Z.lor PRG_ETH0_TXDLY_MASK PRG_ETH0_ADJ_ENABLE)
                         PRG_ETH0_ADJ_SETUP)
                  PRG_ETH0_ADJ_DELAY)
           PRG_ETH0_ADJ_SKEW)
    delay_config ;;
  (if phy_interface_mode_is_rgmii (phy_mode dwmac) then
     (* only relevant for RMII mode -> disable in RGMII mode *)
     meson8b_dwmac_mask_bits dwmac PRG_ETH0 PRG_ETH0_INVERTED_RMII_CLK 0 ;;
     (* Configure the 125MHz RGMII TX clock *)
     ret <- clk_set_rate (rgmii_tx_clk dwmac) (125 * 1000 * 1000) ;;
     if negb (ret =? 0) then
       dev_err "failed to set RGMII TX clock\n" ;;
       throw ret
     else
     ret <- int_of (meson8b_devm_clk_prepare_enable dwmac
                      (rgmii_tx_clk dwmac)) ;;
     if negb (ret =? 0) then
       dev_err "failed to enable the RGMII TX clock\n" ;;
       throw ret
     else pure tt
   else
     (* invert internal clk_rmii_i to generate 25/2.5 tx_rx_clk *)
     meson8b_dwmac_mask_bits dwmac PRG_ETH0
       PRG_ETH0_INVERTED_RMII_CLK PRG_ETH0_INVERTED_RMII_CLK) ;;
  (* enable TX_CLK and PHY_REF_CLK generator *)
  meson8b_dwmac_mask_bits dwmac PRG_ETH0
    PRG_ETH0_TX_AND_PHY_REF_CLK PRG_ETH0_TX_AND_PHY_REF_CLK.

End ClockFramework.

Section Probe.

Variable ccf : clk_framework.
Variable pdev : platform_device.

Definition meson8b_dwmac_register_clk (dwmac : meson8b_dwmac)
    (name_suffix : string) (parent_names : list string)
    (hw : clk_hw) : drv (err_ptr clk) :=
  (* snprintf(clk_name, sizeof(clk_name), "%s#%s", ...) with char clk_name[32] *)
  let clk_name := substring 0 31 (dev_name pdev ++ "#" ++ name_suffix)%string in
  let flags := CLK_SET_RATE_PARENT in
  emit (EvDevmClkRegister clk_name parent_names flags hw) ;;
  pure (devm_clk_register pdev clk_name parent_names flags hw).

(** The loop [for (i = 0; i < MUX_CLK_NUM_PARENTS; i++)], with [todo]
    iterations left from index [i]. *)
Fixpoint get_mux_parents (todo i : nat) : drv (list string) :=
  match todo with
  | O => pure []
  | S todo' =>
      let name :=
        substring 0 15 ("clkin" ++ NilEmpty.string_of_uint (Nat.to_uint i))%string in
      emit (EvDevmClkGet name) ;;
      match devm_clk_get pdev name with
      | IS_ERR ret =>
          (if negb (ret =? - EPROBE_DEFER)
           then dev_err "Missing clock %s\n" else pure tt) ;;
          throw ret
      | IS_OK c =>
          rest <- get_mux_parents todo' (S i) ;;
          pure (c :: rest)
      end
  end.

Definition div_table : list (Z * Z) :=
  [(2, 2); (3, 3); (4, 4); (5, 5); (6, 6); (7, 7)].

Definition WARN_ON_IS_ERR (c : err_ptr clk) : drv clk :=
  match c with
  | IS_ERR e => emit EvWarnOn ;; throw e
  | IS_OK c => pure c
  end.

(** Returns the [dwmac] with [rgmii_tx_clk] set. *)
Definition meson8b_init_rgmii_tx_clk (dwmac : meson8b_dwmac)
    : drv meson8b_dwmac :=
  if negb (devm_kzalloc_clk_configs pdev) then throw (- ENOMEM) else
  (* get the mux parents from DT *)
  mux_parent_names <- get_mux_parents MUX_CLK_NUM_PARENTS 0 ;;
  let shift := __ffs PRG_ETH0_CLK_M250_SEL_MASK in
  c <- meson8b_dwmac_register_clk dwmac "m250_sel" mux_parent_names
         (hw_clk_mux PRG_ETH0 shift
            (Z.shiftr PRG_ETH0_CLK_M250_SEL_MASK shift)) ;;
  c <- WARN_ON_IS_ERR c ;;
  let parent_name := c in
  c <- meson8b_dwmac_register_clk dwmac "m250_div" [parent_name]
         (hw_clk_divider PRG_ETH0 PRG_ETH0_CLK_M250_DIV_SHIFT
            PRG_ETH0_CLK_M250_DIV_WIDTH div_table
            (Z.lor CLK_DIVIDER_ALLOW_ZERO CLK_DIVIDER_ROUND_CLOSEST)) ;;
  c <- WARN_ON_IS_ERR c ;;
  let parent_name := c in
  c <- meson8b_dwmac_register_clk dwmac "fixed_div2" [parent_name]
         (hw_clk_fixed_factor 1 2) ;;
  c <- WARN_ON_IS_ERR c ;;
  let parent_name := c in
  c <- meson8b_dwmac_register_clk dwmac "rgmii_tx_en" [parent_name]
         (hw_clk_gate PRG_ETH0 PRG_ETH0_RGMII_TX_CLK_EN) ;;
  c <- WARN_ON_IS_ERR c ;;
  pure (mk_dwmac (data dwmac) (phy_mode dwmac) (Some c)
          (tx_delay_ns dwmac) (rx_delay_ns dwmac) (timing_adj_clk dwmac)).

(** The part of probe after [plat_dat] exists: every failure leaves through
    [err_remove_config_dt]. *)
Definition meson8b_dwmac_probe_body : drv unit :=
  if negb (devm_kzalloc_dwmac pdev) then throw (- ENOMEM) else
  match of_device_get_match_data pdev with
  | None => throw (- EINVAL)
  | Some dwmac_data =>
  match devm_platform_ioremap_resource pdev with
  | IS_ERR e => throw e
  | IS_OK _ =>
  match of_get_phy_mode pdev with
  | None =>
      dev_err "missing phy-mode property\n" ;;
      throw (- EINVAL)
  | Some dwmac_phy_mode =>
  (* use 2ns as fallback since this value was previously hardcoded *)
  let dwmac_tx_delay_ns :=
    match of_tx_delay_ns pdev with Some v => u32 v | None => 2 end in
  (* use 0ns as fallback since this is what most boards actually use *)
  let dwmac_rx_delay_ns :=
    match of_rx_delay_ns pdev with Some v => u32 v | None => 0 end in
  if negb (dwmac_rx_delay_ns =? 0) && negb (dwmac_rx_delay_ns =? 2) then
    dev_err "The only allowed RX delays values are: 0ns, 2ns" ;;
    throw (- EINVAL)
  else
  emit (EvDevmClkGetOptional "timing-adjustment") ;;
  match devm_clk_get_optional pdev "timing-adjustment" with
  | IS_ERR e => throw e
  | IS_OK dwmac_timing_adj_clk =>
  let dwmac := mk_dwmac dwmac_data dwmac_phy_mode None
                 dwmac_tx_delay_ns dwmac_rx_delay_ns dwmac_timing_adj_clk in
  dwmac <- meson8b_init_rgmii_tx_clk dwmac ;;
  set_phy_mode (data dwmac) dwmac ;;
  meson8b_init_prg_eth ccf dwmac ;;
  let ret := stmmac_dvr_probe pdev dwmac in
  emit (EvStmmacDvrProbe dwmac ret) ;;
  if negb (ret =? 0) then throw ret else pure tt
  end end end end.

Definition meson8b_dwmac_probe : drv unit :=
  let ret := stmmac_get_platform_resources pdev in
  if negb (ret =? 0) then throw ret else
  match stmmac_probe_config_dt pdev with
  | IS_ERR e => throw e
  | IS_OK _ =>
      on_error meson8b_dwmac_probe_body (log EvStmmacRemoveConfigDt)
  end.

End Probe.

(** ** The stages of [meson8b_init_prg_eth]

    The function's local variables and its consecutive blocks, named so that
    lemmas can speak about one block at a time; [meson8b_init_prg_eth_stages]
    below shows that the function is their sequence. *)

Definition tx_dly_config (dwmac : meson8b_dwmac) : Z :=
  FIELD_PREP PRG_ETH0_TXDLY_MASK (shr32 (tx_delay_ns dwmac) 1).

Definition rx_dly_config (dwmac : meson8b_dwmac) : Z :=
  if rx_delay_ns dwmac =? 2
  then Z.lor PRG_ETH0_ADJ_ENABLE PRG_ETH0_ADJ_SETUP
  else 0.

(** The [switch (dwmac->phy_mode)]. *)
Definition select_delay_config (dwmac : meson8b_dwmac) : drv Z :=
  match phy_mode dwmac with
  | PHY_INTERFACE_MODE_RGMII =>
      pure (Z.lor (tx_dly_config dwmac) (rx_dly_config dwmac))
  | PHY_INTERFACE_MODE_RGMII_RXID => pure (tx_dly_config dwmac)
  | PHY_INTERFACE_MODE_RGMII_TXID => pure (rx_dly_config dwmac)
  | PHY_INTERFACE_MODE_RGMII_ID
  | PHY_INTERFACE_MODE_RMII => pure 0
  | _ =>
      dev_err "unsupported phy-mode %s\n" ;;
      throw (- EINVAL)
  end.

(** The block [if (rx_dly_config & PRG_ETH0_ADJ_ENABLE) { ... }]. *)
Definition enable_timing_adj (ccf : clk_framework) (dwmac : meson8b_dwmac)
    : drv unit :=
  if negb (Z.land (rx_dly_config dwmac) PRG_ETH0_ADJ_ENABLE =? 0) then
    match timing_adj_clk dwmac with
    | None =>
        dev_err "The timing-adjustment clock is mandatory for the RX delay re-timing\n" ;;
        throw (- EINVAL)
    | Some _ =>
        ret <- int_of (meson8b_devm_clk_prepare_enable ccf dwmac
                         (timing_adj_clk dwmac)) ;;
        if negb (ret =? 0) then
          dev_err "Failed to enable the timing-adjustment clock\n" ;;
          throw ret
        else pure tt
    end
  else pure tt.

(** The mask of the delay/adjust write. *)
Definition PRG_ETH0_DELAY_ADJ_MASK : Z :=
  Z.lor (Z.lor (Z.lor (Z.lor PRG_ETH0_TXDLY_MASK PRG_ETH0_ADJ_ENABLE)
                      PRG_ETH0_ADJ_SETUP)
               PRG_ETH0_ADJ_DELAY)
        PRG_ETH0_ADJ_SKEW.

(** The block [if (phy_interface_mode_is_rgmii(...)) { ... } else { ... }]. *)
Definition setup_tx_clk (ccf : clk_framework) (dwmac : meson8b_dwmac)
    : drv unit :=
  if phy_interface_mode_is_rgmii (phy_mode dwmac) then
    meson8b_dwmac_mask_bits dwmac PRG_ETH0 PRG_ETH0_INVERTED_RMII_CLK 0 ;;
    ret <- clk_set_rate ccf (rgmii_tx_clk dwmac) (125 * 1000 * 1000) ;;
    if negb (ret =? 0) then
      dev_err "failed to set RGMII TX clock\n" ;;
      throw ret
    else
    ret <- int_of (meson8b_devm_clk_prepare_enable ccf dwmac
                     (rgmii_tx_clk dwmac)) ;;
    if negb (ret =? 0) then
      dev_err "failed to enable the RGMII TX clock\n" ;;
      throw ret
    else pure tt
  else
    meson8b_dwmac_mask_bits dwmac PRG_ETH0
      PRG_ETH0_INVERTED_RMII_CLK PRG_ETH0_INVERTED_RMII_CLK.

(** ** The stages of [meson8b_dwmac_probe] *)

(** What probe stores in [dwmac->tx_delay_ns] and [dwmac->rx_delay_ns]. *)
Definition dt_tx_delay_ns (pdev : platform_device) : Z :=
  match of_tx_delay_ns pdev with Some v => u32 v | None => 2 end.

Definition dt_rx_delay_ns (pdev : platform_device) : Z :=
  match of_rx_delay_ns pdev with Some v => u32 v | None => 0 end.

(** Probe from [meson8b_init_rgmii_tx_clk] on, once [dwmac] is filled in. *)
Definition probe_tail (ccf : clk_framework) (pdev : platform_device)
    (dwmac : meson8b_dwmac) : drv unit :=
  dwmac <- meson8b_init_rgmii_tx_clk pdev dwmac ;;
  set_phy_mode (data dwmac) dwmac ;;
  meson8b_init_prg_eth ccf dwmac ;;
  let ret := stmmac_dvr_probe pdev dwmac in
  emit (EvStmmacDvrProbe dwmac ret) ;;
  if negb (ret =? 0) then throw ret else pure tt.

(** Everything probe does before it looks at the delays went well. *)
Definition prologue_ok (pdev : platform_device)
    (d : meson8b_dwmac_data) (m : phy_interface_t) : Prop :=
  stmmac_get_platform_resources pdev = 0 /\
  (exists p, stmmac_probe_config_dt pdev = IS_OK p) /\
  devm_kzalloc_dwmac pdev = true /\
  of_device_get_match_data pdev = Some d /\
  (exists p, devm_platform_ioremap_resource pdev = IS_OK p) /\
  of_get_phy_mode pdev = Some m.

(** The kernel services probe relies on after the delay check all succeed.
    The timing-adjustment clock is optional: it may be absent (NULL) unless
    the rx delay is 2 ns. *)
Definition services_ok (pdev : platform_device) : Prop :=
  (exists adj,
      devm_clk_get_optional pdev "timing-adjustment" = IS_OK adj /\
      (dt_rx_delay_ns pdev = 2 -> adj <> None)) /\
  devm_kzalloc_clk_configs pdev = true /\
  (forall name, exists c, devm_clk_get pdev name = IS_OK c) /\
  (forall name parents flags hw,
      exists c, devm_clk_register pdev name parents flags hw = IS_OK c) /\
  (forall dwmac, stmmac_dvr_probe pdev dwmac = 0).

(** ** The specification's vocabulary *)

(** The register update as the spec words it:
    (old AND NOT mask) OR (value AND mask). *)
Definition rmw (old mask value : Z) : Z :=
  Z.lor (Z.land old (Z.lnot mask)) (Z.land value mask).

(** The five values of the spec's InterfaceMode. *)
Definition supported_mode (m : phy_interface_t) : bool :=
  match m with
  | PHY_INTERFACE_MODE_RGMII
  | PHY_INTERFACE_MODE_RGMII_ID
  | PHY_INTERFACE_MODE_RGMII_RXID
  | PHY_INTERFACE_MODE_RGMII_TXID
  | PHY_INTERFACE_MODE_RMII => true
  | _ => false
  end.

(** Section 4.4 step 3 of the spec: the combined delay value by mode. *)
Definition combine_by_mode (m : phy_interface_t) (tx_bits rx_adjust_bits : Z)
    : option Z :=
  match m with
  | PHY_INTERFACE_MODE_RGMII => Some (Z.lor tx_bits rx_adjust_bits)
  | PHY_INTERFACE_MODE_RGMII_RXID => Some tx_bits
  | PHY_INTERFACE_MODE_RGMII_TXID => Some rx_adjust_bits
  | PHY_INTERFACE_MODE_RGMII_ID => Some 0
  | PHY_INTERFACE_MODE_RMII => Some 0
  | _ => None
  end.

(** Modelled from the spec: [decode] of section 8, the inverse of
    [encode_tx_delay]; the driver only encodes.  It unpacks the field and
    applies the register comment's "delay in ns = 8ns / 4 * tx_dly_val". *)
Definition decode_tx_delay (field : Z) : Z :=
  8 / 4 * FIELD_GET PRG_ETH0_TXDLY_MASK field.

(** The clock framework leaves the bits of [mask] in register [reg] alone. *)
Definition ccf_preserves (ccf : clk_framework) (reg mask : Z) : Prop :=
  (forall c rate w,
      Z.land (u32 (snd (ccf_set_rate ccf c rate w) reg)) mask
      = Z.land (u32 (regs w reg)) mask) /\
  (forall c w,
      Z.land (u32 (snd (ccf_prepare_enable ccf c w) reg)) mask
      = Z.land (u32 (regs w reg)) mask).

(** Every call into the clock framework succeeds. *)
Definition ccf_succeeds (ccf : clk_framework) : Prop :=
  (forall c rate w, fst (ccf_set_rate ccf c rate w) = 0) /\
  (forall c w, fst (ccf_prepare_enable ccf c w) = 0).

Definition is_write (e : event) : bool :=
  match e with EvWritel _ _ => true | _ => false end.

Definition is_clk_call (e : event) : bool :=
  match e with
  | EvClkSetRate _ _ _ | EvClkPrepareEnable _ _ | EvDevmAddAction _
  | EvDevmClkGet _ | EvDevmClkGetOptional _ | EvDevmClkRegister _ _ _ _ => true
  | _ => false
  end.

(** What [readl] returns from register [reg] of [w]. *)
Definition read_back (w : world) (reg : Z) : Z := u32 (regs w reg).

(** The spec's error kinds, as the log line that tells them apart (each
    comes with -EINVAL). *)
Definition UnsupportedPhyMode : string := "unsupported phy-mode %s\n".
Definition MissingTimingAdjustmentClock : string :=
  "The timing-adjustment clock is mandatory for the RX delay re-timing\n".
Definition InvalidDelayValue : string :=
  "The only allowed RX delays values are: 0ns, 2ns".

(** The world after [meson8b_dwmac_mask_bits] on a 32-bit mask. *)
Definition masked (w : world) (reg mask value : Z) : world :=
  mk_world (upd (regs w) reg (rmw (read_back w reg) mask value))
           (trace w ++ [EvReadl reg (read_back w reg);
                        EvWritel (rmw (read_back w reg) mask value) reg]).

(** The events a run appended are free of register writes. *)
Definition no_write (evs : list event) : Prop :=
  forallb (fun e => negb (is_write e)) evs = true.

(** The timing-adjustment clock is there when the rx delay asks for it. *)
Definition timing_adj_available (dwmac : meson8b_dwmac) : Prop :=
  ~ (rx_delay_ns dwmac = 2 /\ timing_adj_clk dwmac = None).

(** Every way [meson8b_init_prg_eth] can fail. *)
Inductive init_failure (ccf : clk_framework) (dwmac : meson8b_dwmac)
    : Z -> Prop :=
| fail_unsupported_mode :
    supported_mode (phy_mode dwmac) = false ->
    init_failure ccf dwmac (- EINVAL)
| fail_missing_timing_adj :
    rx_delay_ns dwmac = 2 -> timing_adj_clk dwmac = None ->
    init_failure ccf dwmac (- EINVAL)
| fail_clk_prepare_enable c w e :
    fst (ccf_prepare_enable ccf c w) = e -> e <> 0 ->
    init_failure ccf dwmac e
| fail_clk_set_rate c rate w e :
    fst (ccf_set_rate ccf c rate w) = e -> e <> 0 ->
    init_failure ccf dwmac e.

(** A run extends the log by events that all satisfy [P]. *)
Definition emits {A} (P : event -> Prop) (c : drv A) : Prop :=
  forall w, exists evs,
    trace (snd (c w)) = trace w ++ evs /\ Forall P evs.

(** Not the rx-delay rejection. *)
Definition not_delay_error (e : event) : Prop :=
  e <> EvDevErr InvalidDelayValue.

(** Neither a register write nor a call that builds or drives clocks. *)
Definition quiet (e : event) : Prop :=
  is_write e = false /\ is_clk_call e = false.

(** ** A concrete board for the worked scenarios *)

Definition board_tx_clk : clk := "c9410000.ethernet#rgmii_tx_en".

Definition is_board_tx_clk (c : clk_ptr) : bool :=
  match c with
  | Some n => String.eqb n board_tx_clk
  | None => false
  end.

(** Modelled from the spec: the Clock Node Graph of section 4.2 on a board
    whose first mux input runs at 1 GHz.  [set_rate] of the TX clock selects
    mux input 0 and divider entry 4 (1 GHz / 4 / 2 = 125 MHz), [enable] sets
    the gate bit; every call succeeds, and any other clock lives outside
    PRG_ETH0. *)
Definition board_ccf : clk_framework := {|
  ccf_set_rate c rate w :=
    (0, if is_board_tx_clk c then
          upd (regs w) PRG_ETH0
            (rmw (rmw (read_back w PRG_ETH0) PRG_ETH0_CLK_M250_SEL_MASK 0)
                 (GENMASK 9 7) (Z.shiftl 4 PRG_ETH0_CLK_M250_DIV_SHIFT))
        else regs w);
  ccf_prepare_enable c w :=
    (0, if is_board_tx_clk c then
          upd (regs w) PRG_ETH0
            (rmw (read_back w PRG_ETH0)
                 (BIT PRG_ETH0_RGMII_TX_CLK_EN) (BIT PRG_ETH0_RGMII_TX_CLK_EN))
        else regs w)
|}.

(** The register file after reset, nothing logged yet. *)
Definition world0 : world := mk_world (fun _ => 0) [].

(** A register file with unrelated bits already set (bit 31, bit 3 and the
    inverted-RMII-clock bit). *)
Definition world_seeded : world :=
  mk_world (fun reg => if reg =? PRG_ETH0 then 0x80000808 else 0) [].

Definition board_dwmac (d : meson8b_dwmac_data) (m : phy_interface_t)
    (tx rx : Z) (adj : clk_ptr) : meson8b_dwmac :=
  mk_dwmac d m (Some board_tx_clk) tx rx adj.

(** A platform device on which every kernel service succeeds; the device
    tree's phy-mode, delays and timing-adjustment clock are left open. *)
Definition board_pdev (d : meson8b_dwmac_data) (m : option phy_interface_t)
    (tx rx : option Z) (adj : clk_ptr) : platform_device := {|
  dev_name := "c9410000.ethernet";
  stmmac_get_platform_resources := 0;
  stmmac_probe_config_dt := IS_OK tt;
  devm_kzalloc_dwmac := true;
  of_device_get_match_data := Some d;
  devm_platform_ioremap_resource := IS_OK tt;
  of_get_phy_mode := m;
  of_tx_delay_ns := tx;
  of_rx_delay_ns := rx;
  devm_clk_get_optional := fun _ => IS_OK adj;
  devm_kzalloc_clk_configs := true;
  devm_clk_get := fun name =>
    IS_OK (if String.eqb name "clkin0" then "fclk_div2" else "mpll2");
  devm_clk_register := fun name _ _ _ => IS_OK name;
  stmmac_dvr_probe := fun _ => 0
|}.

(** ** Vocabulary for the clock construction and for probe *)

(** The name [meson8b_dwmac_register_clk] gives a clock:
    [snprintf(clk_name, 32, "%s#%s", dev_name, name_suffix)]. *)
Definition clk_name_of (pdev : platform_device) (suffix : string) : string :=
  substring 0 31 (dev_name pdev ++ "#" ++ suffix)%string.

(** The events [meson8b_init_rgmii_tx_clk] may log. *)
Definition clock_setup_event (e : event) : Prop :=
  match e with
  | EvDevmClkGet _ | EvDevmClkRegister _ _ _ _ | EvDevErr _ | EvWarnOn => True
  | _ => False
  end.

Definition is_clk_register (e : event) : bool :=
  match e with EvDevmClkRegister _ _ _ _ => true | _ => false end.

(** Every way [meson8b_init_rgmii_tx_clk] can fail. *)
Inductive tx_clk_failure (pdev : platform_device) : Z -> Prop :=
| fail_alloc_clk_configs :
    devm_kzalloc_clk_configs pdev = false ->
    tx_clk_failure pdev (- ENOMEM)
| fail_devm_clk_get name e :
    devm_clk_get pdev name = IS_ERR e -> tx_clk_failure pdev e
| fail_devm_clk_register name parents flags hw e :
    devm_clk_register pdev name parents flags hw = IS_ERR e ->
    tx_clk_failure pdev e.

(** The bits of PRG_ETH0 that [meson8b_init_prg_eth] writes itself. *)
Definition PRG_ETH0_INIT_WRITTEN : Z :=
  Z.lor PRG_ETH0_DELAY_ADJ_MASK
    (Z.lor PRG_ETH0_INVERTED_RMII_CLK PRG_ETH0_TX_AND_PHY_REF_CLK).

(** A release action, if [e] is one, is for [dwmac->rgmii_tx_clk]. *)
Definition targets_tx_clk (dwmac : meson8b_dwmac) (e : event) : Prop :=
  forall c, e = EvDevmAddAction c -> c = rgmii_tx_clk dwmac.

(** A prepare-and-enable, if [e] is one, is of [dwmac->rgmii_tx_clk]. *)
Definition enables_only_tx_clk (dwmac : meson8b_dwmac) (e : event) : Prop :=
  forall c ret, e = EvClkPrepareEnable c ret -> c = rgmii_tx_clk dwmac.

(** What a successful [meson8b_init_prg_eth] leaves in the bits it writes. *)
Definition init_image (dwmac : meson8b_dwmac) (dv : Z) : Z :=
  Z.lor dv
    (Z.lor (if phy_interface_mode_is_rgmii (phy_mode dwmac)
            then 0 else PRG_ETH0_INVERTED_RMII_CLK)
           PRG_ETH0_TX_AND_PHY_REF_CLK).

(** Events that are neither the configuration tear-down nor the hand-over
    to the MAC core. *)
Definition is_handoff (e : event) : bool :=
  match e with EvStmmacDvrProbe _ _ => true | _ => false end.

Definition not_teardown (e : event) : Prop := e <> EvStmmacRemoveConfigDt.

Definition inner_event (e : event) : Prop :=
  e <> EvStmmacRemoveConfigDt /\ is_handoff e = false.

Definition plain_event (e : event) : Prop :=
  inner_event e /\ e <> EvDevErr UnsupportedPhyMode.

(** What probe may log when it gives up before looking at any clock. *)
Definition startup_event (e : event) : Prop :=
  e = EvDevErr "missing phy-mode property\n" \/
  e = EvDevErr InvalidDelayValue \/
  e = EvStmmacRemoveConfigDt.

Definition is_register_access (e : event) : bool :=
  match e with EvReadl _ _ | EvWritel _ _ => true | _ => false end.

(** The field a [set_phy_mode] handler owns and the code it puts there. *)
Definition policy_mask (d : meson8b_dwmac_data) : Z :=
  match d with
  | meson8b_dwmac_data_meson8b => PRG_ETH0_RGMII_MODE
  | meson8b_dwmac_data_axg => PRG_ETH0_EXT_PHY_MODE_MASK
  end.

Definition policy_value (d : meson8b_dwmac_data) (m : phy_interface_t) : Z :=
  match d with
  | meson8b_dwmac_data_meson8b =>
      if phy_interface_mode_is_rgmii m then PRG_ETH0_RGMII_MODE else 0
  | meson8b_dwmac_data_axg =>
      if phy_interface_mode_is_rgmii m
      then PRG_ETH0_EXT_RGMII_MODE else PRG_ETH0_EXT_RMII_MODE
  end.

(** The platform device with other delay properties in its device tree. *)
Definition with_delays (pdev : platform_device) (tx rx : option Z)
    : platform_device := {|
  dev_name := dev_name pdev;
  stmmac_get_platform_resources := stmmac_get_platform_resources pdev;
  stmmac_probe_config_dt := stmmac_probe_config_dt pdev;
  devm_kzalloc_dwmac := devm_kzalloc_dwmac pdev;
  of_device_get_match_data := of_device_get_match_data pdev;
  devm_platform_ioremap_resource := devm_platform_ioremap_resource pdev;
  of_get_phy_mode := of_get_phy_mode pdev;
  of_tx_delay_ns := tx;
  of_rx_delay_ns := rx;
  devm_clk_get_optional := devm_clk_get_optional pdev;
  devm_kzalloc_clk_configs := devm_kzalloc_clk_configs pdev;
  devm_clk_get := devm_clk_get pdev;
  devm_clk_register := devm_clk_register pdev;
  stmmac_dvr_probe := stmmac_dvr_probe pdev
|}.

(** Looking up or registering a clock. *)
Definition builds_clock (e : event) : bool :=
  match e with
  | EvDevmClkGet _ | EvDevmClkGetOptional _ | EvDevmClkRegister _ _ _ _ => true
  | _ => false
  end.

(** Touching the hardware or handing over: a register access, driving a
    clock, registering a release action, calling the MAC core. *)
Definition drives_hardware (e : event) : bool :=
  match e with
  | EvReadl _ _ | EvWritel _ _ | EvClkSetRate _ _ _ | EvClkPrepareEnable _ _
  | EvDevmAddAction _ | EvStmmacDvrProbe _ _ => true
  | _ => false
  end.

(** A clock framework that leaves the registers alone and answers with
    fixed codes: [sr] to every [clk_set_rate], [en_tx] to enabling the
    board's TX clock and [en_other] to enabling any other clock. *)
Definition fixed_ccf (sr en_tx en_other : Z) : clk_framework := {|
  ccf_set_rate c rate w := (sr, regs w);
  ccf_prepare_enable c w :=
    (if is_board_tx_clk c then en_tx else en_other, regs w)
|}.

(** The board with one mux parent missing: looking up [name] fails with
    [e]. *)
Definition board_pdev_without (name : string) (e : Z) : platform_device := {|
  dev_name := "c9410000.ethernet";
  stmmac_get_platform_resources := 0;
  stmmac_probe_config_dt := IS_OK tt;
  devm_kzalloc_dwmac := true;
  of_device_get_match_data := Some meson8b_dwmac_data_axg;
  devm_platform_ioremap_resource := IS_OK tt;
  of_get_phy_mode := Some PHY_INTERFACE_MODE_RGMII;
  of_tx_delay_ns := Some 2;
  of_rx_delay_ns := Some 0;
  devm_clk_get_optional := fun _ => IS_OK None;
  devm_kzalloc_clk_configs := true;
  devm_clk_get := fun n =>
    if String.eqb n name then IS_ERR e else IS_OK "fclk_div2";
  devm_clk_register := fun n _ _ _ => IS_OK n;
  stmmac_dvr_probe := fun _ => 0
|}.

(** ** Bit-level facts *)

Lemma u32_is_u32 x : is_u32 (u32 x).
Proof. unfold is_u32, u32. apply Z.mod_pos_bound. reflexivity. Qed.

Lemma u32_small x : is_u32 x -> u32 x = x.
Proof. unfold is_u32, u32. intros H. apply Z.mod_small. exact H. Qed.

Lemma u32_testbit x i :
  Z.testbit (u32 x) i = (i <? 32) && Z.testbit x i.
Proof. unfold u32. apply Z.testbit_mod_pow2. lia. Qed.

Lemma is_u32_high x i : is_u32 x -> 32 <= i -> Z.testbit x i = false.
Proof.
  intros Hx Hi. rewrite <- (u32_small x Hx), u32_testbit.
  replace (i <? 32) with false by (symmetry; apply Z.ltb_ge; lia).
  reflexivity.
Qed.

Lemma rmw_testbit old mask value i :
  0 <= i ->
  Z.testbit (rmw old mask value) i
  = if Z.testbit mask i then Z.testbit value i else Z.testbit old i.
Proof.
  intros Hi. unfold rmw.
  rewrite Z.lor_spec, !Z.land_spec, Z.lnot_spec by exact Hi.
  destruct (Z.testbit mask i), (Z.testbit value i), (Z.testbit old i);
    reflexivity.
Qed.

(** What the C expression of [meson8b_dwmac_mask_bits] computes on a 32-bit
    register equals the spec's formula over the integers. *)
Lemma code_rmw old mask value :
  is_u32 old -> is_u32 mask ->
  u32 (Z.lor (Z.land old (not32 mask)) (Z.land value mask))
  = rmw old mask value.
Proof.
  intros Ho Hm. apply Z.bits_inj'. intros i Hi.
  rewrite u32_testbit, rmw_testbit by exact Hi.
  rewrite Z.lor_spec, !Z.land_spec. unfold not32.
  rewrite u32_testbit, Z.lnot_spec by exact Hi.
  destruct (i <? 32) eqn:E.
  - destruct (Z.testbit mask i), (Z.testbit value i), (Z.testbit old i);
      reflexivity.
  - apply Z.ltb_ge in E.
    rewrite (is_u32_high old i Ho E), (is_u32_high mask i Hm E).
    reflexivity.
Qed.

Lemma rmw_is_u32 old mask value :
  is_u32 old -> is_u32 mask -> is_u32 (rmw old mask value).
Proof.
  intros Ho Hm. rewrite <- (code_rmw old mask value Ho Hm). apply u32_is_u32.
Qed.

Lemma rmw_inside old mask value :
  Z.land (rmw old mask value) mask = Z.land value mask.
Proof.
  apply Z.bits_inj'. intros i Hi.
  rewrite !Z.land_spec, rmw_testbit by exact Hi.
  destruct (Z.testbit mask i), (Z.testbit value i), (Z.testbit old i);
    reflexivity.
Qed.

Lemma rmw_outside old mask value keep :
  Z.land mask keep = 0 ->
  Z.land (rmw old mask value) keep = Z.land old keep.
Proof.
  intros Hd. apply Z.bits_inj'. intros i Hi.
  rewrite !Z.land_spec, rmw_testbit by exact Hi.
  assert (Hb : Z.testbit (Z.land mask keep) i = false)
    by (rewrite Hd; apply Z.bits_0).
  rewrite Z.land_spec in Hb.
  destruct (Z.testbit mask i), (Z.testbit keep i), (Z.testbit value i),
    (Z.testbit old i); simpl in *; congruence.
Qed.

(** ** Running the register helper *)

Lemma mask_bits_run dwmac reg mask value w :
  meson8b_dwmac_mask_bits dwmac reg mask value w
  = let old := u32 (regs w reg) in
    let new := u32 (Z.lor (Z.land old (not32 mask)) (Z.land value mask)) in
    (Ok tt, mk_world (upd (regs w) reg new)
                     (trace w ++ [EvReadl reg old; EvWritel new reg])).
Proof.
  unfold meson8b_dwmac_mask_bits, bind, readl, writel, log.
  cbn [regs trace]. rewrite <- app_assoc. reflexivity.
Qed.

Lemma upd_same f k v : upd f k v k = v.
Proof. unfold upd. rewrite Z.eqb_refl. reflexivity. Qed.

Lemma upd_other f k v k' : k' <> k -> upd f k v k' = f k'.
Proof.
  intros H. unfold upd. destruct (k' =? k) eqn:E; [|reflexivity].
  apply Z.eqb_eq in E. contradiction.
Qed.

(** C2.  One call of [meson8b_dwmac_mask_bits] on a 32-bit register value
    [old] with a 32-bit [mask] leaves the register equal to
    (old AND NOT mask) OR (value AND mask): every bit outside [mask] keeps
    its previous value, every bit inside takes the bit of [value], and no
    other register changes. *)
Theorem mask_bits_read_modify_write dwmac reg mask value w :
  is_u32 (regs w reg) -> is_u32 mask ->
  let old := regs w reg in
  let r := meson8b_dwmac_mask_bits dwmac reg mask value w in
  fst r = Ok tt /\
  regs (snd r) reg = Z.lor (Z.land old (Z.lnot mask)) (Z.land value mask) /\
  (forall i, 0 <= i -> Z.testbit mask i = false ->
             Z.testbit (regs (snd r) reg) i = Z.testbit old i) /\
  (forall i, 0 <= i -> Z.testbit mask i = true ->
             Z.testbit (regs (snd r) reg) i = Z.testbit value i) /\
  (forall reg', reg' <> reg -> regs (snd r) reg' = regs w reg') /\
  trace (snd r) = trace w ++ [EvReadl reg old; EvWritel (regs (snd r) reg) reg].
Proof.
  intros Ho Hm old r. subst r. rewrite mask_bits_run. cbn [fst snd regs trace].
  rewrite upd_same, (u32_small _ Ho), (code_rmw _ _ value Ho Hm).
  fold old. repeat split.
  - intros i Hi Hb. rewrite rmw_testbit, Hb by exact Hi. reflexivity.
  - intros i Hi Hb. rewrite rmw_testbit, Hb by exact Hi. reflexivity.
  - intros reg' Hne. apply upd_other. exact Hne.
Qed.

(** ** Values of the masks *)

Lemma PRG_ETH0_RGMII_MODE_val : PRG_ETH0_RGMII_MODE = 1.
Proof. reflexivity. Qed.

Lemma PRG_ETH0_EXT_PHY_MODE_MASK_val : PRG_ETH0_EXT_PHY_MODE_MASK = 7.
Proof. reflexivity. Qed.

Lemma PRG_ETH0_TXDLY_MASK_val : PRG_ETH0_TXDLY_MASK = Z.shiftl 3 5.
Proof. reflexivity. Qed.

Lemma PRG_ETH0_DELAY_ADJ_MASK_val : PRG_ETH0_DELAY_ADJ_MASK = 0x1FFE060.
Proof. reflexivity. Qed.

Lemma PRG_ETH0_INVERTED_RMII_CLK_val : PRG_ETH0_INVERTED_RMII_CLK = 2 ^ 11.
Proof. reflexivity. Qed.

Lemma PRG_ETH0_TX_AND_PHY_REF_CLK_val : PRG_ETH0_TX_AND_PHY_REF_CLK = 2 ^ 12.
Proof. reflexivity. Qed.

Lemma land_u32_low x m : is_u32 m -> Z.land (u32 x) m = Z.land x m.
Proof.
  intros Hm. apply Z.bits_inj'. intros i Hi.
  rewrite !Z.land_spec, u32_testbit.
  destruct (i <? 32) eqn:E; [reflexivity|].
  apply Z.ltb_ge in E. rewrite (is_u32_high m i Hm E).
  rewrite !andb_false_r. reflexivity.
Qed.

(** The transmit-delay bits: the 2-bit field holds [(tx_delay_ns >> 1) mod 4]
    at bits 6:5, whatever the 32-bit input. *)
Lemma tx_dly_config_val dwmac :
  tx_dly_config dwmac = Z.shiftl (shr32 (tx_delay_ns dwmac) 1 mod 4) 5.
Proof.
  unfold tx_dly_config, FIELD_PREP.
  replace (__bf_shf PRG_ETH0_TXDLY_MASK) with 5 by reflexivity.
  unfold shl32. rewrite land_u32_low by (vm_compute; split; congruence).
  rewrite PRG_ETH0_TXDLY_MASK_val, <- Z.shiftl_land.
  change 3 with (Z.ones 2). rewrite Z.land_ones by lia. reflexivity.
Qed.

Lemma tx_dly_config_field dwmac :
  FIELD_GET PRG_ETH0_TXDLY_MASK (tx_dly_config dwmac)
  = shr32 (tx_delay_ns dwmac) 1 mod 4.
Proof.
  unfold FIELD_GET.
  replace (__bf_shf PRG_ETH0_TXDLY_MASK) with 5 by reflexivity.
  rewrite tx_dly_config_val, PRG_ETH0_TXDLY_MASK_val, <- Z.shiftl_land.
  change 3 with (Z.ones 2). rewrite Z.land_ones by lia.
  rewrite Z.mod_mod by lia.
  rewrite Z.shiftr_shiftl_l by lia. reflexivity.
Qed.

Lemma tx_dly_config_in_mask dwmac :
  Z.land (tx_dly_config dwmac) PRG_ETH0_TXDLY_MASK = tx_dly_config dwmac.
Proof.
  unfold tx_dly_config, FIELD_PREP.
  rewrite <- Z.land_assoc, Z.land_diag. reflexivity.
Qed.

Lemma rx_dly_config_cases dwmac :
  rx_dly_config dwmac = 0x6000 /\ rx_delay_ns dwmac = 2 \/
  rx_dly_config dwmac = 0 /\ rx_delay_ns dwmac <> 2.
Proof.
  unfold rx_dly_config. destruct (rx_delay_ns dwmac =? 2) eqn:E.
  - left. apply Z.eqb_eq in E. split; [reflexivity | exact E].
  - right. apply Z.eqb_neq in E. split; [reflexivity | exact E].
Qed.

Lemma rx_enable_test dwmac :
  negb (Z.land (rx_dly_config dwmac) PRG_ETH0_ADJ_ENABLE =? 0)
  = (rx_delay_ns dwmac =? 2).
Proof.
  unfold rx_dly_config. destruct (rx_delay_ns dwmac =? 2); reflexivity.
Qed.

(** The combined value stays inside the written mask and leaves the
    adjust-delay and adjust-skew sub-fields zero. *)
Lemma combine_by_mode_bits dwmac dv :
  combine_by_mode (phy_mode dwmac) (tx_dly_config dwmac) (rx_dly_config dwmac)
  = Some dv ->
  Z.land dv (Z.lor PRG_ETH0_ADJ_DELAY PRG_ETH0_ADJ_SKEW) = 0 /\
  Z.land dv PRG_ETH0_DELAY_ADJ_MASK = dv.
Proof.
  assert (Ht0 : Z.land (tx_dly_config dwmac)
                  (Z.lor PRG_ETH0_ADJ_DELAY PRG_ETH0_ADJ_SKEW) = 0).
  { rewrite <- tx_dly_config_in_mask, <- Z.land_assoc. apply Z.land_0_r. }
  assert (Ht1 : Z.land (tx_dly_config dwmac) PRG_ETH0_DELAY_ADJ_MASK
                = tx_dly_config dwmac).
  { rewrite <- tx_dly_config_in_mask at 1. rewrite <- Z.land_assoc.
    replace (Z.land PRG_ETH0_TXDLY_MASK PRG_ETH0_DELAY_ADJ_MASK)
      with PRG_ETH0_TXDLY_MASK by reflexivity.
    apply tx_dly_config_in_mask. }
  assert (Hr : Z.land (rx_dly_config dwmac)
                 (Z.lor PRG_ETH0_ADJ_DELAY PRG_ETH0_ADJ_SKEW) = 0 /\
               Z.land (rx_dly_config dwmac) PRG_ETH0_DELAY_ADJ_MASK
               = rx_dly_config dwmac).
  { destruct (rx_dly_config_cases dwmac) as [[-> _] | [-> _]];
      split; reflexivity. }
  destruct Hr as [Hr0 Hr1].
  destruct (phy_mode dwmac); cbv beta iota delta [combine_by_mode];
    intros H; inversion H; subst dv;
    try (split; reflexivity); try (split; assumption).
  rewrite !Z.land_lor_distr_l, Ht0, Ht1, Hr0, Hr1. split; reflexivity.
Qed.

Lemma mask_bits_result dwmac reg mask value w :
  is_u32 mask ->
  meson8b_dwmac_mask_bits dwmac reg mask value w
  = (Ok tt,
     mk_world (upd (regs w) reg (rmw (read_back w reg) mask value))
              (trace w ++ [EvReadl reg (read_back w reg);
                           EvWritel (rmw (read_back w reg) mask value) reg])).
Proof.
  intros Hm. rewrite mask_bits_run. cbv zeta. unfold read_back.
  rewrite (code_rmw _ _ value (u32_is_u32 _) Hm). reflexivity.
Qed.

Lemma read_back_is_u32 w reg : is_u32 (read_back w reg).
Proof. apply u32_is_u32. Qed.

Lemma read_back_upd w reg v tr :
  is_u32 v -> read_back (mk_world (upd (regs w) reg v) tr) reg = v.
Proof.
  intros Hv. unfold read_back. cbn [regs]. rewrite upd_same.
  apply u32_small. exact Hv.
Qed.

(** ** Running the phy-mode setters *)

Lemma field_get_rmw old mask value :
  FIELD_GET mask (rmw old mask value) = FIELD_GET mask value.
Proof. unfold FIELD_GET. rewrite rmw_inside. reflexivity. Qed.

Lemma is_u32_const n : (0 <=? n) && (n <? 2 ^ 32) = true -> is_u32 n.
Proof.
  intros H. apply andb_true_iff in H. destruct H as [H1 H2].
  apply Z.leb_le in H1. apply Z.ltb_lt in H2. split; assumption.
Qed.

Lemma rmw_above old mask value n i :
  0 <= mask < 2 ^ n -> 0 <= n <= i ->
  Z.testbit (rmw old mask value) i = Z.testbit old i.
Proof.
  intros Hm Hi. rewrite rmw_testbit by lia.
  replace (Z.testbit mask i) with false; [reflexivity|].
  symmetry. rewrite <- (Z.mod_small mask (2 ^ n)) by exact Hm.
  apply Z.mod_pow2_bits_high. exact Hi.
Qed.

(** C9.  The Legacy policy ([meson8b_set_phy_mode]) writes the one-bit field
    at bit 0: set for RGMII, RGMII_ID, RGMII_RXID and RGMII_TXID, clear for
    RMII.  The Extended policy ([meson_axg_set_phy_mode]) writes the three-bit
    field at bits 2:0: 1 for every RGMII-family mode, 4 for RMII.  For any
    other mode both fail with -EINVAL after logging, without a register
    access.  Neither changes a bit outside its field nor another register. *)
Theorem set_phy_mode_policies dwmac w :
  let old := read_back w PRG_ETH0 in
  let legacy := meson8b_set_phy_mode dwmac w in
  let extended := meson_axg_set_phy_mode dwmac w in
  let new_l := regs (snd legacy) PRG_ETH0 in
  let new_e := regs (snd extended) PRG_ETH0 in
  BIT 0 = 2 ^ 0 /\ GENMASK 2 0 = 2 ^ 2 + 2 ^ 1 + 2 ^ 0 /\
  match phy_mode dwmac with
  | PHY_INTERFACE_MODE_RGMII
  | PHY_INTERFACE_MODE_RGMII_ID
  | PHY_INTERFACE_MODE_RGMII_RXID
  | PHY_INTERFACE_MODE_RGMII_TXID =>
      fst legacy = Ok tt /\ FIELD_GET (BIT 0) new_l = 1 /\
      fst extended = Ok tt /\ FIELD_GET (GENMASK 2 0) new_e = 1 /\
      (forall i, 1 <= i -> Z.testbit new_l i = Z.testbit old i) /\
      (forall i, 3 <= i -> Z.testbit new_e i = Z.testbit old i)
  | PHY_INTERFACE_MODE_RMII =>
      fst legacy = Ok tt /\ FIELD_GET (BIT 0) new_l = 0 /\
      fst extended = Ok tt /\ FIELD_GET (GENMASK 2 0) new_e = 4 /\
      (forall i, 1 <= i -> Z.testbit new_l i = Z.testbit old i) /\
      (forall i, 3 <= i -> Z.testbit new_e i = Z.testbit old i)
  | _ =>
      legacy = (Err (- EINVAL), log (EvDevErr "fail to set phy-mode %s\n") w) /\
      extended = (Err (- EINVAL), log (EvDevErr "fail to set phy-mode %s\n") w)
  end /\
  (forall reg, reg <> PRG_ETH0 ->
     regs (snd legacy) reg = regs w reg /\ regs (snd extended) reg = regs w reg).
Proof.
  intros old legacy extended new_l new_e.
  split; [reflexivity|]. split; [reflexivity|].
  assert (H1 : is_u32 PRG_ETH0_RGMII_MODE) by (apply is_u32_const; reflexivity).
  assert (H7 : is_u32 PRG_ETH0_EXT_PHY_MODE_MASK)
    by (apply is_u32_const; reflexivity).
  subst new_l new_e legacy extended.
  unfold meson8b_set_phy_mode, meson_axg_set_phy_mode.
  destruct (phy_mode dwmac);
    try (split; [split; reflexivity | intros reg _; split; reflexivity]);
    rewrite !mask_bits_result by assumption; cbn [fst snd regs];
    rewrite !upd_same; fold old;
    (split;
     [ split; [reflexivity|]; split; [rewrite field_get_rmw; reflexivity|];
       split; [reflexivity|]; split; [rewrite field_get_rmw; reflexivity|];
       split; intros i Hi;
       [ apply (rmw_above old PRG_ETH0_RGMII_MODE _ 1); [vm_compute; split; congruence | lia]
       | apply (rmw_above old PRG_ETH0_EXT_PHY_MODE_MASK _ 3); [vm_compute; split; congruence | lia] ]
     | intros reg Hne; rewrite !upd_other by exact Hne; split; reflexivity ]).
Qed.

(** ** Running [meson8b_init_prg_eth] stage by stage *)

Lemma meson8b_init_prg_eth_stages ccf dwmac :
  meson8b_init_prg_eth ccf dwmac
  = (delay_config <- select_delay_config dwmac ;;
     enable_timing_adj ccf dwmac ;;
     meson8b_dwmac_mask_bits dwmac PRG_ETH0 PRG_ETH0_DELAY_ADJ_MASK
       delay_config ;;
     setup_tx_clk ccf dwmac ;;
     meson8b_dwmac_mask_bits dwmac PRG_ETH0
       PRG_ETH0_TX_AND_PHY_REF_CLK PRG_ETH0_TX_AND_PHY_REF_CLK).
Proof. reflexivity. Qed.

Lemma mask_bits_masked dwmac reg mask value w :
  is_u32 mask ->
  meson8b_dwmac_mask_bits dwmac reg mask value w
  = (Ok tt, masked w reg mask value).
Proof. apply mask_bits_result. Qed.

Lemma select_delay_config_run dwmac w :
  select_delay_config dwmac w
  = match combine_by_mode (phy_mode dwmac)
            (tx_dly_config dwmac) (rx_dly_config dwmac) with
    | Some dv => (Ok dv, w)
    | None => (Err (- EINVAL), log (EvDevErr UnsupportedPhyMode) w)
    end.
Proof.
  unfold select_delay_config. destruct (phy_mode dwmac); reflexivity.
Qed.

Lemma clk_prepare_enable_run ccf c w :
  clk_prepare_enable ccf c w
  = (Ok (fst (ccf_prepare_enable ccf c w)),
     mk_world (snd (ccf_prepare_enable ccf c w))
              (trace w ++ [EvClkPrepareEnable c
                             (fst (ccf_prepare_enable ccf c w))])).
Proof.
  unfold clk_prepare_enable. destruct (ccf_prepare_enable ccf c w).
  reflexivity.
Qed.

Lemma clk_set_rate_run ccf c rate w :
  clk_set_rate ccf c rate w
  = (Ok (fst (ccf_set_rate ccf c rate w)),
     mk_world (snd (ccf_set_rate ccf c rate w))
              (trace w ++ [EvClkSetRate c rate
                             (fst (ccf_set_rate ccf c rate w))])).
Proof.
  unfold clk_set_rate. destruct (ccf_set_rate ccf c rate w). reflexivity.
Qed.

Lemma devm_clk_prepare_enable_run ccf dwmac c w :
  int_of (meson8b_devm_clk_prepare_enable ccf dwmac c) w
  = let o := ccf_prepare_enable ccf c w in
    (Ok (fst o),
     mk_world (snd o)
       (trace w ++ EvClkPrepareEnable c (fst o)
          :: if fst o =? 0 then [EvDevmAddAction (rgmii_tx_clk dwmac)]
             else [])).
Proof.
  unfold int_of, meson8b_devm_clk_prepare_enable, bind.
  rewrite clk_prepare_enable_run. cbv zeta.
  destruct (fst (ccf_prepare_enable ccf c w) =? 0) eqn:E; cbn [negb].
  - apply Z.eqb_eq in E. unfold emit, log. cbn [regs trace].
    rewrite <- app_assoc, E. reflexivity.
  - unfold throw. reflexivity.
Qed.

Lemma enable_timing_adj_run ccf dwmac w :
  enable_timing_adj ccf dwmac w
  = if rx_delay_ns dwmac =? 2 then
      match timing_adj_clk dwmac with
      | None =>
          (Err (- EINVAL), log (EvDevErr MissingTimingAdjustmentClock) w)
      | Some c =>
          let o := ccf_prepare_enable ccf (Some c) w in
          if fst o =? 0 then
            (Ok tt,
             mk_world (snd o)
               (trace w ++ [EvClkPrepareEnable (Some c) 0;
                            EvDevmAddAction (rgmii_tx_clk dwmac)]))
          else
            (Err (fst o),
             mk_world (snd o)
               (trace w ++ [EvClkPrepareEnable (Some c) (fst o);
                            EvDevErr "Failed to enable the timing-adjustment clock\n"]))
      end
    else (Ok tt, w).
Proof.
  unfold enable_timing_adj. rewrite rx_enable_test.
  destruct (rx_delay_ns dwmac =? 2); [|reflexivity].
  destruct (timing_adj_clk dwmac) as [c|] eqn:Hc; [|reflexivity].
  unfold bind at 1. rewrite devm_clk_prepare_enable_run. cbv beta iota zeta.
  destruct (fst (ccf_prepare_enable ccf (Some c) w) =? 0) eqn:E;
    cbv beta iota delta [negb].
  - apply Z.eqb_eq in E. rewrite E. reflexivity.
  - unfold bind, dev_err, emit, throw, log. cbn [regs trace].
    rewrite <- app_assoc. reflexivity.
Qed.

Lemma setup_tx_clk_run ccf dwmac w :
  setup_tx_clk ccf dwmac w
  = if phy_interface_mode_is_rgmii (phy_mode dwmac) then
      let tx := rgmii_tx_clk dwmac in
      let w1 := masked w PRG_ETH0 PRG_ETH0_INVERTED_RMII_CLK 0 in
      let o1 := ccf_set_rate ccf tx 125000000 w1 in
      let w2 := mk_world (snd o1)
                  (trace w1 ++ [EvClkSetRate tx 125000000 (fst o1)]) in
      if fst o1 =? 0 then
        let o2 := ccf_prepare_enable ccf tx w2 in
        if fst o2 =? 0 then
          (Ok tt,
           mk_world (snd o2)
             (trace w2 ++ [EvClkPrepareEnable tx 0; EvDevmAddAction tx]))
        else
          (Err (fst o2),
           mk_world (snd o2)
             (trace w2 ++ [EvClkPrepareEnable tx (fst o2);
                           EvDevErr "failed to enable the RGMII TX clock\n"]))
      else
        (Err (fst o1), log (EvDevErr "failed to set RGMII TX clock\n") w2)
    else
      (Ok tt, masked w PRG_ETH0
                PRG_ETH0_INVERTED_RMII_CLK PRG_ETH0_INVERTED_RMII_CLK).
Proof.
  assert (H11 : is_u32 PRG_ETH0_INVERTED_RMII_CLK)
    by (apply is_u32_const; reflexivity).
  unfold setup_tx_clk.
  destruct (phy_interface_mode_is_rgmii (phy_mode dwmac));
    [|apply mask_bits_masked; exact H11].
  unfold bind at 1. rewrite mask_bits_masked by exact H11.
  unfold bind at 1. rewrite clk_set_rate_run.
  change (125 * 1000 * 1000) with 125000000. cbv beta iota zeta.
  set (w1 := masked w PRG_ETH0 PRG_ETH0_INVERTED_RMII_CLK 0).
  destruct (fst (ccf_set_rate ccf (rgmii_tx_clk dwmac) 125000000 w1) =? 0)
    eqn:E1; cbv beta iota delta [negb].
  - unfold bind at 1. rewrite devm_clk_prepare_enable_run.
    cbv beta iota zeta.
    match goal with |- context [ccf_prepare_enable ccf ?c ?x] =>
      set (o2 := ccf_prepare_enable ccf c x) end.
    destruct (fst o2 =? 0) eqn:E2; cbv beta iota delta [negb].
    + apply Z.eqb_eq in E2. rewrite E2. reflexivity.
    + unfold bind, dev_err, emit, throw, log. cbn [regs trace].
      rewrite <- app_assoc. reflexivity.
  - reflexivity.
Qed.

Lemma meson8b_init_prg_eth_run ccf dwmac w :
  meson8b_init_prg_eth ccf dwmac w
  = match combine_by_mode (phy_mode dwmac)
            (tx_dly_config dwmac) (rx_dly_config dwmac) with
    | None => (Err (- EINVAL), log (EvDevErr UnsupportedPhyMode) w)
    | Some dv =>
        match enable_timing_adj ccf dwmac w with
        | (Err e, w1) => (Err e, w1)
        | (Ok _, w1) =>
            match setup_tx_clk ccf dwmac
                    (masked w1 PRG_ETH0 PRG_ETH0_DELAY_ADJ_MASK dv) with
            | (Err e, w3) => (Err e, w3)
            | (Ok _, w3) =>
                (Ok tt, masked w3 PRG_ETH0 PRG_ETH0_TX_AND_PHY_REF_CLK
                          PRG_ETH0_TX_AND_PHY_REF_CLK)
            end
        end
    end.
Proof.
  assert (HM : is_u32 PRG_ETH0_DELAY_ADJ_MASK)
    by (apply is_u32_const; reflexivity).
  assert (H12 : is_u32 PRG_ETH0_TX_AND_PHY_REF_CLK)
    by (apply is_u32_const; reflexivity).
  rewrite meson8b_init_prg_eth_stages. unfold bind at 1.
  rewrite select_delay_config_run.
  destruct (combine_by_mode _ _ _) as [dv|]; [|reflexivity].
  unfold bind at 1.
  destruct (enable_timing_adj ccf dwmac w) as [[[]|e] w1]; [|reflexivity].
  unfold bind at 1. rewrite mask_bits_masked by exact HM.
  unfold bind at 1.
  destruct (setup_tx_clk ccf dwmac _) as [[[]|e] w3]; [|reflexivity].
  apply mask_bits_masked. exact H12.
Qed.

(** ** Frame facts *)

Lemma masked_field w reg mask value :
  is_u32 mask ->
  Z.land (read_back (masked w reg mask value) reg) mask = Z.land value mask.
Proof.
  intros Hm. unfold masked.
  rewrite read_back_upd by (apply rmw_is_u32; [apply read_back_is_u32|exact Hm]).
  apply rmw_inside.
Qed.

Lemma masked_keeps w reg mask value keep :
  is_u32 mask -> Z.land mask keep = 0 ->
  Z.land (read_back (masked w reg mask value) reg) keep
  = Z.land (read_back w reg) keep.
Proof.
  intros Hm Hd. unfold masked.
  rewrite read_back_upd by (apply rmw_is_u32; [apply read_back_is_u32|exact Hm]).
  apply rmw_outside. exact Hd.
Qed.

Lemma masked_other w reg mask value reg' :
  reg' <> reg -> regs (masked w reg mask value) reg' = regs w reg'.
Proof. intros H. unfold masked. cbn [regs]. apply upd_other. exact H. Qed.

Lemma enable_timing_adj_trace ccf dwmac w :
  exists pre,
    trace (snd (enable_timing_adj ccf dwmac w)) = trace w ++ pre /\
    no_write pre.
Proof.
  rewrite enable_timing_adj_run.
  destruct (rx_delay_ns dwmac =? 2).
  - destruct (timing_adj_clk dwmac) as [c|].
    + cbv zeta. destruct (fst (ccf_prepare_enable ccf (Some c) w) =? 0);
        eexists; (split; [reflexivity | reflexivity]).
    + eexists. split; reflexivity.
  - exists []. split; [symmetry; apply app_nil_r | reflexivity].
Qed.

Lemma enable_timing_adj_keeps ccf dwmac w reg keep :
  ccf_preserves ccf reg keep ->
  Z.land (read_back (snd (enable_timing_adj ccf dwmac w)) reg) keep
  = Z.land (read_back w reg) keep.
Proof.
  intros [_ Hen]. rewrite enable_timing_adj_run.
  destruct (rx_delay_ns dwmac =? 2); [|reflexivity].
  destruct (timing_adj_clk dwmac) as [c|]; [|reflexivity].
  cbv zeta. destruct (fst (ccf_prepare_enable ccf (Some c) w) =? 0);
    apply Hen.
Qed.

Lemma setup_tx_clk_keeps ccf dwmac w keep :
  ccf_preserves ccf PRG_ETH0 keep ->
  Z.land PRG_ETH0_INVERTED_RMII_CLK keep = 0 ->
  Z.land (read_back (snd (setup_tx_clk ccf dwmac w)) PRG_ETH0) keep
  = Z.land (read_back w PRG_ETH0) keep.
Proof.
  intros [Hsr Hen] Hd.
  assert (H11 : is_u32 PRG_ETH0_INVERTED_RMII_CLK)
    by (apply is_u32_const; reflexivity).
  rewrite setup_tx_clk_run.
  destruct (phy_interface_mode_is_rgmii (phy_mode dwmac));
    [|apply masked_keeps; assumption].
  cbv zeta.
  set (w1 := masked w PRG_ETH0 PRG_ETH0_INVERTED_RMII_CLK 0).
  assert (H1 : Z.land (read_back w1 PRG_ETH0) keep
               = Z.land (read_back w PRG_ETH0) keep)
    by (apply masked_keeps; assumption).
  set (o1 := ccf_set_rate ccf (rgmii_tx_clk dwmac) 125000000 w1).
  assert (H2 : Z.land (u32 (snd o1 PRG_ETH0)) keep
               = Z.land (read_back w PRG_ETH0) keep)
    by (rewrite <- H1; apply Hsr).
  destruct (fst o1 =? 0); [|exact H2].
  match goal with |- context [ccf_prepare_enable ccf ?c ?x] =>
    set (o2 := ccf_prepare_enable ccf c x);
    assert (H3 : Z.land (u32 (snd o2 PRG_ETH0)) keep
                 = Z.land (read_back w PRG_ETH0) keep)
      by (rewrite <- H2; apply (Hen c x))
  end.
  destruct (fst o2 =? 0); exact H3.
Qed.

Lemma setup_tx_clk_extends ccf dwmac w :
  exists rest, trace (snd (setup_tx_clk ccf dwmac w)) = trace w ++ rest.
Proof.
  rewrite setup_tx_clk_run.
  destruct (phy_interface_mode_is_rgmii (phy_mode dwmac)).
  - cbv zeta.
    destruct (fst (ccf_set_rate ccf _ _ _) =? 0).
    + destruct (fst (ccf_prepare_enable ccf _ _) =? 0);
        unfold masked; cbn [snd trace]; rewrite <- !app_assoc;
        eexists; reflexivity.
    + unfold masked, log; cbn [snd trace]; rewrite <- !app_assoc.
      eexists; reflexivity.
  - unfold masked; cbn [snd trace]. eexists; reflexivity.
Qed.

Lemma field_zero_of_land mask other dv :
  Z.land dv (Z.lor mask other) = 0 -> FIELD_GET mask dv = 0.
Proof.
  intros H. rewrite Z.land_lor_distr_r in H.
  apply Z.lor_eq_0_iff in H. destruct H as [H _].
  unfold FIELD_GET. rewrite H. apply Z.shiftr_0_l.
Qed.

(** C1.  In each of the five modes the delay/adjust write of
    [meson8b_init_prg_eth] is the first register write of the function: a
    read-modify-write of offset 0x0 under the mask made of the tx-delay field
    (bits 6:5), adjust-enable (bit 13), adjust-setup (bit 14), adjust-delay
    (bits 19:15) and adjust-skew (bits 24:20), with the value the mode
    selects (RGMII: tx bits OR rx adjust bits; RGMII_RXID: tx bits;
    RGMII_TXID: rx adjust bits; RGMII_ID and RMII: zero), whose adjust-delay
    and adjust-skew sub-fields are zero.  When the clock framework leaves the
    masked bits alone, they still hold that value when the function returns,
    so no later action rewrites them.  When the timing-adjustment block
    fails, the function returns its error and has written nothing.  In any
    other mode the function logs "unsupported phy-mode" and returns -EINVAL
    without touching a register. *)
Theorem delay_adjust_write ccf dwmac w :
  let r := meson8b_init_prg_eth ccf dwmac w in
  let mask :=
    Z.lor (GENMASK 6 5)
      (Z.lor (BIT 13) (Z.lor (BIT 14)
         (Z.lor (GENMASK 19 15) (GENMASK 24 20)))) in
  match combine_by_mode (phy_mode dwmac)
          (tx_dly_config dwmac) (rx_dly_config dwmac) with
  | Some dv =>
      FIELD_GET (GENMASK 19 15) dv = 0 /\
      FIELD_GET (GENMASK 24 20) dv = 0 /\
      forall res w1,
        enable_timing_adj ccf dwmac w = (res, w1) ->
        exists pre,
          trace w1 = trace w ++ pre /\ no_write pre /\
          match res with
          | Err e => r = (Err e, w1)
          | Ok _ =>
              let old := read_back w1 PRG_ETH0 in
              exists rest,
                trace (snd r)
                = trace w1 ++ EvReadl PRG_ETH0 old
                    :: EvWritel (rmw old mask dv) PRG_ETH0 :: rest /\
                (ccf_preserves ccf PRG_ETH0 mask ->
                 Z.land (read_back (snd r) PRG_ETH0) mask = dv)
          end
  | None =>
      r = (Err (- EINVAL), log (EvDevErr UnsupportedPhyMode) w)
  end.
Proof.
  intros r mask.
  replace mask with PRG_ETH0_DELAY_ADJ_MASK by reflexivity. clear mask.
  subst r. rewrite meson8b_init_prg_eth_run.
  destruct (combine_by_mode _ _ _) as [dv|] eqn:Hdv; [|reflexivity].
  destruct (combine_by_mode_bits dwmac dv Hdv) as [Hz Hin].
  split.
  { apply (field_zero_of_land _ PRG_ETH0_ADJ_SKEW). exact Hz. }
  split.
  { apply (field_zero_of_land _ PRG_ETH0_ADJ_DELAY).
    rewrite Z.lor_comm. exact Hz. }
  intros res w1 Hgate.
  destruct (enable_timing_adj_trace ccf dwmac w) as [pre [Hpre Hnw]].
  rewrite Hgate in Hpre. cbn [snd] in Hpre.
  exists pre. split; [exact Hpre|]. split; [exact Hnw|].
  rewrite Hgate. destruct res as [[]|e]; [|reflexivity].
  cbv zeta.
  set (w2 := masked w1 PRG_ETH0 PRG_ETH0_DELAY_ADJ_MASK dv).
  assert (HM : is_u32 PRG_ETH0_DELAY_ADJ_MASK)
    by (apply is_u32_const; reflexivity).
  assert (H12 : is_u32 PRG_ETH0_TX_AND_PHY_REF_CLK)
    by (apply is_u32_const; reflexivity).
  destruct (setup_tx_clk_extends ccf dwmac w2) as [rest Hrest].
  assert (Hkeep : ccf_preserves ccf PRG_ETH0 PRG_ETH0_DELAY_ADJ_MASK ->
                  Z.land (read_back (snd (setup_tx_clk ccf dwmac w2)) PRG_ETH0)
                    PRG_ETH0_DELAY_ADJ_MASK = dv).
  { intros Hccf. rewrite setup_tx_clk_keeps by (exact Hccf || reflexivity).
    unfold w2. rewrite masked_field by exact HM. exact Hin. }
  destruct (setup_tx_clk ccf dwmac w2) as [[[]|e] w3];
    cbn [snd] in Hrest, Hkeep |- *.
  - exists (rest ++ [EvReadl PRG_ETH0 (read_back w3 PRG_ETH0);
                     EvWritel (rmw (read_back w3 PRG_ETH0)
                                 PRG_ETH0_TX_AND_PHY_REF_CLK
                                 PRG_ETH0_TX_AND_PHY_REF_CLK) PRG_ETH0]).
    split.
    + unfold masked at 1. cbn [trace]. rewrite Hrest.
      unfold w2, masked. cbn [trace]. rewrite <- !app_assoc. reflexivity.
    + intros Hccf. rewrite masked_keeps by (exact H12 || reflexivity).
      apply Hkeep. exact Hccf.
  - exists rest. split.
    + rewrite Hrest. unfold w2, masked. cbn [trace].
      rewrite <- !app_assoc. reflexivity.
    + exact Hkeep.
Qed.

(** ** Success and failure of [meson8b_init_prg_eth] *)

Lemma supported_mode_combine m tx rx :
  supported_mode m = true <-> combine_by_mode m tx rx <> None.
Proof.
  destruct m; cbv beta iota delta [supported_mode combine_by_mode];
    split; intros H; congruence.
Qed.

Lemma supported_mode_family m :
  supported_mode m = true ->
  phy_interface_mode_is_rgmii m = negb
    (match m with PHY_INTERFACE_MODE_RMII => true | _ => false end).
Proof. destruct m; intros H; try discriminate H; reflexivity. Qed.

Lemma enable_timing_adj_ok ccf dwmac w :
  ccf_succeeds ccf -> timing_adj_available dwmac ->
  fst (enable_timing_adj ccf dwmac w) = Ok tt.
Proof.
  intros [_ Hen] Hav. rewrite enable_timing_adj_run.
  destruct (rx_delay_ns dwmac =? 2) eqn:E; [|reflexivity].
  apply Z.eqb_eq in E.
  destruct (timing_adj_clk dwmac) as [c|] eqn:Hc.
  - cbv zeta. rewrite Hen. reflexivity.
  - exfalso. apply Hav. split; [exact E | exact Hc].
Qed.

Lemma setup_tx_clk_ok ccf dwmac w :
  ccf_succeeds ccf -> fst (setup_tx_clk ccf dwmac w) = Ok tt.
Proof.
  intros [Hsr Hen]. rewrite setup_tx_clk_run.
  destruct (phy_interface_mode_is_rgmii (phy_mode dwmac)); [|reflexivity].
  cbv zeta. rewrite Hsr, Hen. reflexivity.
Qed.

Lemma meson8b_init_prg_eth_ok ccf dwmac w :
  ccf_succeeds ccf -> supported_mode (phy_mode dwmac) = true ->
  timing_adj_available dwmac ->
  fst (meson8b_init_prg_eth ccf dwmac w) = Ok tt.
Proof.
  intros Hccf Hm Hav. rewrite meson8b_init_prg_eth_run.
  apply (supported_mode_combine _ (tx_dly_config dwmac) (rx_dly_config dwmac))
    in Hm.
  destruct (combine_by_mode _ _ _) as [dv|]; [|congruence].
  pose proof (enable_timing_adj_ok ccf dwmac w Hccf Hav) as Hg.
  destruct (enable_timing_adj ccf dwmac w) as [[[]|e] w1];
    [|discriminate Hg].
  pose proof (setup_tx_clk_ok ccf dwmac
                (masked w1 PRG_ETH0 PRG_ETH0_DELAY_ADJ_MASK dv) Hccf) as Hs.
  destruct (setup_tx_clk ccf dwmac _) as [[[]|e] w3]; [|discriminate Hs].
  reflexivity.
Qed.

Lemma meson8b_init_prg_eth_missing_clk ccf dwmac w :
  supported_mode (phy_mode dwmac) = true ->
  rx_delay_ns dwmac = 2 -> timing_adj_clk dwmac = None ->
  meson8b_init_prg_eth ccf dwmac w
  = (Err (- EINVAL), log (EvDevErr MissingTimingAdjustmentClock) w).
Proof.
  intros Hm Hrx Hc. rewrite meson8b_init_prg_eth_run.
  apply (supported_mode_combine _ (tx_dly_config dwmac) (rx_dly_config dwmac))
    in Hm.
  destruct (combine_by_mode _ _ _) as [dv|]; [|congruence].
  rewrite enable_timing_adj_run, Hrx, Hc. reflexivity.
Qed.

Ltac split_if :=
  cbv beta iota zeta;
  match goal with
  | |- context [if ?b then _ else _] => destruct b eqn:?
  end.

Ltac fail_with e :=
  let H := fresh in
  cbv beta iota zeta; cbn [fst]; intros H; inversion H; subst e.

Lemma meson8b_init_prg_eth_failures ccf dwmac w e :
  fst (meson8b_init_prg_eth ccf dwmac w) = Err e -> init_failure ccf dwmac e.
Proof.
  assert (Htx : forall w', fst (setup_tx_clk ccf dwmac w') = Err e ->
                           init_failure ccf dwmac e).
  { intros w'. rewrite setup_tx_clk_run.
    destruct (phy_interface_mode_is_rgmii (phy_mode dwmac));
      [|discriminate].
    split_if; [split_if; [discriminate|]|]; fail_with e.
    - eapply fail_clk_prepare_enable; [reflexivity | apply Z.eqb_neq; eassumption].
    - eapply fail_clk_set_rate; [reflexivity | apply Z.eqb_neq; eassumption]. }
  assert (Hrest : forall w1 dv,
            fst (match setup_tx_clk ccf dwmac
                         (masked w1 PRG_ETH0 PRG_ETH0_DELAY_ADJ_MASK dv) with
                 | (Err e0, w3) => (Err e0, w3)
                 | (Ok _, w3) =>
                     (Ok tt, masked w3 PRG_ETH0 PRG_ETH0_TX_AND_PHY_REF_CLK
                               PRG_ETH0_TX_AND_PHY_REF_CLK)
                 end) = Err e -> init_failure ccf dwmac e).
  { intros w1 dv.
    pose proof (Htx (masked w1 PRG_ETH0 PRG_ETH0_DELAY_ADJ_MASK dv)) as H.
    destruct (setup_tx_clk ccf dwmac _) as [[[]|e0] w3]; [discriminate|].
    exact H. }
  rewrite meson8b_init_prg_eth_run.
  destruct (combine_by_mode _ _ _) as [dv|] eqn:Hdv.
  - rewrite enable_timing_adj_run.
    destruct (rx_delay_ns dwmac =? 2) eqn:Erx; [|apply Hrest].
    apply Z.eqb_eq in Erx.
    destruct (timing_adj_clk dwmac) as [c|] eqn:Hc.
    + split_if; [apply Hrest|]. fail_with e.
      eapply fail_clk_prepare_enable; [reflexivity | apply Z.eqb_neq; eassumption].
    + fail_with e. apply fail_missing_timing_adj; assumption.
  - fail_with e. apply fail_unsupported_mode.
    destruct (supported_mode (phy_mode dwmac)) eqn:Hs; [|reflexivity].
    apply (supported_mode_combine _ (tx_dly_config dwmac)
             (rx_dly_config dwmac)) in Hs. congruence.
Qed.

(** ** The concrete board *)

Lemma board_ccf_succeeds : ccf_succeeds board_ccf.
Proof. split; intros; reflexivity. Qed.

Lemma board_ccf_preserves keep :
  Z.land PRG_ETH0_CLK_M250_SEL_MASK keep = 0 ->
  Z.land (GENMASK 9 7) keep = 0 ->
  Z.land (BIT PRG_ETH0_RGMII_TX_CLK_EN) keep = 0 ->
  ccf_preserves board_ccf PRG_ETH0 keep.
Proof.
  intros Hsel Hdiv Hen.
  assert (U1 : is_u32 PRG_ETH0_CLK_M250_SEL_MASK)
    by (apply is_u32_const; reflexivity).
  assert (U2 : is_u32 (GENMASK 9 7)) by (apply is_u32_const; reflexivity).
  assert (U3 : is_u32 (BIT PRG_ETH0_RGMII_TX_CLK_EN))
    by (apply is_u32_const; reflexivity).
  split.
  - intros c rate w. cbn [board_ccf ccf_set_rate snd].
    destruct (is_board_tx_clk c); [|reflexivity].
    rewrite upd_same, u32_small
      by (repeat apply rmw_is_u32; auto using read_back_is_u32).
    rewrite !rmw_outside by assumption. reflexivity.
  - intros c w. cbn [board_ccf ccf_prepare_enable snd].
    destruct (is_board_tx_clk c); [|reflexivity].
    rewrite upd_same, u32_small
      by (repeat apply rmw_is_u32; auto using read_back_is_u32).
    rewrite !rmw_outside by assumption. reflexivity.
Qed.

(** ** The delay/adjust write and what follows it *)

Lemma rmw_inside_sub old mask value sub :
  Z.land sub mask = sub ->
  Z.land (rmw old mask value) sub = Z.land value sub.
Proof.
  intros Hs. rewrite <- Hs.
  rewrite (Z.land_comm sub mask), !Z.land_assoc, rmw_inside. reflexivity.
Qed.

Lemma meson8b_init_prg_eth_delay_write ccf dwmac w w1 dv :
  combine_by_mode (phy_mode dwmac) (tx_dly_config dwmac) (rx_dly_config dwmac)
  = Some dv ->
  enable_timing_adj ccf dwmac w = (Ok tt, w1) ->
  exists rest,
    trace (snd (meson8b_init_prg_eth ccf dwmac w))
    = trace w1 ++ EvReadl PRG_ETH0 (read_back w1 PRG_ETH0)
        :: EvWritel (rmw (read_back w1 PRG_ETH0) PRG_ETH0_DELAY_ADJ_MASK dv)
             PRG_ETH0 :: rest.
Proof.
  intros Hdv Hgate. rewrite meson8b_init_prg_eth_run, Hdv, Hgate.
  set (w2 := masked w1 PRG_ETH0 PRG_ETH0_DELAY_ADJ_MASK dv).
  destruct (setup_tx_clk_extends ccf dwmac w2) as [rest Hrest].
  destruct (setup_tx_clk ccf dwmac w2) as [[[]|e] w3]; cbn [snd] in Hrest |- *.
  - eexists. unfold masked at 1. cbn [trace]. rewrite Hrest.
    unfold w2, masked. cbn [trace]. rewrite <- !app_assoc. reflexivity.
  - exists rest. rewrite Hrest. unfold w2, masked. cbn [trace].
    rewrite <- !app_assoc. reflexivity.
Qed.

Lemma tx_field_of_combined dwmac dv old :
  combine_by_mode (phy_mode dwmac) (tx_dly_config dwmac) (rx_dly_config dwmac)
  = Some dv ->
  FIELD_GET PRG_ETH0_TXDLY_MASK (rmw old PRG_ETH0_DELAY_ADJ_MASK dv)
  = match phy_mode dwmac with
    | PHY_INTERFACE_MODE_RGMII
    | PHY_INTERFACE_MODE_RGMII_RXID => shr32 (tx_delay_ns dwmac) 1 mod 4
    | _ => 0
    end.
Proof.
  intros Hdv. unfold FIELD_GET at 1.
  rewrite rmw_inside_sub by reflexivity.
  assert (Hrx : Z.land (rx_dly_config dwmac) PRG_ETH0_TXDLY_MASK = 0)
    by (destruct (rx_dly_config_cases dwmac) as [[-> _] | [-> _]];
        reflexivity).
  pose proof (tx_dly_config_field dwmac) as Htx. unfold FIELD_GET in Htx.
  destruct (phy_mode dwmac);
    cbv beta iota delta [combine_by_mode] in Hdv; inversion Hdv; subst dv;
    try reflexivity.
  - rewrite Z.land_lor_distr_l, Hrx, Z.lor_0_r. exact Htx.
  - exact Htx.
  - rewrite Hrx. reflexivity.
Qed.

(** C3.  When the rx adjust bits carry the adjustment-enabled flag (which is
    exactly when rx_delay_ns = 2) and there is no timing-adjustment clock,
    [meson8b_init_prg_eth] returns -EINVAL, having only logged the error
    (the missing-clock line in the five modes of the spec's InterfaceMode):
    no register was written and the register file is unchanged. *)
Theorem missing_timing_adjustment_clock ccf dwmac w :
  Z.land (rx_dly_config dwmac) PRG_ETH0_ADJ_ENABLE <> 0 ->
  timing_adj_clk dwmac = None ->
  let r := meson8b_init_prg_eth ccf dwmac w in
  rx_delay_ns dwmac = 2 /\
  fst r = Err (- EINVAL) /\
  trace (snd r)
  = trace w ++ [EvDevErr (if supported_mode (phy_mode dwmac)
                          then MissingTimingAdjustmentClock
                          else UnsupportedPhyMode)] /\
  regs (snd r) = regs w.
Proof.
  intros Hen Hc r.
  assert (Hrx : rx_delay_ns dwmac = 2).
  { destruct (rx_dly_config_cases dwmac) as [[_ H] | [H _]]; [exact H|].
    rewrite H in Hen. exfalso. apply Hen. reflexivity. }
  split; [exact Hrx|]. subst r.
  destruct (supported_mode (phy_mode dwmac)) eqn:Hs.
  - rewrite (meson8b_init_prg_eth_missing_clk ccf dwmac w Hs Hrx Hc).
    repeat split.
  - rewrite meson8b_init_prg_eth_run.
    destruct (combine_by_mode _ _ _) as [dv|] eqn:Hdv; [|repeat split].
    assert (Hs' : supported_mode (phy_mode dwmac) = true)
      by (eapply supported_mode_combine; rewrite Hdv; discriminate).
    congruence.
Qed.

Lemma testbit_of_land_pow2 x y n :
  0 <= n -> Z.land x (2 ^ n) = Z.land y (2 ^ n) ->
  Z.testbit x n = Z.testbit y n.
Proof.
  intros Hn H.
  assert (Hb : Z.testbit (Z.land x (2 ^ n)) n = Z.testbit (Z.land y (2 ^ n)) n)
    by (rewrite H; reflexivity).
  rewrite !Z.land_spec, Z.pow2_bits_true, !andb_true_r in Hb by exact Hn.
  exact Hb.
Qed.

(** C8.  On a successful run, what follows the delay/adjust write is: in an
    RGMII-family mode, a read-modify-write clearing the inverted-RMII-clock
    bit (bit 11), then [clk_set_rate] of the TX clock to 125 MHz and its
    prepare-and-enable; in the remaining mode, RMII, a read-modify-write
    setting bit 11 and no clock call at all.  In both cases the run ends with
    the read-modify-write that sets the TX-and-PHY-reference-clock bit
    (bit 12), which is the last event, and bit 12 reads back as set.  When
    the clock framework leaves bit 11 alone it reads back clear for the
    RGMII family and set for RMII. *)
Theorem tx_clock_then_reference_enable ccf dwmac w w1 dv :
  combine_by_mode (phy_mode dwmac) (tx_dly_config dwmac) (rx_dly_config dwmac)
  = Some dv ->
  enable_timing_adj ccf dwmac w = (Ok tt, w1) ->
  let r := meson8b_init_prg_eth ccf dwmac w in
  fst r = Ok tt ->
  let w2 := masked w1 PRG_ETH0 PRG_ETH0_DELAY_ADJ_MASK dv in
  let old := read_back w2 PRG_ETH0 in
  let tx := rgmii_tx_clk dwmac in
  let rgmii := phy_interface_mode_is_rgmii (phy_mode dwmac) in
  exists o2,
    trace (snd r)
    = trace w2
      ++ (if rgmii
          then [EvReadl PRG_ETH0 old;
                EvWritel (rmw old (BIT 11) 0) PRG_ETH0;
                EvClkSetRate tx 125000000 0;
                EvClkPrepareEnable tx 0;
                EvDevmAddAction tx]
          else [EvReadl PRG_ETH0 old;
                EvWritel (rmw old (BIT 11) (BIT 11)) PRG_ETH0])
      ++ [EvReadl PRG_ETH0 o2; EvWritel (rmw o2 (BIT 12) (BIT 12)) PRG_ETH0] /\
    Z.testbit (rmw old (BIT 11) 0) 11 = false /\
    Z.testbit (rmw old (BIT 11) (BIT 11)) 11 = true /\
    Z.testbit (rmw o2 (BIT 12) (BIT 12)) 12 = true /\
    read_back (snd r) PRG_ETH0 = rmw o2 (BIT 12) (BIT 12) /\
    (rgmii = false ->
     phy_mode dwmac = PHY_INTERFACE_MODE_RMII /\
     o2 = rmw old (BIT 11) (BIT 11)) /\
    (ccf_preserves ccf PRG_ETH0 (BIT 11) ->
     Z.testbit (read_back (snd r) PRG_ETH0) 11 = negb rgmii).
Proof.
  intros Hdv Hgate r Hok w2 old tx rgmii.
  assert (H11 : is_u32 (BIT 11)) by (apply is_u32_const; reflexivity).
  assert (H12 : is_u32 (BIT 12)) by (apply is_u32_const; reflexivity).
  assert (Hs : supported_mode (phy_mode dwmac) = true)
    by (eapply supported_mode_combine; rewrite Hdv; discriminate).
  assert (Hbits : forall o v,
            Z.testbit (rmw o (BIT 11) 0) 11 = false /\
            Z.testbit (rmw o (BIT 11) (BIT 11)) 11 = true /\
            Z.testbit (rmw v (BIT 12) (BIT 12)) 12 = true /\
            Z.testbit (rmw v (BIT 12) (BIT 12)) 11 = Z.testbit v 11).
  { intros o v. rewrite !rmw_testbit by lia. repeat split. }
  assert (Hfinal : forall w3,
            read_back (masked w3 PRG_ETH0 (BIT 12) (BIT 12)) PRG_ETH0
            = rmw (read_back w3 PRG_ETH0) (BIT 12) (BIT 12)).
  { intros w3. unfold masked. apply read_back_upd.
    apply rmw_is_u32; [apply read_back_is_u32 | exact H12]. }
  subst r. rewrite meson8b_init_prg_eth_run, Hdv, Hgate in Hok |- *.
  fold w2 in Hok |- *. rewrite setup_tx_clk_run in Hok |- *. fold rgmii tx.
  fold rgmii tx in Hok.
  change PRG_ETH0_INVERTED_RMII_CLK with (BIT 11) in *.
  change PRG_ETH0_TX_AND_PHY_REF_CLK with (BIT 12) in *.
  destruct rgmii eqn:Hfam.
  - cbv zeta in Hok |- *.
    set (wa := masked w2 PRG_ETH0 (BIT 11) 0) in *.
    set (o1 := ccf_set_rate ccf tx 125000000 wa) in *.
    destruct (fst o1 =? 0) eqn:E1; [|discriminate Hok].
    set (wb := mk_world (snd o1)
                 (trace wa ++ [EvClkSetRate tx 125000000 (fst o1)])) in *.
    set (o3 := ccf_prepare_enable ccf tx wb) in *.
    destruct (fst o3 =? 0) eqn:E3; [|discriminate Hok].
    apply Z.eqb_eq in E1. cbv beta iota. cbn [snd].
    set (wc := mk_world (snd o3) _).
    exists (read_back wc PRG_ETH0).
    destruct (Hbits old (read_back wc PRG_ETH0)) as [B1 [B2 [B3 B4]]].
    split.
    { unfold masked at 1. cbn [trace]. unfold wc. cbn [trace].
      unfold wb. cbn [trace]. rewrite E1. unfold wa, masked. cbn [trace].
      fold old. rewrite <- !app_assoc. reflexivity. }
    split; [exact B1|]. split; [exact B2|]. split; [exact B3|].
    split; [apply Hfinal|]. split; [discriminate|].
    intros [Hsr Hen]. rewrite Hfinal, B4.
    apply (testbit_of_land_pow2 _ 0 11); [lia|].
    change (2 ^ 11) with (BIT 11).
    unfold wc, read_back. cbn [regs]. fold o3. unfold o3. rewrite Hen.
    unfold wb. cbn [regs]. unfold o1. rewrite Hsr.
    fold (read_back wa PRG_ETH0). unfold wa.
    rewrite masked_field by exact H11. reflexivity.
  - cbv beta iota. cbn [snd].
    set (wa := masked w2 PRG_ETH0 (BIT 11) (BIT 11)).
    exists (read_back wa PRG_ETH0).
    destruct (Hbits old (read_back wa PRG_ETH0)) as [B1 [B2 [B3 B4]]].
    assert (Hwa : read_back wa PRG_ETH0 = rmw old (BIT 11) (BIT 11)).
    { unfold wa, masked. apply read_back_upd.
      apply rmw_is_u32; [apply read_back_is_u32 | exact H11]. }
    split.
    { unfold masked at 1. cbn [trace]. unfold wa, masked. cbn [trace].
      fold old. rewrite <- !app_assoc. reflexivity. }
    split; [exact B1|]. split; [exact B2|]. split; [exact B3|].
    split; [apply Hfinal|]. split.
    { intros _. split; [|exact Hwa].
      pose proof (supported_mode_family _ Hs) as Hf. fold rgmii in Hf.
      rewrite Hfam in Hf. destruct (phy_mode dwmac); try discriminate Hf;
        try discriminate Hs. reflexivity. }
    intros _. rewrite Hfinal, B4, Hwa. exact B2.
Qed.

Lemma init_failure_ignores_tx ccf dwmac dwmac' e :
  phy_mode dwmac' = phy_mode dwmac ->
  rx_delay_ns dwmac' = rx_delay_ns dwmac ->
  timing_adj_clk dwmac' = timing_adj_clk dwmac ->
  init_failure ccf dwmac e -> init_failure ccf dwmac' e.
Proof.
  intros Hm Hrx Hc H. destruct H.
  - apply fail_unsupported_mode. congruence.
  - apply fail_missing_timing_adj; congruence.
  - eapply fail_clk_prepare_enable; eassumption.
  - eapply fail_clk_set_rate; eassumption.
Qed.

(** C10 (as the code has it).  For every 32-bit tx_delay_ns the transmit
    bits are [(tx_delay_ns >> 1) mod 4] placed at bits 6:5, so a value
    outside {0, 2, 4, 6} is truncated into the field, not rejected.  The
    delay/adjust write carries that field in the modes RGMII and RGMII_RXID
    and zero in RGMII_TXID, RGMII_ID and RMII.  A failure of
    [meson8b_init_prg_eth] is always an unsupported mode, a missing
    timing-adjustment clock or a failing clock-framework call, a cause that
    stays one when only tx_delay_ns is changed; with none of them the
    function succeeds. *)
Theorem tx_delay_silently_truncated ccf dwmac w :
  let r := meson8b_init_prg_eth ccf dwmac w in
  let field := (u32 (tx_delay_ns dwmac) / 2) mod 4 in
  tx_dly_config dwmac = Z.shiftl field 5 /\
  FIELD_GET (GENMASK 6 5) (tx_dly_config dwmac) = field /\
  (forall dv w1,
     combine_by_mode (phy_mode dwmac)
       (tx_dly_config dwmac) (rx_dly_config dwmac) = Some dv ->
     enable_timing_adj ccf dwmac w = (Ok tt, w1) ->
     exists v rest,
       trace (snd r)
       = trace w1 ++ EvReadl PRG_ETH0 (read_back w1 PRG_ETH0)
           :: EvWritel v PRG_ETH0 :: rest /\
       FIELD_GET (GENMASK 6 5) v
       = match phy_mode dwmac with
         | PHY_INTERFACE_MODE_RGMII
         | PHY_INTERFACE_MODE_RGMII_RXID => field
         | _ => 0
         end) /\
  (forall e, fst r = Err e ->
     init_failure ccf dwmac e /\
     forall dwmac',
       phy_mode dwmac' = phy_mode dwmac ->
       rx_delay_ns dwmac' = rx_delay_ns dwmac ->
       timing_adj_clk dwmac' = timing_adj_clk dwmac ->
       init_failure ccf dwmac' e) /\
  (ccf_succeeds ccf -> supported_mode (phy_mode dwmac) = true ->
   timing_adj_available dwmac -> fst r = Ok tt).
Proof.
  intros r field.
  assert (Hf : shr32 (tx_delay_ns dwmac) 1 mod 4 = field).
  { unfold shr32, field. rewrite Z.shiftr_div_pow2 by lia. reflexivity. }
  change (GENMASK 6 5) with PRG_ETH0_TXDLY_MASK.
  split; [rewrite tx_dly_config_val, Hf; reflexivity|].
  split; [rewrite tx_dly_config_field; exact Hf|].
  split.
  { intros dv w1 Hdv Hgate.
    destruct (meson8b_init_prg_eth_delay_write ccf dwmac w w1 dv Hdv Hgate)
      as [rest Hrest].
    eexists. exists rest. split; [exact Hrest|].
    rewrite (tx_field_of_combined dwmac dv _ Hdv), Hf. reflexivity. }
  split.
  { intros e He.
    pose proof (meson8b_init_prg_eth_failures ccf dwmac w e He) as Hfail.
    split; [exact Hfail|]. intros dwmac' Hm Hrx Hc.
    eapply init_failure_ignores_tx; eassumption. }
  intros Hccf Hs Hav. apply meson8b_init_prg_eth_ok; assumption.
Qed.

(** ** Events of a run *)

Lemma emits_pure {A} P (a : A) : emits P (pure a).
Proof.
  intros w. exists []. split; [symmetry; apply app_nil_r | constructor].
Qed.

Lemma emits_throw {A} P e : emits P (@throw A e).
Proof.
  intros w. exists []. split; [symmetry; apply app_nil_r | constructor].
Qed.

Lemma emits_emit P e : P e -> emits P (emit e).
Proof.
  intros He w. exists [e]. split; [reflexivity|].
  constructor; [exact He | constructor].
Qed.

Lemma emits_bind {A B} P (c : drv A) (k : A -> drv B) :
  emits P c -> (forall a, emits P (k a)) -> emits P (bind c k).
Proof.
  intros Hc Hk w. unfold bind.
  destruct (Hc w) as [evs1 [H1 F1]].
  destruct (c w) as [[a|e] w1]; cbn [snd] in H1.
  - destruct (Hk a w1) as [evs2 [H2 F2]].
    exists (evs1 ++ evs2). split.
    + rewrite H2, H1, app_assoc. reflexivity.
    + apply Forall_app. split; assumption.
  - exists evs1. split; assumption.
Qed.

Lemma emits_int_of P (c : drv unit) : emits P c -> emits P (int_of c).
Proof.
  intros Hc w. unfold int_of.
  destruct (Hc w) as [evs [H F]].
  destruct (c w) as [[a|e] w1]; exists evs; split; assumption.
Qed.

Lemma emits_on_error {A} P (c : drv A) e :
  emits P c -> P e -> emits P (on_error c (log e)).
Proof.
  intros Hc He w. unfold on_error.
  destruct (Hc w) as [evs [H F]].
  destruct (c w) as [[a|e0] w1]; cbn [snd] in H |- *.
  - exists evs. split; assumption.
  - exists (evs ++ [e]). split.
    + unfold log. cbn [trace]. rewrite H, app_assoc. reflexivity.
    + apply Forall_app. split; [exact F|].
      constructor; [exact He | constructor].
Qed.

Lemma emits_if {A} P (b : bool) (c1 c2 : drv A) :
  emits P c1 -> emits P c2 -> emits P (if b then c1 else c2).
Proof. destruct b; intros; assumption. Qed.

Lemma emits_mask_bits P dwmac reg mask value :
  (forall r v, P (EvReadl r v)) -> (forall v r, P (EvWritel v r)) ->
  emits P (meson8b_dwmac_mask_bits dwmac reg mask value).
Proof.
  intros Hr Hw w. rewrite mask_bits_run. cbv zeta. cbn [snd trace].
  eexists. split; [reflexivity|].
  constructor; [apply Hr|]. constructor; [apply Hw | constructor].
Qed.

Lemma emits_clk_set_rate P ccf c rate :
  (forall r, P (EvClkSetRate c rate r)) -> emits P (clk_set_rate ccf c rate).
Proof.
  intros H w. rewrite clk_set_rate_run. cbn [snd trace].
  eexists. split; [reflexivity|]. constructor; [apply H | constructor].
Qed.

Lemma emits_clk_prepare_enable P ccf c :
  (forall r, P (EvClkPrepareEnable c r)) ->
  emits P (clk_prepare_enable ccf c).
Proof.
  intros H w. rewrite clk_prepare_enable_run. cbn [snd trace].
  eexists. split; [reflexivity|]. constructor; [apply H | constructor].
Qed.

Ltac emits_step :=
  first
    [ apply emits_pure
    | apply emits_throw
    | apply emits_emit
    | apply emits_int_of
    | apply emits_mask_bits
    | apply emits_clk_set_rate
    | apply emits_clk_prepare_enable
    | apply emits_if
    | apply emits_bind; [|intros ?] ].

Ltac emits_auto :=
  repeat emits_step;
  try (intros; unfold not_delay_error; discriminate).

Lemma set_phy_mode_no_delay_error d dwmac :
  emits not_delay_error (set_phy_mode d dwmac).
Proof.
  destruct d; cbn [set_phy_mode];
    unfold meson8b_set_phy_mode, meson_axg_set_phy_mode, dev_err;
    destruct (phy_mode dwmac); emits_auto.
Qed.

Lemma meson8b_init_prg_eth_no_delay_error ccf dwmac :
  emits not_delay_error (meson8b_init_prg_eth ccf dwmac).
Proof.
  unfold meson8b_init_prg_eth, meson8b_devm_clk_prepare_enable, dev_err.
  apply emits_bind; [destruct (phy_mode dwmac); emits_auto | intros dc].
  apply emits_bind; [|intros ?].
  { apply emits_if; [|emits_auto].
    destruct (timing_adj_clk dwmac); emits_auto. }
  emits_auto.
Qed.

(** ** Running probe *)

Lemma get_mux_parents_no_delay_error pdev todo i :
  emits not_delay_error (get_mux_parents pdev todo i).
Proof.
  revert i. induction todo as [|todo IH]; intros i; cbn [get_mux_parents].
  - apply emits_pure.
  - apply emits_bind; [emits_auto | intros _].
    destruct (devm_clk_get pdev _) as [c|e].
    + apply emits_bind; [apply IH | intros rest; apply emits_pure].
    + unfold dev_err. emits_auto.
Qed.

Lemma register_clk_no_delay_error pdev dwmac suffix parents hw :
  emits not_delay_error
    (meson8b_dwmac_register_clk pdev dwmac suffix parents hw).
Proof. unfold meson8b_dwmac_register_clk. emits_auto. Qed.

Lemma warn_on_no_delay_error c : emits not_delay_error (WARN_ON_IS_ERR c).
Proof. destruct c; cbn [WARN_ON_IS_ERR]; emits_auto. Qed.

Lemma meson8b_init_rgmii_tx_clk_no_delay_error pdev dwmac :
  emits not_delay_error (meson8b_init_rgmii_tx_clk pdev dwmac).
Proof.
  unfold meson8b_init_rgmii_tx_clk.
  apply emits_if; [apply emits_throw|].
  apply emits_bind; [apply get_mux_parents_no_delay_error | intros ps].
  repeat (apply emits_bind;
          [first [apply register_clk_no_delay_error
                 | apply warn_on_no_delay_error] | intros ?]).
  apply emits_pure.
Qed.

Lemma probe_tail_no_delay_error ccf pdev dwmac :
  emits not_delay_error (probe_tail ccf pdev dwmac).
Proof.
  unfold probe_tail.
  apply emits_bind;
    [apply meson8b_init_rgmii_tx_clk_no_delay_error | intros d].
  apply emits_bind; [apply set_phy_mode_no_delay_error | intros _].
  apply emits_bind;
    [apply meson8b_init_prg_eth_no_delay_error | intros _].
  emits_auto.
Qed.

(** What probe does once its prologue went well: the rx-delay check, then
    the optional clock and the tail. *)
Lemma meson8b_dwmac_probe_run ccf pdev d m w :
  prologue_ok pdev d m ->
  meson8b_dwmac_probe ccf pdev w
  = on_error
      (if negb (dt_rx_delay_ns pdev =? 0) && negb (dt_rx_delay_ns pdev =? 2)
       then
         dev_err InvalidDelayValue ;;
         throw (- EINVAL)
       else
         emit (EvDevmClkGetOptional "timing-adjustment") ;;
         match devm_clk_get_optional pdev "timing-adjustment" with
         | IS_ERR e => throw e
         | IS_OK adj =>
             probe_tail ccf pdev
               (mk_dwmac d m None (dt_tx_delay_ns pdev)
                  (dt_rx_delay_ns pdev) adj)
         end)
      (log EvStmmacRemoveConfigDt) w.
Proof.
  intros [Hres [[p1 Hcfg] [Hk [Hmd [[p2 Hio] Hpm]]]]].
  unfold meson8b_dwmac_probe. rewrite Hres, Hcfg. cbn [Z.eqb negb].
  unfold meson8b_dwmac_probe_body. rewrite Hk, Hmd, Hio, Hpm. cbn [negb].
  fold (dt_rx_delay_ns pdev) (dt_tx_delay_ns pdev).
  destruct (negb (dt_rx_delay_ns pdev =? 0) && negb (dt_rx_delay_ns pdev =? 2));
    reflexivity.
Qed.

Lemma rx_check (rx : Z) :
  negb (rx =? 0) && negb (rx =? 2) = true <-> rx <> 0 /\ rx <> 2.
Proof.
  rewrite andb_true_iff, !negb_true_iff, !Z.eqb_neq. reflexivity.
Qed.

Ltac quiet_done :=
  cbv [on_error bind dev_err emit throw log]; cbn [fst snd regs trace];
  split; [discriminate|]; split; [reflexivity|];
  first
    [ exists []; split; [symmetry; apply app_nil_r | constructor]
    | eexists; split; [reflexivity | repeat constructor]
    | eexists; split; [rewrite <- app_assoc; reflexivity | repeat constructor] ].

(** Whatever the rest of the platform does, probe with a disallowed rx
    delay fails without a register write or a clock call. *)
Lemma probe_rejects_bad_rx ccf pdev w :
  dt_rx_delay_ns pdev <> 0 /\ dt_rx_delay_ns pdev <> 2 ->
  let r := meson8b_dwmac_probe ccf pdev w in
  fst r <> Ok tt /\ regs (snd r) = regs w /\
  exists evs, trace (snd r) = trace w ++ evs /\ Forall quiet evs.
Proof.
  intros Hbad r. subst r. apply rx_check in Hbad.
  unfold meson8b_dwmac_probe.
  destruct (negb (stmmac_get_platform_resources pdev =? 0)); [quiet_done|].
  destruct (stmmac_probe_config_dt pdev); [|quiet_done].
  unfold meson8b_dwmac_probe_body.
  destruct (negb (devm_kzalloc_dwmac pdev)); [quiet_done|].
  destruct (of_device_get_match_data pdev); [|quiet_done].
  destruct (devm_platform_ioremap_resource pdev); [|quiet_done].
  destruct (of_get_phy_mode pdev); [|quiet_done].
  fold (dt_rx_delay_ns pdev). rewrite Hbad. quiet_done.
Qed.

(** C7.  An rx delay other than 0 and 2 makes probe fail before any
    register write and before any clock is looked up, registered or driven,
    with the register file unchanged.  Once probe has its resources, match
    data, registers and phy-mode, that failure is -EINVAL after the rx-delay
    rejection line, followed only by the configuration tear-down; with rx
    delay 0 or 2 (0 also when the property is absent) probe goes on to look
    up the timing-adjustment clock and never logs the rejection. *)
Theorem rx_delay_validated ccf pdev w :
  let r := meson8b_dwmac_probe ccf pdev w in
  let rx := dt_rx_delay_ns pdev in
  (rx <> 0 /\ rx <> 2 ->
   fst r <> Ok tt /\ regs (snd r) = regs w /\
   exists evs, trace (snd r) = trace w ++ evs /\ Forall quiet evs) /\
  forall d m,
    prologue_ok pdev d m ->
    (rx <> 0 /\ rx <> 2 ->
     fst r = Err (- EINVAL) /\
     trace (snd r)
     = trace w ++ [EvDevErr InvalidDelayValue; EvStmmacRemoveConfigDt]) /\
    (rx = 0 \/ rx = 2 ->
     exists rest,
       trace (snd r)
       = trace w ++ EvDevmClkGetOptional "timing-adjustment" :: rest /\
       Forall not_delay_error rest).
Proof.
  intros r rx. split; [apply probe_rejects_bad_rx|].
  intros d m Hpro. subst r.
  rewrite (meson8b_dwmac_probe_run ccf pdev d m w Hpro). fold rx.
  split.
  - intros Hbad. apply rx_check in Hbad. rewrite Hbad.
    unfold on_error, bind, dev_err, emit, throw, log. cbn [fst snd regs trace].
    rewrite <- app_assoc. split; reflexivity.
  - intros Hgood.
    assert (Hb : negb (rx =? 0) && negb (rx =? 2) = false).
    { destruct (negb (rx =? 0) && negb (rx =? 2)) eqn:E; [|reflexivity].
      apply rx_check in E. lia. }
    rewrite Hb.
    assert (Hem : emits not_delay_error
              (on_error
                 (match devm_clk_get_optional pdev "timing-adjustment" with
                  | IS_ERR e => throw e
                  | IS_OK adj =>
                      probe_tail ccf pdev
                        (mk_dwmac d m None (dt_tx_delay_ns pdev) rx adj)
                  end) (log EvStmmacRemoveConfigDt))).
    { apply emits_on_error; [|unfold not_delay_error; discriminate].
      destruct (devm_clk_get_optional pdev _);
        [apply probe_tail_no_delay_error | apply emits_throw]. }
    destruct (Hem (log (EvDevmClkGetOptional "timing-adjustment") w))
      as [rest [Hrest Hall]].
    exists rest. split; [|exact Hall].
    unfold on_error, bind, emit in Hrest |- *.
    cbv beta iota in Hrest |- *.
    destruct (devm_clk_get_optional pdev "timing-adjustment") as [adj|e0].
    + destruct (probe_tail ccf pdev _ _) as [[[]|e] w1];
        cbn [snd] in Hrest |- *; rewrite Hrest; unfold log; cbn [trace];
        rewrite <- app_assoc; reflexivity.
    + unfold throw in Hrest |- *. cbn [snd] in Hrest |- *.
      rewrite Hrest; unfold log; cbn [trace].
      rewrite <- app_assoc; reflexivity.
Qed.

Lemma bind_ok {A B} (c : drv A) (k : A -> drv B) w a w1 :
  c w = (Ok a, w1) -> bind c k w = k a w1.
Proof. intros H. unfold bind. rewrite H. reflexivity. Qed.

Lemma get_mux_parents_ok pdev todo :
  (forall name, exists c, devm_clk_get pdev name = IS_OK c) ->
  forall i w, exists ps w1, get_mux_parents pdev todo i w = (Ok ps, w1).
Proof.
  intros Hget. induction todo as [|todo IH]; intros i w;
    cbn [get_mux_parents].
  - exists [], w. reflexivity.
  - set (name := substring 0 15 _).
    destruct (Hget name) as [c Hc]. rewrite Hc.
    destruct (IH (S i) (log (EvDevmClkGet name) w)) as [ps [w1 H1]].
    exists (c :: ps), w1.
    rewrite (bind_ok _ _ w tt (log (EvDevmClkGet name) w)) by reflexivity.
    rewrite (bind_ok _ _ _ ps w1 H1). reflexivity.
Qed.

Lemma register_clk_run pdev dwmac suffix parents hw w :
  meson8b_dwmac_register_clk pdev dwmac suffix parents hw w
  = let name := substring 0 31 (dev_name pdev ++ "#" ++ suffix)%string in
    (Ok (devm_clk_register pdev name parents CLK_SET_RATE_PARENT hw),
     log (EvDevmClkRegister name parents CLK_SET_RATE_PARENT hw) w).
Proof. reflexivity. Qed.

Lemma meson8b_init_rgmii_tx_clk_ok pdev dwmac w :
  services_ok pdev ->
  exists c w1,
    meson8b_init_rgmii_tx_clk pdev dwmac w
    = (Ok (mk_dwmac (data dwmac) (phy_mode dwmac) (Some c)
             (tx_delay_ns dwmac) (rx_delay_ns dwmac) (timing_adj_clk dwmac)),
       w1).
Proof.
  intros [_ [Hkz [Hget [Hreg _]]]].
  unfold meson8b_init_rgmii_tx_clk. rewrite Hkz. cbn [negb].
  destruct (get_mux_parents_ok pdev MUX_CLK_NUM_PARENTS Hget 0%nat w)
    as [ps [w1 H1]].
  rewrite (bind_ok _ _ w ps w1 H1).
  do 4 (unfold bind at 1; rewrite register_clk_run; cbv zeta;
        match goal with
        | |- context [devm_clk_register pdev ?n ?p ?f ?h] =>
            let c := fresh "c" in
            let Hc := fresh "Hc" in
            destruct (Hreg n p f h) as [c Hc]; rewrite Hc
        end;
        unfold bind at 1; cbn [WARN_ON_IS_ERR]; unfold pure at 1).
  eexists. eexists. reflexivity.
Qed.

Lemma set_phy_mode_ok d dwmac w :
  supported_mode (phy_mode dwmac) = true ->
  exists w1, set_phy_mode d dwmac w = (Ok tt, w1).
Proof.
  intros Hs.
  assert (H1 : is_u32 PRG_ETH0_RGMII_MODE) by (apply is_u32_const; reflexivity).
  assert (H7 : is_u32 PRG_ETH0_EXT_PHY_MODE_MASK)
    by (apply is_u32_const; reflexivity).
  destruct d; cbn [set_phy_mode];
    unfold meson8b_set_phy_mode, meson_axg_set_phy_mode;
    destruct (phy_mode dwmac); try discriminate Hs;
    rewrite mask_bits_masked by assumption; eexists; reflexivity.
Qed.

Lemma probe_tail_ok ccf pdev dwmac w :
  services_ok pdev -> ccf_succeeds ccf ->
  supported_mode (phy_mode dwmac) = true -> timing_adj_available dwmac ->
  exists c w1,
    probe_tail ccf pdev dwmac w = (Ok tt, w1) /\
    In (EvStmmacDvrProbe
          (mk_dwmac (data dwmac) (phy_mode dwmac) (Some c)
             (tx_delay_ns dwmac) (rx_delay_ns dwmac) (timing_adj_clk dwmac)) 0)
       (trace w1).
Proof.
  intros Hsv Hccf Hs Hav.
  destruct (meson8b_init_rgmii_tx_clk_ok pdev dwmac w Hsv) as [c [w1 H1]].
  set (dw := mk_dwmac _ _ (Some c) _ _ _) in *.
  destruct (set_phy_mode_ok (data dw) dw w1 Hs) as [w2 H2].
  pose proof (meson8b_init_prg_eth_ok ccf dw w2 Hccf Hs Hav) as H3.
  destruct (meson8b_init_prg_eth ccf dw w2) as [[[]|e] w3] eqn:E3;
    [|discriminate H3].
  destruct Hsv as [_ [_ [_ [_ Hdvr]]]].
  exists c, (log (EvStmmacDvrProbe dw 0) w3). split.
  - unfold probe_tail.
    rewrite (bind_ok _ _ w dw w1 H1), (bind_ok _ _ w1 tt w2 H2),
      (bind_ok _ _ w2 tt w3 E3).
    cbv zeta. rewrite Hdvr. reflexivity.
  - unfold log. cbn [trace]. apply in_or_app. right. left. reflexivity.
Qed.

Lemma dt_tx_delay_ns_is_u32 pdev : is_u32 (dt_tx_delay_ns pdev).
Proof.
  unfold dt_tx_delay_ns. destruct (of_tx_delay_ns pdev).
  - apply u32_is_u32.
  - apply is_u32_const. reflexivity.
Qed.

(** On a board where everything is in order probe succeeds, and a delay
    rejection is not among what it logs. *)
Lemma probe_succeeds ccf pdev d m w :
  prologue_ok pdev d m -> services_ok pdev -> ccf_succeeds ccf ->
  supported_mode m = true ->
  dt_rx_delay_ns pdev = 0 \/ dt_rx_delay_ns pdev = 2 ->
  let r := meson8b_dwmac_probe ccf pdev w in
  fst r = Ok tt /\
  exists evs, trace (snd r) = trace w ++ evs /\ Forall not_delay_error evs.
Proof.
  intros Hpro Hsv Hccf Hs Hrx r. subst r.
  rewrite (meson8b_dwmac_probe_run ccf pdev d m w Hpro).
  assert (Hb : negb (dt_rx_delay_ns pdev =? 0)
               && negb (dt_rx_delay_ns pdev =? 2) = false).
  { destruct (negb (dt_rx_delay_ns pdev =? 0)
              && negb (dt_rx_delay_ns pdev =? 2)) eqn:E; [|reflexivity].
    apply rx_check in E. lia. }
  rewrite Hb.
  pose proof Hsv as [[adj [Hadj Hclk]] _]. rewrite Hadj.
  set (dw := mk_dwmac d m None (dt_tx_delay_ns pdev)
               (dt_rx_delay_ns pdev) adj).
  assert (Hav : timing_adj_available dw).
  { intros [Hr Hn]. cbn [dw rx_delay_ns timing_adj_clk] in Hr, Hn.
    exact (Hclk Hr Hn). }
  set (w0 := log (EvDevmClkGetOptional "timing-adjustment") w).
  destruct (probe_tail_ok ccf pdev dw w0 Hsv Hccf Hs Hav)
    as [c [w1 [Htail _]]].
  destruct (probe_tail_no_delay_error ccf pdev dw w0) as [evs [Hevs Hall]].
  rewrite Htail in Hevs. cbn [snd] in Hevs.
  assert (Hrun : on_error
                   (emit (EvDevmClkGetOptional "timing-adjustment") ;;
                    probe_tail ccf pdev dw)
                   (log EvStmmacRemoveConfigDt) w = (Ok tt, w1)).
  { unfold on_error.
    rewrite (bind_ok _ _ w tt w0) by reflexivity.
    rewrite Htail. reflexivity. }
  rewrite Hrun. cbn [fst snd].
  split; [reflexivity|].
  exists (EvDevmClkGetOptional "timing-adjustment" :: evs). split.
  - rewrite Hevs. unfold w0, log. cbn [trace].
    rewrite <- app_assoc. reflexivity.
  - constructor; [unfold not_delay_error; discriminate | exact Hall].
Qed.

(** ** Worked instances *)

Lemma board_keeps_delay_adjust :
  ccf_preserves board_ccf PRG_ETH0
    (Z.lor (GENMASK 6 5)
       (Z.lor (BIT 13) (Z.lor (BIT 14)
          (Z.lor (GENMASK 19 15) (GENMASK 24 20))))).
Proof. apply board_ccf_preserves; reflexivity. Qed.

Lemma board_keeps_bit11 : ccf_preserves board_ccf PRG_ETH0 (BIT 11).
Proof. apply board_ccf_preserves; reflexivity. Qed.

(** Scenario 4 of the spec at [meson8b_init_prg_eth]: RGMII_TXID, tx 4 ns,
    rx 2 ns, timing-adjustment clock present, unrelated bits pre-seeded.  The
    clock is enabled before the first write, the write carries the rx adjust
    bits only, and they read back at the end. *)
Lemma delay_adjust_write_scenario4 :
  let dwmac := board_dwmac meson8b_dwmac_data_meson8b
                 PHY_INTERFACE_MODE_RGMII_TXID 4 2 (Some "adj") in
  let r := meson8b_init_prg_eth board_ccf dwmac world_seeded in
  exists rest,
    trace (snd r)
    = [EvClkPrepareEnable (Some "adj") 0; EvDevmAddAction (Some board_tx_clk);
       EvReadl PRG_ETH0 0x80000808; EvWritel 0x80006808 PRG_ETH0] ++ rest /\
    Z.land (read_back (snd r) PRG_ETH0) 0x1FFE060 = 0x6000.
Proof.
  intros dwmac r.
  pose proof (delay_adjust_write board_ccf dwmac world_seeded) as H.
  cbv zeta in H.
  change (combine_by_mode (phy_mode dwmac)
            (tx_dly_config dwmac) (rx_dly_config dwmac))
    with (Some 0x6000) in H.
  cbv beta iota in H.
  destruct H as [_ [_ H]].
  destruct (H (Ok tt)
              (mk_world (regs world_seeded)
                 [EvClkPrepareEnable (Some "adj") 0;
                  EvDevmAddAction (Some board_tx_clk)]) eq_refl)
    as [pre [_ [_ [rest [Ht Hr]]]]].
  exists rest. split.
  - exact Ht.
  - exact (Hr board_keeps_delay_adjust).
Defined.

Lemma mask_bits_read_modify_write_witness :
  let dwmac := board_dwmac meson8b_dwmac_data_axg
                 PHY_INTERFACE_MODE_RGMII 2 0 None in
  let r := meson8b_dwmac_mask_bits dwmac PRG_ETH0 PRG_ETH0_TXDLY_MASK
             0xFFFFFFFF world_seeded in
  is_u32 (regs world_seeded PRG_ETH0) /\ is_u32 PRG_ETH0_TXDLY_MASK /\
  regs (snd r) PRG_ETH0 = 0x80000868 /\
  Z.testbit (regs (snd r) PRG_ETH0) 31 = true.
Proof.
  intros dwmac r.
  assert (H1 : is_u32 (regs world_seeded PRG_ETH0))
    by (apply is_u32_const; reflexivity).
  assert (H2 : is_u32 PRG_ETH0_TXDLY_MASK)
    by (apply is_u32_const; reflexivity).
  split; [exact H1|]. split; [exact H2|].
  destruct (mask_bits_read_modify_write dwmac PRG_ETH0 PRG_ETH0_TXDLY_MASK
              0xFFFFFFFF world_seeded H1 H2) as [_ [Hv [Hout _]]].
  split.
  - exact Hv.
  - exact (Hout 31 ltac:(lia) eq_refl).
Defined.

Lemma missing_timing_adjustment_clock_witness :
  let dwmac := board_dwmac meson8b_dwmac_data_axg
                 PHY_INTERFACE_MODE_RGMII 2 2 None in
  let r := meson8b_init_prg_eth board_ccf dwmac world_seeded in
  Z.land (rx_dly_config dwmac) PRG_ETH0_ADJ_ENABLE <> 0 /\
  timing_adj_clk dwmac = None /\
  fst r = Err (- EINVAL) /\
  trace (snd r) = [EvDevErr MissingTimingAdjustmentClock] /\
  regs (snd r) = regs world_seeded.
Proof.
  intros dwmac r.
  assert (H1 : Z.land (rx_dly_config dwmac) PRG_ETH0_ADJ_ENABLE <> 0)
    by (vm_compute; discriminate).
  split; [exact H1|]. split; [reflexivity|].
  destruct (missing_timing_adjustment_clock board_ccf dwmac world_seeded
              H1 eq_refl) as [_ [Hf [Ht Hr]]].
  split; [exact Hf|]. split; [exact Ht | exact Hr].
Defined.

(** C6 as stated fails: a tx delay of 8 ns, outside {0, 2, 4, 6}, is not
    rejected.  Probe succeeds without a delay rejection in its log, and the
    encoding has been applied to the value: bits 6:5 hold (8 >> 1) mod 4 = 0. *)
Lemma tx_delay_8_is_accepted :
  let pdev := board_pdev meson8b_dwmac_data_meson8b
                (Some PHY_INTERFACE_MODE_RGMII) (Some 8) (Some 0) None in
  let r := meson8b_dwmac_probe board_ccf pdev world0 in
  ~ In (dt_tx_delay_ns pdev) [0; 2; 4; 6] /\
  fst r = Ok tt /\
  ~ In (EvDevErr InvalidDelayValue) (trace (snd r)) /\
  In (EvWritel (rmw 1 PRG_ETH0_DELAY_ADJ_MASK
                  (FIELD_PREP PRG_ETH0_TXDLY_MASK (shr32 8 1))) PRG_ETH0)
     (trace (snd r)) /\
  FIELD_GET (GENMASK 6 5) (read_back (snd r) PRG_ETH0) = 0.
Proof.
  intros pdev r. split.
  { intros H. vm_compute in H.
    repeat (destruct H as [H|H]; [discriminate H|]). exact H. }
  split; [reflexivity|]. split.
  { intros H. vm_compute in H.
    repeat (destruct H as [H|H]; [discriminate H|]). exact H. }
  split; [|reflexivity].
  vm_compute. do 10 right. left. reflexivity.
Qed.

Lemma board_pdev_prologue_ok d m tx rx adj :
  prologue_ok (board_pdev d (Some m) tx rx adj) d m.
Proof.
  unfold prologue_ok. cbn.
  repeat split; try reflexivity; exists tt; reflexivity.
Qed.

Lemma board_pdev_services_ok d m tx rx adj :
  (dt_rx_delay_ns (board_pdev d m tx rx adj) = 2 -> adj <> None) ->
  services_ok (board_pdev d m tx rx adj).
Proof.
  intros Hadj. unfold services_ok.
  split; [exists adj; split; [reflexivity | exact Hadj]|]. cbn.
  split; [reflexivity|].
  split; [intros name; eexists; reflexivity|].
  split; [intros name ps f hw; eexists; reflexivity|].
  intros dwmac. reflexivity.
Qed.

Lemma rx_delay_validated_witness :
  let bad := board_pdev meson8b_dwmac_data_axg
               (Some PHY_INTERFACE_MODE_RGMII) (Some 2) (Some 3) None in
  let good := board_pdev meson8b_dwmac_data_axg
                (Some PHY_INTERFACE_MODE_RGMII) (Some 2) (Some 2) None in
  prologue_ok bad meson8b_dwmac_data_axg PHY_INTERFACE_MODE_RGMII /\
  (dt_rx_delay_ns bad <> 0 /\ dt_rx_delay_ns bad <> 2) /\
  fst (meson8b_dwmac_probe board_ccf bad world_seeded) = Err (- EINVAL) /\
  regs (snd (meson8b_dwmac_probe board_ccf bad world_seeded))
  = regs world_seeded /\
  exists rest,
    trace (snd (meson8b_dwmac_probe board_ccf good world_seeded))
    = EvDevmClkGetOptional "timing-adjustment" :: rest.
Proof.
  intros bad good.
  split; [apply board_pdev_prologue_ok|].
  assert (H3 : dt_rx_delay_ns bad <> 0 /\ dt_rx_delay_ns bad <> 2)
    by (split; vm_compute; discriminate).
  split; [exact H3|].
  destruct (rx_delay_validated board_ccf bad world_seeded) as [Hany Hbad].
  destruct (rx_delay_validated board_ccf good world_seeded) as [_ Hgood].
  cbv zeta in Hany, Hbad, Hgood.
  destruct (Hany H3) as [_ [Hr _]].
  destruct (Hbad _ _ (board_pdev_prologue_ok _ _ _ _ _)) as [Hb _].
  destruct (Hb H3) as [Hf _].
  split; [exact Hf|]. split; [exact Hr|].
  destruct (Hgood _ _ (board_pdev_prologue_ok _ _ _ _ _)) as [_ Hg].
  destruct (Hg (or_intror eq_refl)) as [rest [Ht _]].
  exists rest. exact Ht.
Defined.

Lemma tx_clock_then_reference_enable_witness :
  let rmii := board_dwmac meson8b_dwmac_data_meson8b
                PHY_INTERFACE_MODE_RMII 0 0 None in
  let rgmii := board_dwmac meson8b_dwmac_data_meson8b
                 PHY_INTERFACE_MODE_RGMII 2 0 None in
  let r := meson8b_init_prg_eth board_ccf rmii world0 in
  let r' := meson8b_init_prg_eth board_ccf rgmii world0 in
  (fst r = Ok tt /\
   trace (snd r)
   = [EvReadl PRG_ETH0 0; EvWritel 0 PRG_ETH0;
      EvReadl PRG_ETH0 0; EvWritel 0x800 PRG_ETH0;
      EvReadl PRG_ETH0 0x800; EvWritel 0x1800 PRG_ETH0] /\
   Z.testbit (read_back (snd r) PRG_ETH0) 11 = true /\
   Z.testbit (read_back (snd r) PRG_ETH0) 12 = true) /\
  (fst r' = Ok tt /\
   (exists o2,
      trace (snd r')
      = [EvReadl PRG_ETH0 0; EvWritel 0x20 PRG_ETH0;
         EvReadl PRG_ETH0 0x20; EvWritel 0x20 PRG_ETH0;
         EvClkSetRate (Some board_tx_clk) 125000000 0;
         EvClkPrepareEnable (Some board_tx_clk) 0;
         EvDevmAddAction (Some board_tx_clk);
         EvReadl PRG_ETH0 o2; EvWritel (rmw o2 (BIT 12) (BIT 12)) PRG_ETH0]) /\
   Z.testbit (read_back (snd r') PRG_ETH0) 11 = false /\
   Z.testbit (read_back (snd r') PRG_ETH0) 12 = true).
Proof.
  intros rmii rgmii r r'.
  assert (Hok : fst r = Ok tt) by reflexivity.
  assert (Hok' : fst r' = Ok tt) by reflexivity.
  split.
  - split; [exact Hok|].
    destruct (tx_clock_then_reference_enable board_ccf rmii world0 world0 0
                eq_refl eq_refl Hok)
      as [o2 [Ht [_ [_ [B12 [Hfin [Hrmii H11]]]]]]].
    destruct (Hrmii eq_refl) as [_ Ho2].
    split; [unfold r; rewrite Ht, Ho2; reflexivity|].
    split.
    + exact (H11 board_keeps_bit11).
    + unfold r. rewrite Hfin. exact B12.
  - split; [exact Hok'|].
    destruct (tx_clock_then_reference_enable board_ccf rgmii world0 world0
                0x20 eq_refl eq_refl Hok')
      as [o2 [Ht [_ [_ [B12 [Hfin [_ H11]]]]]]].
    split; [exists o2; exact Ht|].
    split.
    + exact (H11 board_keeps_bit11).
    + unfold r'. rewrite Hfin. exact B12.
Defined.

(** C10 as stated fails on the field written: in RGMII_TXID with a tx delay
    of 2 ns the delay/adjust write puts 0 in bits 6:5, not (2 >> 1) mod 4. *)
Lemma tx_field_zero_in_txid_mode :
  let dwmac := board_dwmac meson8b_dwmac_data_meson8b
                 PHY_INTERFACE_MODE_RGMII_TXID 2 0 None in
  let r := meson8b_init_prg_eth board_ccf dwmac world0 in
  fst r = Ok tt /\
  (exists rest,
     trace (snd r) = EvReadl PRG_ETH0 0 :: EvWritel 0 PRG_ETH0 :: rest) /\
  FIELD_GET (GENMASK 6 5) (read_back (snd r) PRG_ETH0) = 0 /\
  (u32 (tx_delay_ns dwmac) / 2) mod 4 = 1.
Proof.
  intros dwmac r. split; [reflexivity|]. split.
  - eexists. vm_compute. reflexivity.
  - split; reflexivity.
Qed.

Lemma tx_delay_silently_truncated_witness :
  let dwmac := board_dwmac meson8b_dwmac_data_meson8b
                 PHY_INTERFACE_MODE_RGMII 8 0 None in
  let r := meson8b_init_prg_eth board_ccf dwmac world0 in
  tx_dly_config dwmac = 0 /\
  fst r = Ok tt /\
  exists v rest,
    trace (snd r) = EvReadl PRG_ETH0 0 :: EvWritel v PRG_ETH0 :: rest /\
    FIELD_GET (GENMASK 6 5) v = 0.
Proof.
  intros dwmac r.
  destruct (tx_delay_silently_truncated board_ccf dwmac world0)
    as [Hv [_ [Hw [_ Hok]]]].
  split; [exact Hv|].
  split.
  - apply (Hok board_ccf_succeeds eq_refl).
    intros [Hrx _]. discriminate Hrx.
  - destruct (Hw 0 world0 eq_refl eq_refl) as [v [rest [Ht Hfld]]].
    exists v, rest. split; [exact Ht | exact Hfld].
Defined.

(** ** The spec's scenarios, run through probe on the concrete board *)

(** Scenario 1: RGMII, tx 2 ns, rx 0 ns, Extended policy. *)
Example scenario_1 :
  let pdev := board_pdev meson8b_dwmac_data_axg
                (Some PHY_INTERFACE_MODE_RGMII) (Some 2) (Some 0) None in
  let r := meson8b_dwmac_probe board_ccf pdev world0 in
  let eth0 := read_back (snd r) PRG_ETH0 in
  fst r = Ok tt /\
  FIELD_GET PRG_ETH0_EXT_PHY_MODE_MASK eth0 = 1 /\
  FIELD_GET PRG_ETH0_TXDLY_MASK eth0 = 1 /\
  Z.land eth0 (Z.lor PRG_ETH0_ADJ_ENABLE PRG_ETH0_ADJ_SETUP) = 0 /\
  Z.testbit eth0 11 = false /\
  Z.testbit eth0 PRG_ETH0_RGMII_TX_CLK_EN = true /\
  Z.testbit eth0 12 = true /\
  In (EvClkSetRate (Some board_tx_clk) 125000000 0) (trace (snd r)).
Proof.
  intros pdev r eth0. repeat (split; [reflexivity|]).
  vm_compute. do 13 right. left. reflexivity.
Qed.

(** Scenario 2: RMII, tx 0 ns, rx 0 ns, Legacy policy. *)
Example scenario_2 :
  let pdev := board_pdev meson8b_dwmac_data_meson8b
                (Some PHY_INTERFACE_MODE_RMII) (Some 0) (Some 0) None in
  let r := meson8b_dwmac_probe board_ccf pdev world0 in
  let eth0 := read_back (snd r) PRG_ETH0 in
  fst r = Ok tt /\
  FIELD_GET PRG_ETH0_RGMII_MODE eth0 = 0 /\
  Z.land eth0 PRG_ETH0_DELAY_ADJ_MASK = 0 /\
  Z.testbit eth0 11 = true /\
  Z.testbit eth0 12 = true /\
  forallb (fun e => match e with
                    | EvClkSetRate _ _ _ | EvClkPrepareEnable _ _ => false
                    | _ => true
                    end) (trace (snd r)) = true.
Proof. intros pdev r eth0. repeat split. Qed.

(** Scenario 3: RGMII, rx 2 ns, no timing-adjustment clock. *)
Example scenario_3 :
  let pdev := board_pdev meson8b_dwmac_data_axg
                (Some PHY_INTERFACE_MODE_RGMII) (Some 2) (Some 2) None in
  let r := meson8b_dwmac_probe board_ccf pdev world0 in
  fst r = Err (- EINVAL) /\
  last (removelast (trace (snd r))) EvWarnOn
  = EvDevErr MissingTimingAdjustmentClock /\
  Z.land (read_back (snd r) PRG_ETH0) PRG_ETH0_DELAY_ADJ_MASK = 0.
Proof. intros pdev r. repeat split. Qed.

(** Scenario 4: RGMII_TXID, tx 4 ns, rx 2 ns, Legacy policy, clock present. *)
Example scenario_4 :
  let pdev := board_pdev meson8b_dwmac_data_meson8b
                (Some PHY_INTERFACE_MODE_RGMII_TXID) (Some 4) (Some 2)
                (Some "adj") in
  let r := meson8b_dwmac_probe board_ccf pdev world0 in
  let eth0 := read_back (snd r) PRG_ETH0 in
  fst r = Ok tt /\
  Z.land eth0 PRG_ETH0_DELAY_ADJ_MASK
  = Z.lor PRG_ETH0_ADJ_ENABLE PRG_ETH0_ADJ_SETUP /\
  FIELD_GET PRG_ETH0_TXDLY_MASK eth0 = 0 /\
  In (EvClkPrepareEnable (Some "adj") 0) (trace (snd r)).
Proof.
  intros pdev r eth0. repeat (split; [reflexivity|]).
  vm_compute. do 9 right. left. reflexivity.
Qed.

(** * Further properties of the driver *)

(** ** Composing register updates *)

Lemma rmw_rmw_same old mask v1 v2 :
  rmw (rmw old mask v1) mask v2 = rmw old mask v2.
Proof.
  apply Z.bits_inj'. intros i Hi. rewrite !rmw_testbit by exact Hi.
  destruct (Z.testbit mask i); reflexivity.
Qed.

Lemma rmw_rmw_comm old m1 v1 m2 v2 :
  Z.land m1 m2 = 0 ->
  rmw (rmw old m1 v1) m2 v2 = rmw (rmw old m2 v2) m1 v1.
Proof.
  intros Hd. apply Z.bits_inj'. intros i Hi.
  rewrite !rmw_testbit by exact Hi.
  assert (Hb : Z.testbit (Z.land m1 m2) i = false)
    by (rewrite Hd; apply Z.bits_0).
  rewrite Z.land_spec in Hb.
  destruct (Z.testbit m1 i), (Z.testbit m2 i); try reflexivity.
  discriminate Hb.
Qed.

Lemma masked_read_back w reg mask value :
  is_u32 mask ->
  read_back (masked w reg mask value) reg = rmw (read_back w reg) mask value.
Proof.
  intros Hm. unfold masked. apply read_back_upd.
  apply rmw_is_u32; [apply read_back_is_u32 | exact Hm].
Qed.

Lemma upd_upd f k v1 v2 k' : upd (upd f k v1) k v2 k' = upd f k v2 k'.
Proof. unfold upd. destruct (k' =? k); reflexivity. Qed.

Lemma mask_bits_seq dwmac reg m1 v1 m2 v2 w :
  is_u32 m1 -> is_u32 m2 ->
  (meson8b_dwmac_mask_bits dwmac reg m1 v1 ;;
   meson8b_dwmac_mask_bits dwmac reg m2 v2) w
  = (Ok tt, masked (masked w reg m1 v1) reg m2 v2).
Proof.
  intros H1 H2. unfold bind. rewrite mask_bits_masked by exact H1.
  apply mask_bits_masked. exact H2.
Qed.

(** X1.  Two consecutive calls of [meson8b_dwmac_mask_bits] on the same
    register with the same 32-bit mask leave every register as the second
    call alone would: the later value wins, and repeating a call changes
    nothing. *)
Theorem mask_bits_last_write_wins dwmac reg mask v1 v2 w :
  is_u32 mask ->
  let twice := (meson8b_dwmac_mask_bits dwmac reg mask v1 ;;
                meson8b_dwmac_mask_bits dwmac reg mask v2) w in
  let once := meson8b_dwmac_mask_bits dwmac reg mask v2 w in
  fst twice = Ok tt /\
  (forall reg', regs (snd twice) reg' = regs (snd once) reg') /\
  (v1 = v2 ->
   forall reg',
     regs (snd twice) reg'
     = regs (snd (meson8b_dwmac_mask_bits dwmac reg mask v1 w)) reg').
Proof.
  intros Hm twice once.
  assert (Heq : forall reg', regs (snd twice) reg' = regs (snd once) reg').
  { intros reg'. subst twice once.
    rewrite mask_bits_seq, mask_bits_masked by exact Hm. cbn [snd].
    unfold masked at 1. cbn [regs].
    rewrite masked_read_back by exact Hm.
    rewrite rmw_rmw_same. unfold masked. cbn [regs]. apply upd_upd. }
  split.
  - subst twice. rewrite mask_bits_seq by exact Hm. reflexivity.
  - split; [exact Heq|]. intros -> reg'. apply Heq.
Qed.

(** X2.  Calls of [meson8b_dwmac_mask_bits] on the same register with
    disjoint 32-bit masks commute: either order leaves the same register
    file, in which each field holds its own value. *)
Theorem mask_bits_disjoint_commute dwmac reg m1 v1 m2 v2 w :
  is_u32 m1 -> is_u32 m2 -> Z.land m1 m2 = 0 ->
  let ab := (meson8b_dwmac_mask_bits dwmac reg m1 v1 ;;
             meson8b_dwmac_mask_bits dwmac reg m2 v2) w in
  let ba := (meson8b_dwmac_mask_bits dwmac reg m2 v2 ;;
             meson8b_dwmac_mask_bits dwmac reg m1 v1) w in
  (forall reg', regs (snd ab) reg' = regs (snd ba) reg') /\
  Z.land (regs (snd ab) reg) m1 = Z.land v1 m1 /\
  Z.land (regs (snd ab) reg) m2 = Z.land v2 m2.
Proof.
  intros H1 H2 Hd ab ba. subst ab ba.
  rewrite !mask_bits_seq by assumption. cbn [snd].
  assert (Hv : forall a b ma mb x,
            is_u32 ma -> is_u32 mb ->
            regs (masked (masked w reg ma a) reg mb b) x
            = if x =? reg
              then rmw (rmw (read_back w reg) ma a) mb b
              else regs w x).
  { intros a b ma mb x Ha Hb. unfold masked at 1. cbn [regs].
    rewrite masked_read_back by exact Ha.
    unfold masked, upd. cbn [regs]. destruct (x =? reg); reflexivity. }
  split.
  - intros reg'. rewrite !Hv by assumption.
    destruct (reg' =? reg); [|reflexivity].
    apply rmw_rmw_comm. exact Hd.
  - rewrite !Hv by assumption. rewrite Z.eqb_refl. split.
    + rewrite rmw_outside by (rewrite Z.land_comm; exact Hd).
      apply rmw_inside.
    + apply rmw_inside.
Qed.

(** ** Naming and registering the clocks *)

Lemma substring0_length n s : (String.length (substring 0 n s) <= n)%nat.
Proof.
  revert s. induction n as [|n IH]; intros s.
  - destruct s; cbn; lia.
  - destruct s as [|c s]; cbn; [lia|]. specialize (IH s). lia.
Qed.

Lemma substring0_all n s :
  (String.length s <= n)%nat -> substring 0 n s = s.
Proof.
  revert s. induction n as [|n IH]; intros s H.
  - destruct s; [reflexivity | cbn in H; lia].
  - destruct s as [|c s]; [reflexivity|]. cbn in H |- *.
    rewrite IH by lia. reflexivity.
Qed.

Lemma substring0_prefix n s1 s2 :
  (n <= String.length s1)%nat ->
  substring 0 n (s1 ++ s2)%string = substring 0 n s1.
Proof.
  revert s1. induction n as [|n IH]; intros s1 H.
  - destruct s1, s2; reflexivity.
  - destruct s1 as [|c s1]; [cbn in H; lia|]. cbn in H |- *.
    rewrite IH by lia. reflexivity.
Qed.

(** X3.  [meson8b_dwmac_register_clk] registers the hardware description it
    is given, with flag CLK_SET_RATE_PARENT, under a name of at most 31
    characters and returns what [devm_clk_register] returns, without
    touching a register.  The name is "<device>#<suffix>" when that fits;
    a device name of 31 characters or more makes the name the same for every
    suffix. *)
Theorem register_clk_name_bounded pdev dwmac suffix parents hw w :
  let r := meson8b_dwmac_register_clk pdev dwmac suffix parents hw w in
  let full := (dev_name pdev ++ "#" ++ suffix)%string in
  exists name,
    trace (snd r)
    = trace w ++ [EvDevmClkRegister name parents CLK_SET_RATE_PARENT hw] /\
    fst r = Ok (devm_clk_register pdev name parents CLK_SET_RATE_PARENT hw) /\
    regs (snd r) = regs w /\
    (String.length name <= 31)%nat /\
    ((String.length full <= 31)%nat -> name = full) /\
    ((31 <= String.length (dev_name pdev))%nat ->
     name = substring 0 31 (dev_name pdev)).
Proof.
  intros r full. exists (substring 0 31 full).
  split; [reflexivity|]. split; [reflexivity|]. split; [reflexivity|].
  split; [apply substring0_length|].
  split; [apply substring0_all|].
  intros Hlong. unfold full. apply substring0_prefix. exact Hlong.
Qed.

Lemma get_mux_parents_run pdev w :
  get_mux_parents pdev MUX_CLK_NUM_PARENTS 0 w
  = match devm_clk_get pdev "clkin0" with
    | IS_ERR e =>
        (Err e,
         mk_world (regs w)
           (trace w ++ EvDevmClkGet "clkin0"
              :: if e =? - EPROBE_DEFER then []
                 else [EvDevErr "Missing clock %s\n"]))
    | IS_OK p0 =>
        match devm_clk_get pdev "clkin1" with
        | IS_ERR e =>
            (Err e,
             mk_world (regs w)
               (trace w ++ EvDevmClkGet "clkin0" :: EvDevmClkGet "clkin1"
                  :: if e =? - EPROBE_DEFER then []
                     else [EvDevErr "Missing clock %s\n"]))
        | IS_OK p1 =>
            (Ok [p0; p1],
             mk_world (regs w)
               (trace w ++ [EvDevmClkGet "clkin0"; EvDevmClkGet "clkin1"]))
        end
    end.
Proof.
  change (get_mux_parents pdev MUX_CLK_NUM_PARENTS 0 w)
    with ((emit (EvDevmClkGet "clkin0") ;;
           match devm_clk_get pdev "clkin0" with
           | IS_ERR ret =>
               (if negb (ret =? - EPROBE_DEFER)
                then dev_err "Missing clock %s\n" else pure tt) ;;
               throw ret
           | IS_OK c =>
               rest <- (emit (EvDevmClkGet "clkin1") ;;
                        match devm_clk_get pdev "clkin1" with
                        | IS_ERR ret =>
                            (if negb (ret =? - EPROBE_DEFER)
                             then dev_err "Missing clock %s\n" else pure tt) ;;
                            throw ret
                        | IS_OK c1 => rest <- pure [] ;; pure (c1 :: rest)
                        end) ;;
               pure (c :: rest)
           end) w).
  unfold bind, emit, dev_err, emit, throw, pure, log. cbn [regs trace].
  destruct (devm_clk_get pdev "clkin0") as [p0|e0].
  - destruct (devm_clk_get pdev "clkin1") as [p1|e1].
    + cbn [regs trace]. rewrite <- app_assoc. reflexivity.
    + destruct (e1 =? - EPROBE_DEFER); cbn [negb regs trace];
        rewrite <- !app_assoc; reflexivity.
  - destruct (e0 =? - EPROBE_DEFER); cbn [negb regs trace];
      rewrite <- ?app_assoc; reflexivity.
Qed.

Lemma meson8b_init_rgmii_tx_clk_run pdev dwmac w :
  meson8b_init_rgmii_tx_clk pdev dwmac w
  = if negb (devm_kzalloc_clk_configs pdev) then (Err (- ENOMEM), w) else
    match get_mux_parents pdev MUX_CLK_NUM_PARENTS 0 w with
    | (Err e, w0) => (Err e, w0)
    | (Ok ps, w0) =>
        let f := CLK_SET_RATE_PARENT in
        let reg n p hw := devm_clk_register pdev (clk_name_of pdev n) p f hw in
        let ev n p hw := EvDevmClkRegister (clk_name_of pdev n) p f hw in
        let hw1 := hw_clk_mux PRG_ETH0 4 1 in
        let hw2 := hw_clk_divider PRG_ETH0 7 3 div_table
                     (Z.lor CLK_DIVIDER_ALLOW_ZERO CLK_DIVIDER_ROUND_CLOSEST) in
        let hw3 := hw_clk_fixed_factor 1 2 in
        let hw4 := hw_clk_gate PRG_ETH0 10 in
        let w1 := log (ev "m250_sel" ps hw1) w0 in
        match reg "m250_sel" ps hw1 with
        | IS_ERR e => (Err e, log EvWarnOn w1)
        | IS_OK c1 =>
        let w2 := log (ev "m250_div" [c1] hw2) w1 in
        match reg "m250_div" [c1] hw2 with
        | IS_ERR e => (Err e, log EvWarnOn w2)
        | IS_OK c2 =>
        let w3 := log (ev "fixed_div2" [c2] hw3) w2 in
        match reg "fixed_div2" [c2] hw3 with
        | IS_ERR e => (Err e, log EvWarnOn w3)
        | IS_OK c3 =>
        let w4 := log (ev "rgmii_tx_en" [c3] hw4) w3 in
        match reg "rgmii_tx_en" [c3] hw4 with
        | IS_ERR e => (Err e, log EvWarnOn w4)
        | IS_OK c4 =>
            (Ok (mk_dwmac (data dwmac) (phy_mode dwmac) (Some c4)
                   (tx_delay_ns dwmac) (rx_delay_ns dwmac)
                   (timing_adj_clk dwmac)), w4)
        end end end end
    end.
Proof.
  unfold meson8b_init_rgmii_tx_clk.
  destruct (negb (devm_kzalloc_clk_configs pdev)); [reflexivity|].
  unfold bind at 1.
  destruct (get_mux_parents pdev MUX_CLK_NUM_PARENTS 0 w) as [[ps|e] w0];
    [|reflexivity].
  cbv zeta.
  unfold bind at 1. rewrite register_clk_run. cbv zeta.
  fold (clk_name_of pdev "m250_sel").
  change (__ffs PRG_ETH0_CLK_M250_SEL_MASK) with 4.
  change (Z.shiftr PRG_ETH0_CLK_M250_SEL_MASK 4) with 1.
  destruct (devm_clk_register pdev (clk_name_of pdev "m250_sel") _ _ _)
    as [c1|e]; unfold bind at 1; cbn [WARN_ON_IS_ERR]; [|reflexivity].
  unfold pure at 1.
  unfold bind at 1. rewrite register_clk_run. cbv zeta.
  fold (clk_name_of pdev "m250_div").
  change PRG_ETH0_CLK_M250_DIV_SHIFT with 7.
  change PRG_ETH0_CLK_M250_DIV_WIDTH with 3.
  destruct (devm_clk_register pdev (clk_name_of pdev "m250_div") _ _ _)
    as [c2|e]; unfold bind at 1; cbn [WARN_ON_IS_ERR]; [|reflexivity].
  unfold pure at 1.
  unfold bind at 1. rewrite register_clk_run. cbv zeta.
  fold (clk_name_of pdev "fixed_div2").
  destruct (devm_clk_register pdev (clk_name_of pdev "fixed_div2") _ _ _)
    as [c3|e]; unfold bind at 1; cbn [WARN_ON_IS_ERR]; [|reflexivity].
  unfold pure at 1.
  unfold bind at 1. rewrite register_clk_run. cbv zeta.
  fold (clk_name_of pdev "rgmii_tx_en").
  change PRG_ETH0_RGMII_TX_CLK_EN with 10.
  destruct (devm_clk_register pdev (clk_name_of pdev "rgmii_tx_en") _ _ _)
    as [c4|e]; unfold bind at 1; cbn [WARN_ON_IS_ERR]; reflexivity.
Qed.

(** X4.  When the allocation, both parent lookups and the four
    registrations succeed, [meson8b_init_rgmii_tx_clk] looks up "clkin0" and
    "clkin1" and registers, in this order, the mux (one bit at bit 4 of
    PRG_ETH0) on the two parents, the divider (3 bits at bit 7, entries 2 to
    7, allow-zero and round-closest) on the mux, the fixed 1:2 factor on the
    divider and the gate (bit 10) on the fixed factor; [rgmii_tx_clk] becomes
    the gate, the other fields of [dwmac] and the registers stay as they
    were. *)
Theorem init_rgmii_tx_clk_chain pdev dwmac w p0 p1 c1 c2 c3 c4 :
  let f := CLK_SET_RATE_PARENT in
  let hw1 := hw_clk_mux PRG_ETH0 4 1 in
  let hw2 := hw_clk_divider PRG_ETH0 7 3
               [(2, 2); (3, 3); (4, 4); (5, 5); (6, 6); (7, 7)]
               (Z.lor CLK_DIVIDER_ALLOW_ZERO CLK_DIVIDER_ROUND_CLOSEST) in
  let hw3 := hw_clk_fixed_factor 1 2 in
  let hw4 := hw_clk_gate PRG_ETH0 10 in
  devm_kzalloc_clk_configs pdev = true ->
  devm_clk_get pdev "clkin0" = IS_OK p0 ->
  devm_clk_get pdev "clkin1" = IS_OK p1 ->
  devm_clk_register pdev (clk_name_of pdev "m250_sel") [p0; p1] f hw1
  = IS_OK c1 ->
  devm_clk_register pdev (clk_name_of pdev "m250_div") [c1] f hw2 = IS_OK c2 ->
  devm_clk_register pdev (clk_name_of pdev "fixed_div2") [c2] f hw3
  = IS_OK c3 ->
  devm_clk_register pdev (clk_name_of pdev "rgmii_tx_en") [c3] f hw4
  = IS_OK c4 ->
  meson8b_init_rgmii_tx_clk pdev dwmac w
  = (Ok (mk_dwmac (data dwmac) (phy_mode dwmac) (Some c4)
           (tx_delay_ns dwmac) (rx_delay_ns dwmac) (timing_adj_clk dwmac)),
     mk_world (regs w)
       (trace w ++
        [EvDevmClkGet "clkin0"; EvDevmClkGet "clkin1";
         EvDevmClkRegister (clk_name_of pdev "m250_sel") [p0; p1] f hw1;
         EvDevmClkRegister (clk_name_of pdev "m250_div") [c1] f hw2;
         EvDevmClkRegister (clk_name_of pdev "fixed_div2") [c2] f hw3;
         EvDevmClkRegister (clk_name_of pdev "rgmii_tx_en") [c3] f hw4])).
Proof.
  intros f hw1 hw2 hw3 hw4 Hkz H0 H1 R1 R2 R3 R4.
  rewrite meson8b_init_rgmii_tx_clk_run, Hkz. cbn [negb].
  rewrite get_mux_parents_run, H0, H1. cbv zeta.
  fold f hw1 hw2 hw3 hw4.
  change div_table with [(2, 2); (3, 3); (4, 4); (5, 5); (6, 6); (7, 7)].
  fold hw2. rewrite R1, R2, R3, R4.
  unfold log. cbn [regs trace]. rewrite <- !app_assoc. reflexivity.
Qed.

(** X5.  When a mux parent is missing, [meson8b_init_rgmii_tx_clk] returns
    the error of the first lookup that failed and registers no clock; it
    logs "Missing clock" unless that error is -EPROBE_DEFER. *)
Theorem init_rgmii_tx_clk_missing_parent pdev dwmac w :
  devm_kzalloc_clk_configs pdev = true ->
  (exists e, devm_clk_get pdev "clkin0" = IS_ERR e) \/
  (exists e, devm_clk_get pdev "clkin1" = IS_ERR e) ->
  let r := meson8b_init_rgmii_tx_clk pdev dwmac w in
  exists name e evs,
    (name = "clkin0" \/
     name = "clkin1" /\ exists p0, devm_clk_get pdev "clkin0" = IS_OK p0) /\
    devm_clk_get pdev name = IS_ERR e /\
    fst r = Err e /\
    regs (snd r) = regs w /\
    trace (snd r) = trace w ++ evs /\
    existsb is_clk_register evs = false /\
    (In (EvDevErr "Missing clock %s\n") evs <-> e <> - EPROBE_DEFER).
Proof.
  intros Hkz Hmiss r. subst r.
  rewrite meson8b_init_rgmii_tx_clk_run, Hkz. cbn [negb].
  rewrite get_mux_parents_run.
  assert (Hlog : forall e pre,
            existsb is_clk_register pre = false ->
            ~ In (EvDevErr "Missing clock %s\n") pre ->
            let evs := pre ++ (if e =? - EPROBE_DEFER then []
                               else [EvDevErr "Missing clock %s\n"]) in
            existsb is_clk_register evs = false /\
            (In (EvDevErr "Missing clock %s\n") evs <-> e <> - EPROBE_DEFER)).
  { intros e pre Hpre Hnin evs. subst evs.
    destruct (e =? - EPROBE_DEFER) eqn:E.
    - apply Z.eqb_eq in E. rewrite app_nil_r. split; [exact Hpre|].
      split; [intros H; contradiction | intros H; contradiction].
    - apply Z.eqb_neq in E. split.
      + rewrite existsb_app, Hpre. reflexivity.
      + split; [intros _; exact E|].
        intros _. apply in_or_app. right. left. reflexivity. }
  destruct (devm_clk_get pdev "clkin0") as [p0|e0] eqn:H0.
  - destruct (devm_clk_get pdev "clkin1") as [p1|e1] eqn:H1.
    + exfalso. destruct Hmiss as [[e H]|[e H]]; discriminate H.
    + destruct (Hlog e1 [EvDevmClkGet "clkin0"; EvDevmClkGet "clkin1"])
        as [Ha Hb]; [reflexivity | |].
      { intros [H|[H|[]]]; discriminate H. }
      exists "clkin1", e1. eexists.
      split; [right; split; [reflexivity | exists p0; reflexivity]|].
      split; [exact H1|]. split; [reflexivity|]. split; [reflexivity|].
      split; [reflexivity|]. split; [exact Ha | exact Hb].
  - destruct (Hlog e0 [EvDevmClkGet "clkin0"]) as [Ha Hb]; [reflexivity | |].
    { intros [H|[]]; discriminate H. }
    exists "clkin0", e0. eexists.
    split; [left; reflexivity|].
    split; [exact H0|]. split; [reflexivity|]. split; [reflexivity|].
    split; [reflexivity|]. split; [exact Ha | exact Hb].
Qed.

Lemma get_mux_parents_outcome pdev w :
  let r := get_mux_parents pdev MUX_CLK_NUM_PARENTS 0 w in
  regs (snd r) = regs w /\
  (exists evs, trace (snd r) = trace w ++ evs /\
               Forall clock_setup_event evs) /\
  (forall e, fst r = Err e -> tx_clk_failure pdev e).
Proof.
  intros r. subst r. rewrite get_mux_parents_run.
  destruct (devm_clk_get pdev "clkin0") as [p0|e0] eqn:H0.
  - destruct (devm_clk_get pdev "clkin1") as [p1|e1] eqn:H1.
    + split; [reflexivity|]. split.
      * eexists. split; [reflexivity | repeat constructor].
      * intros e H. discriminate H.
    + split; [reflexivity|]. split.
      * eexists. split; [reflexivity|].
        destruct (e1 =? - EPROBE_DEFER); repeat constructor.
      * intros e H. inversion H. subst e.
        eapply fail_devm_clk_get. exact H1.
  - split; [reflexivity|]. split.
    + eexists. split; [reflexivity|].
      destruct (e0 =? - EPROBE_DEFER); repeat constructor.
    + intros e H. inversion H. subst e. eapply fail_devm_clk_get. exact H0.
Qed.

Ltac clk_reg_fail w0 evs Hevs Hall :=
  split; [reflexivity|]; split;
  [ eexists; split;
    [ unfold log; cbn [regs trace]; rewrite Hevs, <- !app_assoc; reflexivity
    | apply Forall_app; split; [exact Hall | repeat constructor] ]
  | eapply fail_devm_clk_register; eassumption ].

Lemma meson8b_init_rgmii_tx_clk_cases pdev dwmac w :
  let r := meson8b_init_rgmii_tx_clk pdev dwmac w in
  regs (snd r) = regs w /\
  (exists evs, trace (snd r) = trace w ++ evs /\
               Forall clock_setup_event evs) /\
  match fst r with
  | Ok d =>
      exists c,
        d = mk_dwmac (data dwmac) (phy_mode dwmac) (Some c)
              (tx_delay_ns dwmac) (rx_delay_ns dwmac) (timing_adj_clk dwmac)
  | Err e => tx_clk_failure pdev e
  end.
Proof.
  intros r. subst r. rewrite meson8b_init_rgmii_tx_clk_run.
  destruct (devm_kzalloc_clk_configs pdev) eqn:Hkz; cbn [negb].
  2:{ split; [reflexivity|]. split.
      - exists []. split; [symmetry; apply app_nil_r | constructor].
      - apply fail_alloc_clk_configs. exact Hkz. }
  destruct (get_mux_parents_outcome pdev w) as [Hregs [[evs [Hevs Hall]] Hf]].
  destruct (get_mux_parents pdev MUX_CLK_NUM_PARENTS 0 w) as [[ps|e] w0];
    cbn [fst snd] in Hregs, Hevs, Hf |- *.
  2:{ split; [exact Hregs|]. split; [exists evs; split; assumption|].
      apply Hf. reflexivity. }
  cbv zeta. rewrite <- Hregs.
  destruct (devm_clk_register pdev (clk_name_of pdev "m250_sel") _ _ _)
    as [c1|e] eqn:R1; [|clk_reg_fail w0 evs Hevs Hall].
  destruct (devm_clk_register pdev (clk_name_of pdev "m250_div") _ _ _)
    as [c2|e] eqn:R2; [|clk_reg_fail w0 evs Hevs Hall].
  destruct (devm_clk_register pdev (clk_name_of pdev "fixed_div2") _ _ _)
    as [c3|e] eqn:R3; [|clk_reg_fail w0 evs Hevs Hall].
  destruct (devm_clk_register pdev (clk_name_of pdev "rgmii_tx_en") _ _ _)
    as [c4|e] eqn:R4; [|clk_reg_fail w0 evs Hevs Hall].
  split; [reflexivity|]. split.
  - eexists. split.
    + unfold log. cbn [regs trace]. rewrite Hevs, <- !app_assoc. reflexivity.
    + apply Forall_app. split; [exact Hall | repeat constructor].
  - exists c4. reflexivity.
Qed.

(** X6.  On every path [meson8b_init_rgmii_tx_clk] only looks up and
    registers clocks: it never reads or writes a register and never drives a
    clock.  When it succeeds, [dwmac] differs from the one passed in only by
    [rgmii_tx_clk], which is set; when it fails, the code returned is
    -ENOMEM for the failed allocation or the error of the lookup or
    registration that failed. *)
Theorem init_rgmii_tx_clk_outcome pdev dwmac w :
  let r := meson8b_init_rgmii_tx_clk pdev dwmac w in
  regs (snd r) = regs w /\
  (exists evs, trace (snd r) = trace w ++ evs /\
               Forall clock_setup_event evs) /\
  match fst r with
  | Ok d =>
      exists c,
        d = mk_dwmac (data dwmac) (phy_mode dwmac) (Some c)
              (tx_delay_ns dwmac) (rx_delay_ns dwmac) (timing_adj_clk dwmac)
  | Err e => tx_clk_failure pdev e
  end.
Proof. apply meson8b_init_rgmii_tx_clk_cases. Qed.

(** ** More on [meson8b_init_prg_eth] *)

Lemma meson8b_init_prg_eth_ok_inv ccf dwmac w :
  fst (meson8b_init_prg_eth ccf dwmac w) = Ok tt ->
  exists dv w1 w3,
    combine_by_mode (phy_mode dwmac)
      (tx_dly_config dwmac) (rx_dly_config dwmac) = Some dv /\
    enable_timing_adj ccf dwmac w = (Ok tt, w1) /\
    setup_tx_clk ccf dwmac (masked w1 PRG_ETH0 PRG_ETH0_DELAY_ADJ_MASK dv)
    = (Ok tt, w3) /\
    snd (meson8b_init_prg_eth ccf dwmac w)
    = masked w3 PRG_ETH0 PRG_ETH0_TX_AND_PHY_REF_CLK
        PRG_ETH0_TX_AND_PHY_REF_CLK.
Proof.
  rewrite meson8b_init_prg_eth_run.
  destruct (combine_by_mode _ _ _) as [dv|]; [|discriminate].
  destruct (enable_timing_adj ccf dwmac w) as [[[]|e] w1]; [|discriminate].
  destruct (setup_tx_clk ccf dwmac _) as [[[]|e] w3] eqn:E3; [|discriminate].
  intros _. exists dv, w1, w3. repeat split. exact E3.
Qed.

Ltac emits_with tac :=
  repeat emits_step; try (intros; tac).

Ltac action_event :=
  let c := fresh "c" in
  let H := fresh "H" in
  intros c H; first [discriminate H | inversion H; reflexivity].

Lemma meson8b_init_prg_eth_actions ccf dwmac :
  emits (targets_tx_clk dwmac) (meson8b_init_prg_eth ccf dwmac).
Proof.
  unfold meson8b_init_prg_eth, meson8b_devm_clk_prepare_enable, dev_err.
  apply emits_bind;
    [destruct (phy_mode dwmac); emits_with action_event | intros dc].
  apply emits_bind; [|intros ?].
  { apply emits_if; [|apply emits_pure].
    destruct (timing_adj_clk dwmac); emits_with action_event. }
  emits_with action_event.
Qed.

(** X7.  Every release action [meson8b_init_prg_eth] registers is the
    disable-and-unprepare of [dwmac->rgmii_tx_clk], also the one registered
    after enabling the timing-adjustment clock: on a successful run with
    rx delay 2 ns the timing-adjustment clock has been enabled, yet, when it
    is not the TX clock itself, no release action names it. *)
Theorem devm_actions_target_tx_clk ccf dwmac w :
  let r := meson8b_init_prg_eth ccf dwmac w in
  exists evs,
    trace (snd r) = trace w ++ evs /\
    Forall (targets_tx_clk dwmac) evs /\
    (timing_adj_clk dwmac <> rgmii_tx_clk dwmac ->
     ~ In (EvDevmAddAction (timing_adj_clk dwmac)) evs) /\
    (fst r = Ok tt -> rx_delay_ns dwmac = 2 ->
     In (EvClkPrepareEnable (timing_adj_clk dwmac) 0) evs).
Proof.
  intros r. subst r.
  destruct (meson8b_init_prg_eth_actions ccf dwmac w) as [evs [Hevs Hall]].
  exists evs. split; [exact Hevs|]. split; [exact Hall|]. split.
  - intros Hne Hin. rewrite Forall_forall in Hall.
    apply Hne. apply (Hall _ Hin). reflexivity.
  - intros Hok Hrx.
    destruct (meson8b_init_prg_eth_ok_inv ccf dwmac w Hok)
      as [dv [w1 [w3 [Hdv [Hgate _]]]]].
    destruct (meson8b_init_prg_eth_delay_write ccf dwmac w w1 dv Hdv Hgate)
      as [rest Hrest].
    rewrite enable_timing_adj_run in Hgate.
    apply Z.eqb_eq in Hrx. rewrite Hrx in Hgate.
    destruct (timing_adj_clk dwmac) as [c|]; [|discriminate Hgate].
    cbv zeta in Hgate.
    destruct (fst (ccf_prepare_enable ccf (Some c) w) =? 0);
      [|discriminate Hgate].
    inversion Hgate as [Hw1]. rewrite <- Hw1 in Hrest. cbn [trace] in Hrest.
    rewrite Hevs, <- app_assoc in Hrest. apply app_inv_head in Hrest.
    rewrite Hrest. left. reflexivity.
Qed.

(** X8.  When enabling the timing-adjustment clock fails,
    [meson8b_init_prg_eth] returns the error of [clk_prepare_enable] after
    logging it; it has not read or written a register and has registered no
    release action. *)
Theorem timing_adj_enable_failure ccf dwmac w c e :
  supported_mode (phy_mode dwmac) = true ->
  rx_delay_ns dwmac = 2 -> timing_adj_clk dwmac = Some c ->
  fst (ccf_prepare_enable ccf (Some c) w) = e -> e <> 0 ->
  meson8b_init_prg_eth ccf dwmac w
  = (Err e,
     mk_world (snd (ccf_prepare_enable ccf (Some c) w))
       (trace w ++ [EvClkPrepareEnable (Some c) e;
                    EvDevErr "Failed to enable the timing-adjustment clock\n"])).
Proof.
  intros Hs Hrx Hc He Hne. rewrite meson8b_init_prg_eth_run.
  apply (supported_mode_combine _ (tx_dly_config dwmac) (rx_dly_config dwmac))
    in Hs.
  destruct (combine_by_mode _ _ _) as [dv|]; [|congruence].
  rewrite enable_timing_adj_run, Hrx, Hc. cbv zeta. rewrite He.
  apply Z.eqb_neq in Hne. rewrite Hne. reflexivity.
Qed.

(** X9.  In an RGMII-family mode a failing [clk_set_rate] makes
    [meson8b_init_prg_eth] return its error right after logging it: the TX
    clock is not enabled and the TX-and-PHY-reference-clock bit is not
    written, while the delay/adjust write and the clearing of the
    inverted-RMII-clock bit stay in place.  A failing enable of the TX clock
    likewise ends the run with its error, without a release action and
    without the reference-clock write. *)
Theorem tx_clk_failure_aborts ccf dwmac w w1 dv :
  combine_by_mode (phy_mode dwmac) (tx_dly_config dwmac) (rx_dly_config dwmac)
  = Some dv ->
  enable_timing_adj ccf dwmac w = (Ok tt, w1) ->
  phy_interface_mode_is_rgmii (phy_mode dwmac) = true ->
  let r := meson8b_init_prg_eth ccf dwmac w in
  let tx := rgmii_tx_clk dwmac in
  let old := read_back w1 PRG_ETH0 in
  let v1 := rmw old PRG_ETH0_DELAY_ADJ_MASK dv in
  let v2 := rmw v1 PRG_ETH0_INVERTED_RMII_CLK 0 in
  let w2 := masked (masked w1 PRG_ETH0 PRG_ETH0_DELAY_ADJ_MASK dv)
              PRG_ETH0 PRG_ETH0_INVERTED_RMII_CLK 0 in
  let writes := [EvReadl PRG_ETH0 old; EvWritel v1 PRG_ETH0;
                 EvReadl PRG_ETH0 v1; EvWritel v2 PRG_ETH0] in
  let o1 := ccf_set_rate ccf tx 125000000 w2 in
  let w3 := mk_world (snd o1)
              (trace w2 ++ [EvClkSetRate tx 125000000 (fst o1)]) in
  let o2 := ccf_prepare_enable ccf tx w3 in
  trace w2 = trace w1 ++ writes /\
  (fst o1 <> 0 ->
   fst r = Err (fst o1) /\
   trace (snd r)
   = trace w1 ++ writes
     ++ [EvClkSetRate tx 125000000 (fst o1);
         EvDevErr "failed to set RGMII TX clock\n"]) /\
  (fst o1 = 0 -> fst o2 <> 0 ->
   fst r = Err (fst o2) /\
   trace (snd r)
   = trace w1 ++ writes
     ++ [EvClkSetRate tx 125000000 0; EvClkPrepareEnable tx (fst o2);
         EvDevErr "failed to enable the RGMII TX clock\n"]).
Proof.
  intros Hdv Hgate Hfam r tx old v1 v2 w2 writes o1 w3 o2.
  assert (HM : is_u32 PRG_ETH0_DELAY_ADJ_MASK)
    by (apply is_u32_const; reflexivity).
  assert (Hw2 : trace w2 = trace w1 ++ writes).
  { unfold w2, masked at 1. cbn [trace].
    rewrite masked_read_back by exact HM.
    unfold masked. cbn [trace]. rewrite <- app_assoc. reflexivity. }
  split; [exact Hw2|].
  subst r. rewrite meson8b_init_prg_eth_run, Hdv, Hgate.
  rewrite setup_tx_clk_run, Hfam. cbv zeta.
  fold w2 tx. fold o1. fold w3. fold o2.
  split.
  - intros Hne. apply Z.eqb_neq in Hne. rewrite Hne. cbn [fst snd].
    split; [reflexivity|]. unfold log, w3. cbn [trace].
    rewrite Hw2, <- !app_assoc. reflexivity.
  - intros H1 Hne. rewrite H1. cbn [Z.eqb].
    apply Z.eqb_neq in Hne. rewrite Hne. cbn [fst snd trace].
    split; [reflexivity|]. unfold w3. cbn [trace].
    rewrite H1, Hw2, <- !app_assoc. reflexivity.
Qed.

Lemma land_lor_zero a b keep :
  Z.land (Z.lor a b) keep = 0 -> Z.land a keep = 0 /\ Z.land b keep = 0.
Proof.
  intros H. rewrite Z.land_lor_distr_l in H.
  apply Z.lor_eq_0_iff in H. exact H.
Qed.

Lemma masked_frame w reg0 mask value reg keep :
  is_u32 mask -> (reg = reg0 -> Z.land mask keep = 0) ->
  Z.land (read_back (masked w reg0 mask value) reg) keep
  = Z.land (read_back w reg) keep.
Proof.
  intros Hm Hd. destruct (Z.eq_dec reg reg0) as [->|Hne].
  - apply masked_keeps; [exact Hm | apply Hd; reflexivity].
  - unfold read_back. rewrite masked_other by exact Hne. reflexivity.
Qed.

Lemma setup_tx_clk_frame ccf dwmac w reg keep :
  ccf_preserves ccf reg keep ->
  (reg = PRG_ETH0 -> Z.land PRG_ETH0_INVERTED_RMII_CLK keep = 0) ->
  Z.land (read_back (snd (setup_tx_clk ccf dwmac w)) reg) keep
  = Z.land (read_back w reg) keep.
Proof.
  intros [Hsr Hen] Hd.
  assert (H11 : is_u32 PRG_ETH0_INVERTED_RMII_CLK)
    by (apply is_u32_const; reflexivity).
  rewrite setup_tx_clk_run.
  destruct (phy_interface_mode_is_rgmii (phy_mode dwmac));
    [|apply masked_frame; assumption].
  cbv zeta.
  set (w1 := masked w PRG_ETH0 PRG_ETH0_INVERTED_RMII_CLK 0).
  assert (H1 : Z.land (read_back w1 reg) keep = Z.land (read_back w reg) keep)
    by (apply masked_frame; assumption).
  set (o1 := ccf_set_rate ccf (rgmii_tx_clk dwmac) 125000000 w1).
  assert (H2 : Z.land (u32 (snd o1 reg)) keep = Z.land (read_back w reg) keep)
    by (rewrite <- H1; apply Hsr).
  destruct (fst o1 =? 0); [|exact H2].
  match goal with |- context [ccf_prepare_enable ccf ?c ?x] =>
    set (o2 := ccf_prepare_enable ccf c x);
    assert (H3 : Z.land (u32 (snd o2 reg)) keep
                 = Z.land (read_back w reg) keep)
      by (rewrite <- H2; apply (Hen c x))
  end.
  destruct (fst o2 =? 0); exact H3.
Qed.

Lemma meson8b_init_prg_eth_keeps ccf dwmac w reg keep :
  ccf_preserves ccf reg keep ->
  (reg = PRG_ETH0 -> Z.land PRG_ETH0_INIT_WRITTEN keep = 0) ->
  Z.land (read_back (snd (meson8b_init_prg_eth ccf dwmac w)) reg) keep
  = Z.land (read_back w reg) keep.
Proof.
  intros Hccf Hd.
  assert (HM : is_u32 PRG_ETH0_DELAY_ADJ_MASK)
    by (apply is_u32_const; reflexivity).
  assert (H12 : is_u32 PRG_ETH0_TX_AND_PHY_REF_CLK)
    by (apply is_u32_const; reflexivity).
  assert (Hparts : reg = PRG_ETH0 ->
            Z.land PRG_ETH0_DELAY_ADJ_MASK keep = 0 /\
            Z.land PRG_ETH0_INVERTED_RMII_CLK keep = 0 /\
            Z.land PRG_ETH0_TX_AND_PHY_REF_CLK keep = 0).
  { intros Hr. specialize (Hd Hr). unfold PRG_ETH0_INIT_WRITTEN in Hd.
    apply land_lor_zero in Hd. destruct Hd as [Ha Hb].
    apply land_lor_zero in Hb. destruct Hb as [Hb Hc]. repeat split; assumption. }
  rewrite meson8b_init_prg_eth_run.
  destruct (combine_by_mode _ _ _) as [dv|]; [|reflexivity].
  pose proof (enable_timing_adj_keeps ccf dwmac w reg keep Hccf) as Hg.
  destruct (enable_timing_adj ccf dwmac w) as [[[]|e] w1];
    cbn [snd] in Hg |- *; [|exact Hg].
  set (w2 := masked w1 PRG_ETH0 PRG_ETH0_DELAY_ADJ_MASK dv).
  assert (H2 : Z.land (read_back w2 reg) keep = Z.land (read_back w reg) keep).
  { rewrite <- Hg. apply masked_frame; [exact HM|].
    intros Hr. apply (Hparts Hr). }
  pose proof (setup_tx_clk_frame ccf dwmac w2 reg keep Hccf
                (fun Hr => proj1 (proj2 (Hparts Hr)))) as H3.
  destruct (setup_tx_clk ccf dwmac w2) as [[[]|e] w3]; cbn [snd] in H3 |- *.
  - rewrite masked_frame; [rewrite H3; exact H2 | exact H12 |].
    intros Hr. apply (Hparts Hr).
  - rewrite H3. exact H2.
Qed.

(** X10.  Whatever path [meson8b_init_prg_eth] takes, the only bits of the
    register file it changes itself are the delay/adjust fields, the
    inverted-RMII-clock bit and the TX-and-PHY-reference-clock bit of
    PRG_ETH0: any bits the clock framework leaves alone, outside those in
    PRG_ETH0 or anywhere in another register, read back as before.  In
    particular the interface-mode bits 2:0 and the calibration bits 29:25
    survive. *)
Theorem init_prg_eth_frame ccf dwmac w reg keep :
  ccf_preserves ccf reg keep ->
  (reg = PRG_ETH0 ->
   Z.land (Z.lor (GENMASK 6 5) (Z.lor (GENMASK 24 13) (GENMASK 12 11))) keep
   = 0) ->
  Z.land (read_back (snd (meson8b_init_prg_eth ccf dwmac w)) reg) keep
  = Z.land (read_back w reg) keep.
Proof.
  intros Hccf Hd. apply meson8b_init_prg_eth_keeps; [exact Hccf|].
  intros Hr. specialize (Hd Hr).
  replace PRG_ETH0_INIT_WRITTEN
    with (Z.lor (GENMASK 6 5) (Z.lor (GENMASK 24 13) (GENMASK 12 11)))
    by reflexivity.
  exact Hd.
Qed.

Lemma ccf_preserves_sub ccf reg keep sub :
  ccf_preserves ccf reg keep -> Z.land keep sub = sub ->
  ccf_preserves ccf reg sub.
Proof.
  intros [Hsr Hen] Hs. split.
  - intros c rate w. rewrite <- Hs, !Z.land_assoc, Hsr. reflexivity.
  - intros c w. rewrite <- Hs, !Z.land_assoc, Hen. reflexivity.
Qed.

Lemma setup_tx_clk_bit11 ccf dwmac w :
  ccf_preserves ccf PRG_ETH0 PRG_ETH0_INVERTED_RMII_CLK ->
  Z.land (read_back (snd (setup_tx_clk ccf dwmac w)) PRG_ETH0)
    PRG_ETH0_INVERTED_RMII_CLK
  = if phy_interface_mode_is_rgmii (phy_mode dwmac)
    then 0 else PRG_ETH0_INVERTED_RMII_CLK.
Proof.
  intros [Hsr Hen].
  assert (H11 : is_u32 PRG_ETH0_INVERTED_RMII_CLK)
    by (apply is_u32_const; reflexivity).
  rewrite setup_tx_clk_run.
  destruct (phy_interface_mode_is_rgmii (phy_mode dwmac));
    [|apply masked_field; exact H11].
  cbv zeta.
  set (w1 := masked w PRG_ETH0 PRG_ETH0_INVERTED_RMII_CLK 0).
  assert (H1 : Z.land (read_back w1 PRG_ETH0) PRG_ETH0_INVERTED_RMII_CLK = 0)
    by (unfold w1; rewrite masked_field by exact H11; reflexivity).
  set (o1 := ccf_set_rate ccf (rgmii_tx_clk dwmac) 125000000 w1).
  assert (H2 : Z.land (u32 (snd o1 PRG_ETH0)) PRG_ETH0_INVERTED_RMII_CLK = 0)
    by (rewrite <- H1; apply Hsr).
  destruct (fst o1 =? 0); [|exact H2].
  match goal with |- context [ccf_prepare_enable ccf ?c ?x] =>
    set (o2 := ccf_prepare_enable ccf c x);
    assert (H3 : Z.land (u32 (snd o2 PRG_ETH0)) PRG_ETH0_INVERTED_RMII_CLK = 0)
      by (rewrite <- H2; apply (Hen c x))
  end.
  destruct (fst o2 =? 0); exact H3.
Qed.

Lemma meson8b_init_prg_eth_image ccf dwmac w dv :
  ccf_preserves ccf PRG_ETH0 PRG_ETH0_INIT_WRITTEN ->
  combine_by_mode (phy_mode dwmac) (tx_dly_config dwmac) (rx_dly_config dwmac)
  = Some dv ->
  fst (meson8b_init_prg_eth ccf dwmac w) = Ok tt ->
  Z.land (read_back (snd (meson8b_init_prg_eth ccf dwmac w)) PRG_ETH0)
    PRG_ETH0_INIT_WRITTEN
  = init_image dwmac dv.
Proof.
  intros Hccf Hdv Hok.
  assert (HM : is_u32 PRG_ETH0_DELAY_ADJ_MASK)
    by (apply is_u32_const; reflexivity).
  assert (H12 : is_u32 PRG_ETH0_TX_AND_PHY_REF_CLK)
    by (apply is_u32_const; reflexivity).
  assert (CM : ccf_preserves ccf PRG_ETH0 PRG_ETH0_DELAY_ADJ_MASK)
    by (eapply ccf_preserves_sub; [exact Hccf | reflexivity]).
  assert (C11 : ccf_preserves ccf PRG_ETH0 PRG_ETH0_INVERTED_RMII_CLK)
    by (eapply ccf_preserves_sub; [exact Hccf | reflexivity]).
  destruct (meson8b_init_prg_eth_ok_inv ccf dwmac w Hok)
    as [dv' [w1 [w3 [Hdv' [Hgate [Hsetup Hfin]]]]]].
  assert (dv' = dv) by congruence. subst dv'.
  destruct (combine_by_mode_bits dwmac dv Hdv) as [_ Hin].
  rewrite Hfin. unfold PRG_ETH0_INIT_WRITTEN, init_image.
  rewrite !Z.land_lor_distr_r.
  set (w2 := masked w1 PRG_ETH0 PRG_ETH0_DELAY_ADJ_MASK dv) in *.
  assert (H3 : w3 = snd (setup_tx_clk ccf dwmac w2))
    by (rewrite Hsetup; reflexivity).
  f_equal; [|f_equal].
  - rewrite masked_keeps by (exact H12 || reflexivity).
    rewrite H3, setup_tx_clk_keeps by (exact CM || reflexivity).
    unfold w2. rewrite masked_field by exact HM. exact Hin.
  - rewrite masked_keeps by (exact H12 || reflexivity).
    rewrite H3. apply setup_tx_clk_bit11. exact C11.
  - rewrite masked_field by exact H12. reflexivity.
Qed.

(** X11.  What a successful [meson8b_init_prg_eth] leaves in the bits it
    writes (delay/adjust fields, bit 11, bit 12) is decided by [dwmac] alone:
    the combined delay value, bit 11 set exactly outside the RGMII family,
    bit 12 set.  It does not depend on what the register held before, so
    two successful runs from any two register files agree on these bits and
    running the function again changes none of them (the clock framework
    being one that leaves these bits alone). *)
Theorem init_prg_eth_image_independent ccf dwmac w w' :
  ccf_preserves ccf PRG_ETH0 PRG_ETH0_INIT_WRITTEN ->
  let r := meson8b_init_prg_eth ccf dwmac w in
  let r' := meson8b_init_prg_eth ccf dwmac w' in
  fst r = Ok tt -> fst r' = Ok tt ->
  PRG_ETH0_INIT_WRITTEN
  = Z.lor (GENMASK 6 5) (Z.lor (GENMASK 24 13) (GENMASK 12 11)) /\
  (exists dv,
     combine_by_mode (phy_mode dwmac)
       (tx_dly_config dwmac) (rx_dly_config dwmac) = Some dv /\
     Z.land (read_back (snd r) PRG_ETH0) PRG_ETH0_INIT_WRITTEN
     = Z.lor dv
         (Z.lor (if phy_interface_mode_is_rgmii (phy_mode dwmac)
                 then 0 else BIT 11) (BIT 12))) /\
  Z.land (read_back (snd r) PRG_ETH0) PRG_ETH0_INIT_WRITTEN
  = Z.land (read_back (snd r') PRG_ETH0) PRG_ETH0_INIT_WRITTEN /\
  (fst (meson8b_init_prg_eth ccf dwmac (snd r)) = Ok tt ->
   Z.land (read_back (snd (meson8b_init_prg_eth ccf dwmac (snd r))) PRG_ETH0)
     PRG_ETH0_INIT_WRITTEN
   = Z.land (read_back (snd r) PRG_ETH0) PRG_ETH0_INIT_WRITTEN).
Proof.
  intros Hccf r r' Hok Hok'.
  destruct (meson8b_init_prg_eth_ok_inv ccf dwmac w Hok)
    as [dv [_ [_ [Hdv _]]]].
  pose proof (meson8b_init_prg_eth_image ccf dwmac w dv Hccf Hdv Hok) as Hi.
  split; [reflexivity|]. split; [exists dv; split; [exact Hdv | exact Hi]|].
  split.
  - fold r in Hi. rewrite Hi. symmetry.
    apply meson8b_init_prg_eth_image; assumption.
  - intros Hok2. fold r in Hi. rewrite Hi.
    apply meson8b_init_prg_eth_image; assumption.
Qed.

Ltac only_tx_event :=
  let c := fresh "c" in
  let ret := fresh "ret" in
  let H := fresh "H" in
  intros c ret H; first [discriminate H | inversion H; reflexivity].

Lemma meson8b_init_prg_eth_without_rx_delay ccf dwmac w :
  rx_delay_ns dwmac <> 2 ->
  exists evs,
    trace (snd (meson8b_init_prg_eth ccf dwmac w)) = trace w ++ evs /\
    Forall (enables_only_tx_clk dwmac) evs /\
    (phy_interface_mode_is_rgmii (phy_mode dwmac) = false ->
     Forall (fun e => is_clk_call e = false) evs).
Proof.
  intros Hrx. apply Z.eqb_neq in Hrx.
  rewrite meson8b_init_prg_eth_run.
  destruct (combine_by_mode _ _ _) as [dv|].
  2:{ eexists. split; [reflexivity|].
      split; [|intros _]; repeat constructor. only_tx_event. }
  rewrite enable_timing_adj_run, Hrx.
  rewrite setup_tx_clk_run.
  destruct (phy_interface_mode_is_rgmii (phy_mode dwmac)).
  - cbv zeta.
    destruct (fst (ccf_set_rate ccf _ _ _) =? 0);
      [destruct (fst (ccf_prepare_enable ccf _ _) =? 0)|];
      (eexists; split;
       [ unfold masked, log; cbn [snd trace]; rewrite <- !app_assoc;
         reflexivity
       | split; [|intros H; discriminate H];
         repeat (constructor; [only_tx_event|]); constructor ]).
  - eexists. split.
    + unfold masked. cbn [snd trace]. rewrite <- !app_assoc. reflexivity.
    + split; [|intros _]; repeat constructor; only_tx_event.
Qed.

Lemma meson8b_init_prg_eth_with_rx_delay ccf dwmac w c :
  supported_mode (phy_mode dwmac) = true ->
  rx_delay_ns dwmac = 2 -> timing_adj_clk dwmac = Some c ->
  exists ret rest,
    trace (snd (meson8b_init_prg_eth ccf dwmac w))
    = trace w ++ EvClkPrepareEnable (Some c) ret :: rest.
Proof.
  intros Hs Hrx Hc.
  apply (supported_mode_combine _ (tx_dly_config dwmac) (rx_dly_config dwmac))
    in Hs.
  destruct (combine_by_mode (phy_mode dwmac) (tx_dly_config dwmac)
              (rx_dly_config dwmac)) as [dv|] eqn:Hdv; [|congruence].
  destruct (enable_timing_adj ccf dwmac w) as [res w1] eqn:Hgate.
  pose proof Hgate as Hrun.
  rewrite enable_timing_adj_run, Hrx, Hc in Hrun. cbv zeta in Hrun.
  cbn [Z.eqb] in Hrun.
  destruct (fst (ccf_prepare_enable ccf (Some c) w) =? 0) eqn:E;
    inversion Hrun as [[Hres Hw1]]; subst res.
  - destruct (meson8b_init_prg_eth_delay_write ccf dwmac w w1 dv Hdv Hgate)
      as [rest Hrest].
    rewrite Hrest, <- Hw1. cbn [trace]. rewrite <- app_assoc.
    eexists. eexists. reflexivity.
  - rewrite meson8b_init_prg_eth_run, Hdv, Hgate, <- Hw1. cbn [snd trace].
    eexists. eexists. reflexivity.
Qed.

(** X12.  [meson8b_init_prg_eth] uses the timing-adjustment clock only for
    an rx delay of 2 ns.  With any other rx delay every clock it enables is
    [dwmac->rgmii_tx_clk], and outside the RGMII family it makes no clock
    call at all.  With rx delay 2 ns, in the five modes, enabling the
    timing-adjustment clock is attempted before anything else, so before
    the first register access. *)
Theorem timing_adj_clk_use ccf dwmac w :
  let r := meson8b_init_prg_eth ccf dwmac w in
  exists evs,
    trace (snd r) = trace w ++ evs /\
    (rx_delay_ns dwmac <> 2 ->
     Forall (enables_only_tx_clk dwmac) evs /\
     (phy_interface_mode_is_rgmii (phy_mode dwmac) = false ->
      Forall (fun e => is_clk_call e = false) evs)) /\
    (supported_mode (phy_mode dwmac) = true -> rx_delay_ns dwmac = 2 ->
     forall c, timing_adj_clk dwmac = Some c ->
     exists ret rest, evs = EvClkPrepareEnable (Some c) ret :: rest).
Proof.
  intros r. subst r.
  destruct (meson8b_init_prg_eth_actions ccf dwmac w) as [evs [Hevs _]].
  exists evs. split; [exact Hevs|]. split.
  - intros Hrx.
    destruct (meson8b_init_prg_eth_without_rx_delay ccf dwmac w Hrx)
      as [evs' [Hevs' H]].
    rewrite Hevs in Hevs'. apply app_inv_head in Hevs'. subst evs'. exact H.
  - intros Hs Hrx c Hc.
    destruct (meson8b_init_prg_eth_with_rx_delay ccf dwmac w c Hs Hrx Hc)
      as [ret [rest H]].
    rewrite Hevs in H. apply app_inv_head in H.
    exists ret, rest. exact H.
Qed.

(** ** More on probe *)

Lemma emits_weaken {A} (P Q : event -> Prop) (c : drv A) :
  (forall e, P e -> Q e) -> emits P c -> emits Q c.
Proof.
  intros HPQ Hc w. destruct (Hc w) as [evs [H F]].
  exists evs. split; [exact H|]. eapply Forall_impl; eassumption.
Qed.

Ltac plain_done :=
  unfold plain_event, inner_event; repeat split; try discriminate.

Lemma get_mux_parents_plain pdev todo i :
  emits plain_event (get_mux_parents pdev todo i).
Proof.
  revert i. induction todo as [|todo IH]; intros i; cbn [get_mux_parents].
  - apply emits_pure.
  - apply emits_bind; [emits_with plain_done | intros _].
    destruct (devm_clk_get pdev _) as [c|e].
    + apply emits_bind; [apply IH | intros rest; apply emits_pure].
    + unfold dev_err. emits_with plain_done.
Qed.

Lemma register_clk_plain pdev dwmac suffix parents hw :
  emits plain_event (meson8b_dwmac_register_clk pdev dwmac suffix parents hw).
Proof. unfold meson8b_dwmac_register_clk. emits_with plain_done. Qed.

Lemma warn_on_plain c : emits plain_event (WARN_ON_IS_ERR c).
Proof. destruct c; cbn [WARN_ON_IS_ERR]; emits_with plain_done. Qed.

Lemma meson8b_init_rgmii_tx_clk_plain pdev dwmac :
  emits plain_event (meson8b_init_rgmii_tx_clk pdev dwmac).
Proof.
  unfold meson8b_init_rgmii_tx_clk.
  apply emits_if; [apply emits_throw|].
  apply emits_bind; [apply get_mux_parents_plain | intros ps].
  repeat (apply emits_bind;
          [first [apply register_clk_plain | apply warn_on_plain] | intros ?]).
  apply emits_pure.
Qed.

Lemma set_phy_mode_plain d dwmac : emits plain_event (set_phy_mode d dwmac).
Proof.
  destruct d; cbn [set_phy_mode];
    unfold meson8b_set_phy_mode, meson_axg_set_phy_mode, dev_err;
    destruct (phy_mode dwmac); emits_with plain_done.
Qed.

Ltac inner_done := unfold inner_event; repeat split; try discriminate.

Lemma meson8b_init_prg_eth_inner ccf dwmac :
  emits inner_event (meson8b_init_prg_eth ccf dwmac).
Proof.
  unfold meson8b_init_prg_eth, meson8b_devm_clk_prepare_enable, dev_err.
  apply emits_bind;
    [destruct (phy_mode dwmac); emits_with inner_done | intros dc].
  apply emits_bind; [|intros ?].
  { apply emits_if; [|apply emits_pure].
    destruct (timing_adj_clk dwmac); emits_with inner_done. }
  emits_with inner_done.
Qed.

Lemma meson8b_init_prg_eth_plain ccf dwmac :
  supported_mode (phy_mode dwmac) = true ->
  emits plain_event (meson8b_init_prg_eth ccf dwmac).
Proof.
  intros Hs.
  unfold meson8b_init_prg_eth, meson8b_devm_clk_prepare_enable, dev_err.
  apply emits_bind;
    [destruct (phy_mode dwmac); try discriminate Hs; apply emits_pure
    | intros dc].
  apply emits_bind; [|intros ?].
  { apply emits_if; [|apply emits_pure].
    destruct (timing_adj_clk dwmac); emits_with plain_done. }
  emits_with plain_done.
Qed.

Lemma probe_tail_run ccf pdev dwmac w :
  probe_tail ccf pdev dwmac w
  = match meson8b_init_rgmii_tx_clk pdev dwmac w with
    | (Err e, w1) => (Err e, w1)
    | (Ok d, w1) =>
        match set_phy_mode (data d) d w1 with
        | (Err e, w2) => (Err e, w2)
        | (Ok _, w2) =>
            match meson8b_init_prg_eth ccf d w2 with
            | (Err e, w3) => (Err e, w3)
            | (Ok _, w3) =>
                let ret := stmmac_dvr_probe pdev d in
                (if ret =? 0 then Ok tt else Err ret,
                 log (EvStmmacDvrProbe d ret) w3)
            end
        end
    end.
Proof.
  unfold probe_tail. unfold bind at 1.
  destruct (meson8b_init_rgmii_tx_clk pdev dwmac w) as [[d|e] w1];
    [|reflexivity].
  unfold bind at 1.
  destruct (set_phy_mode (data d) d w1) as [[[]|e] w2]; [|reflexivity].
  unfold bind at 1.
  destruct (meson8b_init_prg_eth ccf d w2) as [[[]|e] w3]; [|reflexivity].
  cbv zeta. unfold bind, emit.
  destruct (stmmac_dvr_probe pdev d =? 0); reflexivity.
Qed.

Lemma set_phy_mode_run d dwmac w :
  set_phy_mode d dwmac w
  = if supported_mode (phy_mode dwmac)
    then (Ok tt, masked w PRG_ETH0 (policy_mask d)
                   (policy_value d (phy_mode dwmac)))
    else (Err (- EINVAL), log (EvDevErr "fail to set phy-mode %s\n") w).
Proof.
  assert (H1 : is_u32 PRG_ETH0_RGMII_MODE) by (apply is_u32_const; reflexivity).
  assert (H7 : is_u32 PRG_ETH0_EXT_PHY_MODE_MASK)
    by (apply is_u32_const; reflexivity).
  destruct d; cbn [set_phy_mode policy_mask policy_value];
    unfold meson8b_set_phy_mode, meson_axg_set_phy_mode;
    destruct (phy_mode dwmac);
    cbv beta iota delta [supported_mode];
    try reflexivity; rewrite mask_bits_masked by assumption; reflexivity.
Qed.

Ltac startup_done :=
  cbv [on_error bind dev_err emit throw log]; cbn [fst snd regs trace];
  right; split; [discriminate|]; split; [reflexivity|];
  first
    [ exists []; split; [symmetry; apply app_nil_r | constructor]
    | eexists; split; [reflexivity|];
      repeat (constructor; [unfold startup_event; tauto|]); constructor
    | eexists; split; [rewrite <- app_assoc; reflexivity|];
      repeat (constructor; [unfold startup_event; tauto|]); constructor ].

(** Either the whole configuration resolved, or probe gave up having logged
    at most a startup complaint and the tear-down. *)
Lemma probe_startup ccf pdev w :
  let r := meson8b_dwmac_probe ccf pdev w in
  (exists d m,
      prologue_ok pdev d m /\
      (dt_rx_delay_ns pdev = 0 \/ dt_rx_delay_ns pdev = 2)) \/
  (fst r <> Ok tt /\ regs (snd r) = regs w /\
   exists evs, trace (snd r) = trace w ++ evs /\ Forall startup_event evs).
Proof.
  intros r. subst r. unfold meson8b_dwmac_probe.
  destruct (stmmac_get_platform_resources pdev =? 0) eqn:Hres;
    cbn [negb]; [|startup_done].
  apply Z.eqb_eq in Hres.
  destruct (stmmac_probe_config_dt pdev) as [p1|e1] eqn:Hcfg; [|startup_done].
  unfold meson8b_dwmac_probe_body.
  destruct (devm_kzalloc_dwmac pdev) eqn:Hk; cbn [negb]; [|startup_done].
  destruct (of_device_get_match_data pdev) as [d|] eqn:Hmd; [|startup_done].
  destruct (devm_platform_ioremap_resource pdev) as [p2|e2] eqn:Hio;
    [|startup_done].
  destruct (of_get_phy_mode pdev) as [m|] eqn:Hpm; [|startup_done].
  fold (dt_rx_delay_ns pdev).
  destruct (negb (dt_rx_delay_ns pdev =? 0) && negb (dt_rx_delay_ns pdev =? 2))
    eqn:Hrx; [startup_done|].
  left. exists d, m. split.
  - unfold prologue_ok. split; [exact Hres|]. split; [exists p1; exact Hcfg|].
    split; [exact Hk|]. split; [exact Hmd|].
    split; [exists p2; exact Hio | exact Hpm].
  - destruct (dt_rx_delay_ns pdev =? 0) eqn:E0;
      [left; apply Z.eqb_eq; exact E0|].
    destruct (dt_rx_delay_ns pdev =? 2) eqn:E2;
      [right; apply Z.eqb_eq; exact E2 | discriminate Hrx].
Qed.

Lemma probe_resolved_run ccf pdev d m w :
  prologue_ok pdev d m ->
  dt_rx_delay_ns pdev = 0 \/ dt_rx_delay_ns pdev = 2 ->
  meson8b_dwmac_probe ccf pdev w
  = match devm_clk_get_optional pdev "timing-adjustment" with
    | IS_ERR e =>
        (Err e,
         mk_world (regs w)
           (trace w ++ [EvDevmClkGetOptional "timing-adjustment";
                        EvStmmacRemoveConfigDt]))
    | IS_OK adj =>
        match probe_tail ccf pdev
                (mk_dwmac d m None (dt_tx_delay_ns pdev)
                   (dt_rx_delay_ns pdev) adj)
                (log (EvDevmClkGetOptional "timing-adjustment") w) with
        | (Ok a, w1) => (Ok a, w1)
        | (Err e, w1) => (Err e, log EvStmmacRemoveConfigDt w1)
        end
    end.
Proof.
  intros Hpro Hrx. rewrite (meson8b_dwmac_probe_run ccf pdev d m w Hpro).
  assert (Hb : negb (dt_rx_delay_ns pdev =? 0)
               && negb (dt_rx_delay_ns pdev =? 2) = false).
  { destruct (negb (dt_rx_delay_ns pdev =? 0)
              && negb (dt_rx_delay_ns pdev =? 2)) eqn:E; [|reflexivity].
    apply rx_check in E. lia. }
  rewrite Hb. unfold on_error, bind, emit.
  destruct (devm_clk_get_optional pdev "timing-adjustment") as [adj|e].
  - reflexivity.
  - unfold throw, log. cbn [regs trace]. rewrite <- app_assoc. reflexivity.
Qed.

Lemma plain_inner e : plain_event e -> inner_event e.
Proof. intros [H _]. exact H. Qed.

Lemma inner_not_teardown e : inner_event e -> not_teardown e.
Proof. intros [H _]. exact H. Qed.

Lemma probe_tail_not_teardown ccf pdev dwmac :
  emits not_teardown (probe_tail ccf pdev dwmac).
Proof.
  unfold probe_tail.
  apply emits_bind; [|intros d].
  { eapply emits_weaken; [|apply meson8b_init_rgmii_tx_clk_plain].
    intros e H. apply inner_not_teardown, plain_inner, H. }
  apply emits_bind; [|intros _].
  { eapply emits_weaken; [|apply set_phy_mode_plain].
    intros e H. apply inner_not_teardown, plain_inner, H. }
  apply emits_bind; [|intros _].
  { eapply emits_weaken; [|apply meson8b_init_prg_eth_inner].
    intros e H. apply inner_not_teardown, H. }
  emits_with ltac:(unfold not_teardown; discriminate).
Qed.

Lemma probe_body_not_teardown ccf pdev :
  emits not_teardown (meson8b_dwmac_probe_body ccf pdev).
Proof.
  unfold meson8b_dwmac_probe_body, dev_err.
  apply emits_if; [apply emits_throw|].
  destruct (of_device_get_match_data pdev) as [d|]; [|apply emits_throw].
  destruct (devm_platform_ioremap_resource pdev); [|apply emits_throw].
  destruct (of_get_phy_mode pdev) as [m|];
    [|emits_with ltac:(unfold not_teardown; discriminate)].
  cbv zeta.
  apply emits_if; [emits_with ltac:(unfold not_teardown; discriminate)|].
  apply emits_bind;
    [emits_with ltac:(unfold not_teardown; discriminate) | intros _].
  destruct (devm_clk_get_optional pdev _) as [adj|e]; [|apply emits_throw].
  apply (probe_tail_not_teardown ccf pdev
           (mk_dwmac d m None (dt_tx_delay_ns pdev) (dt_rx_delay_ns pdev)
              adj)).
Qed.

(** X13.  Probe calls [stmmac_remove_config_dt] exactly on the failures that
    happen after the platform data exists, and then as its last action.  A
    failure of [stmmac_get_platform_resources] or of [stmmac_probe_config_dt]
    returns that error with nothing logged; any later failure returns its
    error with the tear-down logged once, at the end; a successful probe
    never tears the configuration down. *)
Theorem probe_teardown_discipline ccf pdev w :
  let r := meson8b_dwmac_probe ccf pdev w in
  exists evs,
    trace (snd r) = trace w ++ evs /\
    match fst r with
    | Ok _ => ~ In EvStmmacRemoveConfigDt evs
    | Err e =>
        (stmmac_get_platform_resources pdev = e /\ e <> 0 /\ evs = []) \/
        (stmmac_get_platform_resources pdev = 0 /\
         stmmac_probe_config_dt pdev = IS_ERR e /\ evs = []) \/
        (stmmac_get_platform_resources pdev = 0 /\
         (exists p, stmmac_probe_config_dt pdev = IS_OK p) /\
         exists pre,
           evs = pre ++ [EvStmmacRemoveConfigDt] /\
           ~ In EvStmmacRemoveConfigDt pre)
    end.
Proof.
  intros r. subst r. unfold meson8b_dwmac_probe.
  destruct (stmmac_get_platform_resources pdev =? 0) eqn:Hres; cbn [negb].
  2:{ apply Z.eqb_neq in Hres. exists []. split;
        [symmetry; apply app_nil_r|].
      left. repeat split. exact Hres. }
  apply Z.eqb_eq in Hres.
  destruct (stmmac_probe_config_dt pdev) as [p|e] eqn:Hcfg.
  2:{ exists []. split; [symmetry; apply app_nil_r|].
      right. left. repeat split. exact Hres. }
  unfold on_error.
  destruct (probe_body_not_teardown ccf pdev w) as [evs [Hevs Hall]].
  assert (Hnin : ~ In EvStmmacRemoveConfigDt evs).
  { intros Hin. rewrite Forall_forall in Hall.
    apply (Hall _ Hin). reflexivity. }
  destruct (meson8b_dwmac_probe_body ccf pdev w) as [[a|e] w1];
    cbn [fst snd] in Hevs |- *.
  - exists evs. split; [exact Hevs | exact Hnin].
  - exists (evs ++ [EvStmmacRemoveConfigDt]). split.
    + unfold log. cbn [trace]. rewrite Hevs, app_assoc. reflexivity.
    + right. right. split; [exact Hres|]. split; [exists p; reflexivity|].
      exists evs. split; [reflexivity | exact Hnin].
Qed.

Lemma world_eta w rs tr : regs w = rs -> trace w = tr -> w = mk_world rs tr.
Proof. destruct w. cbn. intros -> ->. reflexivity. Qed.

(** Every path through the tail of probe. *)
Lemma probe_tail_cases ccf pdev dwmac w :
  let r := probe_tail ccf pdev dwmac w in
  exists evs1,
    Forall plain_event evs1 /\ Forall clock_setup_event evs1 /\
    let w1 := mk_world (regs w) (trace w ++ evs1) in
    ((exists e, r = (Err e, w1) /\ tx_clk_failure pdev e) \/
     exists c,
       let d := mk_dwmac (data dwmac) (phy_mode dwmac) (Some c)
                  (tx_delay_ns dwmac) (rx_delay_ns dwmac)
                  (timing_adj_clk dwmac) in
       meson8b_init_rgmii_tx_clk pdev dwmac w = (Ok d, w1) /\
       ((supported_mode (phy_mode dwmac) = false /\
         r = (Err (- EINVAL),
              log (EvDevErr "fail to set phy-mode %s\n") w1)) \/
        (supported_mode (phy_mode dwmac) = true /\
         let w2 := masked w1 PRG_ETH0 (policy_mask (data dwmac))
                     (policy_value (data dwmac) (phy_mode dwmac)) in
         let ret := stmmac_dvr_probe pdev d in
         match meson8b_init_prg_eth ccf d w2 with
         | (Err e, w3) => r = (Err e, w3)
         | (Ok _, w3) =>
             r = (if ret =? 0 then Ok tt else Err ret,
                  log (EvStmmacDvrProbe d ret) w3)
         end))).
Proof.
  intros r. subst r. rewrite probe_tail_run.
  destruct (meson8b_init_rgmii_tx_clk_plain pdev dwmac w) as [evs1 [Hevs Hp]].
  destruct (meson8b_init_rgmii_tx_clk_cases pdev dwmac w)
    as [Hregs [[evs' [Hevs' Hc]] Hres]].
  rewrite Hevs in Hevs'. apply app_inv_head in Hevs'. subst evs'.
  exists evs1. split; [exact Hp|]. split; [exact Hc|]. cbv zeta.
  destruct (meson8b_init_rgmii_tx_clk pdev dwmac w) as [[d|e] w1];
    cbn [fst snd] in Hevs, Hregs, Hres.
  2:{ left. exists e. split; [|exact Hres].
      f_equal. apply world_eta; assumption. }
  right. destruct Hres as [c Hd]. subst d. exists c.
  assert (Hw1 : w1 = mk_world (regs w) (trace w ++ evs1))
    by (apply world_eta; assumption).
  rewrite <- Hw1. split; [reflexivity|].
  cbn [data phy_mode]. rewrite set_phy_mode_run. cbn [phy_mode].
  destruct (supported_mode (phy_mode dwmac)).
  - right. split; [reflexivity|].
    destruct (meson8b_init_prg_eth ccf _ _) as [[[]|e] w3]; reflexivity.
  - left. split; reflexivity.
Qed.

(** X14.  Probe touches no register and no clock, and hands nothing to the
    MAC core, unless the whole configuration resolved first: platform
    resources, platform data, match data, register mapping and phy-mode are
    there and the rx delay is 0 or 2.  Otherwise it fails with the register
    file unchanged, logging at most the complaint and the tear-down. *)
Theorem probe_resolves_configuration_first ccf pdev w :
  let r := meson8b_dwmac_probe ccf pdev w in
  (exists d m,
      prologue_ok pdev d m /\
      (dt_rx_delay_ns pdev = 0 \/ dt_rx_delay_ns pdev = 2)) \/
  (fst r <> Ok tt /\ regs (snd r) = regs w /\
   exists evs,
     trace (snd r) = trace w ++ evs /\
     Forall startup_event evs /\
     forallb (fun e => negb (is_register_access e || is_clk_call e
                             || is_handoff e)) evs = true).
Proof.
  intros r. destruct (probe_startup ccf pdev w) as [H|[Hf [Hr [evs [He Hs]]]]].
  - left. exact H.
  - right. split; [exact Hf|]. split; [exact Hr|].
    exists evs. split; [exact He|]. split; [exact Hs|].
    apply forallb_forall. intros e Hin. rewrite Forall_forall in Hs.
    destruct (Hs e Hin) as [->|[->| ->]]; reflexivity.
Qed.

Lemma inner_no_handoff evs d ret :
  Forall inner_event evs -> ~ In (EvStmmacDvrProbe d ret) evs.
Proof.
  intros Hall Hin. rewrite Forall_forall in Hall.
  destruct (Hall _ Hin) as [_ H]. discriminate H.
Qed.

Lemma plain_no_handoff evs d ret :
  Forall plain_event evs -> ~ In (EvStmmacDvrProbe d ret) evs.
Proof.
  intros Hall. apply inner_no_handoff.
  eapply Forall_impl; [|exact Hall]. apply plain_inner.
Qed.

Ltac in_split H :=
  repeat match type of H with
         | In _ (_ ++ _) => apply in_app_or in H; destruct H as [H|H]
         | In _ (_ :: _) => destruct H as [H|H]
         | In _ [] => destruct H
         end.

(** X15.  What the MAC core is handed.  When probe calls [stmmac_dvr_probe],
    the [dwmac] it passes as [bsp_priv] carries the device's match data and
    phy-mode, one of the five modes; the device tree's delays with rx delay
    0 or 2; the optional timing-adjustment clock, present when the rx delay
    is 2; and the registered TX clock.  The result of probe is the result of
    that call. *)
Theorem probe_handoff ccf pdev w evs d ret :
  let r := meson8b_dwmac_probe ccf pdev w in
  trace (snd r) = trace w ++ evs ->
  In (EvStmmacDvrProbe d ret) evs ->
  of_device_get_match_data pdev = Some (data d) /\
  of_get_phy_mode pdev = Some (phy_mode d) /\
  supported_mode (phy_mode d) = true /\
  tx_delay_ns d = dt_tx_delay_ns pdev /\
  rx_delay_ns d = dt_rx_delay_ns pdev /\
  (rx_delay_ns d = 0 \/ rx_delay_ns d = 2) /\
  devm_clk_get_optional pdev "timing-adjustment"
  = IS_OK (timing_adj_clk d) /\
  (rx_delay_ns d = 2 -> timing_adj_clk d <> None) /\
  (exists c, rgmii_tx_clk d = Some c) /\
  ret = stmmac_dvr_probe pdev d /\
  fst r = (if ret =? 0 then Ok tt else Err ret).
Proof.
  intros r Htr Hin. subst r.
  destruct (probe_startup ccf pdev w)
    as [[d0 [m0 [Hpro Hrx]]] | [_ [_ [evs' [He Hs]]]]].
  2:{ exfalso. rewrite Htr in He. apply app_inv_head in He. subst evs'.
      rewrite Forall_forall in Hs.
      destruct (Hs _ Hin) as [H|[H|H]]; discriminate H. }
  rewrite (probe_resolved_run ccf pdev d0 m0 w Hpro Hrx) in Htr |- *.
  destruct (devm_clk_get_optional pdev "timing-adjustment") as [adj|e] eqn:Hadj.
  2:{ exfalso. cbn [snd trace] in Htr. apply app_inv_head in Htr.
      subst evs. in_split Hin; discriminate Hin. }
  set (w0 := log (EvDevmClkGetOptional "timing-adjustment") w) in *.
  pose proof (probe_tail_cases ccf pdev
                (mk_dwmac d0 m0 None (dt_tx_delay_ns pdev)
                   (dt_rx_delay_ns pdev) adj) w0) as Hcase.
  cbv zeta in Hcase.
  cbn [data phy_mode tx_delay_ns rx_delay_ns timing_adj_clk] in Hcase.
  destruct Hcase as [evs1 [Hp [_ Hcase]]].
  set (w1 := mk_world (regs w0) (trace w0 ++ evs1)) in *.
  destruct Hcase as [[e [Hr _]] | [c [_ [[_ Hr] | [Hsup Hr]]]]].
  - exfalso. rewrite Hr in Htr. unfold log, w1, w0, log in Htr.
    cbn [snd trace] in Htr. rewrite <- !app_assoc in Htr.
    apply app_inv_head in Htr. subst evs.
    in_split Hin; try discriminate Hin.
    exact (plain_no_handoff _ _ _ Hp Hin).
  - exfalso. rewrite Hr in Htr. unfold log, w1, w0, log in Htr.
    cbn [snd trace] in Htr. rewrite <- !app_assoc in Htr.
    apply app_inv_head in Htr. subst evs.
    in_split Hin; try discriminate Hin.
    exact (plain_no_handoff _ _ _ Hp Hin).
  - set (d1 := mk_dwmac d0 m0 (Some c) (dt_tx_delay_ns pdev)
                 (dt_rx_delay_ns pdev) adj) in *.
    set (w2 := masked w1 PRG_ETH0 (policy_mask d0) (policy_value d0 m0)) in *.
    destruct (meson8b_init_prg_eth_inner ccf d1 w2) as [evs3 [He3 Hi3]].
    assert (Hw2 : trace w2 = trace w ++
                    EvDevmClkGetOptional "timing-adjustment" :: evs1 ++
                    [EvReadl PRG_ETH0 (read_back w1 PRG_ETH0);
                     EvWritel (rmw (read_back w1 PRG_ETH0) (policy_mask d0)
                                 (policy_value d0 m0)) PRG_ETH0]).
    { unfold w2, masked, w1, w0, log. cbn [trace].
      rewrite <- !app_assoc. reflexivity. }
    destruct (meson8b_init_prg_eth ccf d1 w2) as [[[]|e] w3] eqn:Einit;
      cbn [snd] in He3.
    2:{ exfalso. rewrite Hr in Htr. unfold log in Htr. cbn [snd trace] in Htr.
        rewrite He3, Hw2, <- !app_assoc in Htr. cbn [app] in Htr.
        apply app_inv_head in Htr. subst evs.
        in_split Hin; try discriminate Hin.
        - exact (plain_no_handoff _ _ _ Hp Hin).
        - exact (inner_no_handoff _ _ _ Hi3 Hin). }
    assert (Hd : EvStmmacDvrProbe d ret
                 = EvStmmacDvrProbe d1 (stmmac_dvr_probe pdev d1)).
    { rewrite Hr in Htr.
      destruct (stmmac_dvr_probe pdev d1 =? 0);
        unfold log in Htr; cbn [snd trace] in Htr;
        rewrite He3, Hw2, <- !app_assoc in Htr; cbn [app] in Htr;
        apply app_inv_head in Htr; subst evs;
        in_split Hin; try discriminate Hin;
        try (exfalso; exact (plain_no_handoff _ _ _ Hp Hin));
        try (exfalso; exact (inner_no_handoff _ _ _ Hi3 Hin));
        symmetry; exact Hin. }
    inversion Hd as [[Hd1 Hret]]. clear Hd.
    destruct Hpro as [_ [_ [_ [Hmd [_ Hpm]]]]].
    unfold d1. cbn [data phy_mode tx_delay_ns rx_delay_ns timing_adj_clk
                      rgmii_tx_clk].
    split; [exact Hmd|]. split; [exact Hpm|]. split; [exact Hsup|].
    split; [reflexivity|]. split; [reflexivity|]. split; [exact Hrx|].
    split; [reflexivity|]. split.
    { intros Hrx2 Hnone.
      assert (Hm : meson8b_init_prg_eth ccf d1 w2
                   = (Err (- EINVAL),
                      log (EvDevErr MissingTimingAdjustmentClock) w2))
        by (apply meson8b_init_prg_eth_missing_clk; assumption).
      rewrite Hm in Einit. discriminate Einit. }
    split; [exists c; reflexivity|]. split; [reflexivity|].
    rewrite Hr. fold d1.
    destruct (stmmac_dvr_probe pdev d1 =? 0); reflexivity.
Qed.

Lemma probe_ok_inv ccf pdev w :
  fst (meson8b_dwmac_probe ccf pdev w) = Ok tt ->
  exists d m adj c w1 w3,
    prologue_ok pdev d m /\
    (dt_rx_delay_ns pdev = 0 \/ dt_rx_delay_ns pdev = 2) /\
    devm_clk_get_optional pdev "timing-adjustment" = IS_OK adj /\
    supported_mode m = true /\
    regs w1 = regs w /\
    let d1 := mk_dwmac d m (Some c) (dt_tx_delay_ns pdev)
                (dt_rx_delay_ns pdev) adj in
    meson8b_init_prg_eth ccf d1
      (masked w1 PRG_ETH0 (policy_mask d) (policy_value d m)) = (Ok tt, w3) /\
    stmmac_dvr_probe pdev d1 = 0 /\
    snd (meson8b_dwmac_probe ccf pdev w) = log (EvStmmacDvrProbe d1 0) w3.
Proof.
  intros Hok.
  destruct (probe_startup ccf pdev w) as [[d [m [Hpro Hrx]]] | [Hf _]];
    [|contradiction].
  rewrite (probe_resolved_run ccf pdev d m w Hpro Hrx) in Hok |- *.
  destruct (devm_clk_get_optional pdev "timing-adjustment") as [adj|e] eqn:Hadj;
    [|discriminate Hok].
  set (w0 := log (EvDevmClkGetOptional "timing-adjustment") w) in *.
  pose proof (probe_tail_cases ccf pdev
                (mk_dwmac d m None (dt_tx_delay_ns pdev)
                   (dt_rx_delay_ns pdev) adj) w0) as Hcase.
  cbv zeta in Hcase.
  cbn [data phy_mode tx_delay_ns rx_delay_ns timing_adj_clk] in Hcase.
  destruct Hcase as [evs1 [_ [_ Hcase]]].
  set (w1 := mk_world (regs w0) (trace w0 ++ evs1)) in *.
  destruct Hcase as [[e [Hr _]] | [c [_ [[_ Hr] | [Hsup Hr]]]]];
    try (rewrite Hr in Hok; discriminate Hok).
  exists d, m, adj, c, w1.
  destruct (meson8b_init_prg_eth ccf _ _) as [[[]|e] w3] eqn:Einit;
    [|rewrite Hr in Hok; discriminate Hok].
  exists w3. rewrite Hr in Hok |- *.
  destruct (stmmac_dvr_probe pdev _ =? 0) eqn:Eret; [|discriminate Hok].
  apply Z.eqb_eq in Eret. rewrite Eret.
  split; [exact Hpro|]. split; [exact Hrx|]. split; [reflexivity|].
  split; [exact Hsup|]. split; [reflexivity|]. cbv zeta.
  split; [exact Einit|]. split; [exact Eret | reflexivity].
Qed.

Lemma policy_value_in_mask d m :
  Z.land (policy_value d m) (policy_mask d) = policy_value d m.
Proof. destruct d; cbn; destruct (phy_interface_mode_is_rgmii m); reflexivity. Qed.

Lemma policy_mask_is_u32 d : is_u32 (policy_mask d).
Proof. destruct d; apply is_u32_const; reflexivity. Qed.

Lemma policy_mask_apart d : Z.land PRG_ETH0_INIT_WRITTEN (policy_mask d) = 0.
Proof. destruct d; reflexivity. Qed.

Lemma read_back_log e w reg : read_back (log e w) reg = read_back w reg.
Proof. reflexivity. Qed.

Lemma read_back_regs w w' reg :
  regs w = regs w' -> read_back w reg = read_back w' reg.
Proof. unfold read_back. intros ->. reflexivity. Qed.

(** X16.  After a successful probe the interface-mode field written by the
    device's [set_phy_mode] handler is still in PRG_ETH0, next to what
    [meson8b_init_prg_eth] programmed: bit 0 (set for the RGMII family,
    clear for RMII) on the older SoCs, bits 2:0 (1 for the RGMII family, 4
    for RMII) on the newer ones.  Every bit outside that field and outside
    the bits [meson8b_init_prg_eth] writes reads back as before probe, as
    far as the clock framework leaves it alone. *)
Theorem probe_register_image ccf pdev w d m :
  of_device_get_match_data pdev = Some d ->
  of_get_phy_mode pdev = Some m ->
  let r := meson8b_dwmac_probe ccf pdev w in
  fst r = Ok tt ->
  supported_mode m = true /\
  (ccf_preserves ccf PRG_ETH0 (policy_mask d) ->
   Z.land (read_back (snd r) PRG_ETH0) (policy_mask d) = policy_value d m /\
   FIELD_GET (policy_mask d) (read_back (snd r) PRG_ETH0)
   = match d with
     | meson8b_dwmac_data_meson8b =>
         if phy_interface_mode_is_rgmii m then 1 else 0
     | meson8b_dwmac_data_axg =>
         if phy_interface_mode_is_rgmii m then 1 else 4
     end) /\
  (forall keep,
     ccf_preserves ccf PRG_ETH0 keep ->
     Z.land (Z.lor (policy_mask d) PRG_ETH0_INIT_WRITTEN) keep = 0 ->
     Z.land (read_back (snd r) PRG_ETH0) keep
     = Z.land (read_back w PRG_ETH0) keep).
Proof.
  intros Hmd Hpm r Hok. subst r.
  destruct (probe_ok_inv ccf pdev w Hok)
    as [d' [m' [adj [c [w1 [w3 [Hpro [_ [_ [Hsup [Hregs Hrest]]]]]]]]]]].
  cbv zeta in Hrest. destruct Hrest as [Hinit [_ Hfin]].
  assert (d' = d /\ m' = m) as [-> ->].
  { destruct Hpro as [_ [_ [_ [Hmd' [_ Hpm']]]]]. split; congruence. }
  rewrite Hfin, read_back_log.
  assert (Hw3 : w3 = snd (meson8b_init_prg_eth ccf
                            (mk_dwmac d m (Some c) (dt_tx_delay_ns pdev)
                               (dt_rx_delay_ns pdev) adj)
                            (masked w1 PRG_ETH0 (policy_mask d)
                               (policy_value d m))))
    by (rewrite Hinit; reflexivity).
  split; [exact Hsup|]. split.
  - intros Hccf.
    assert (Hland : Z.land (read_back w3 PRG_ETH0) (policy_mask d)
                    = policy_value d m).
    { rewrite Hw3, meson8b_init_prg_eth_keeps;
        [|exact Hccf | intros _; apply policy_mask_apart].
      rewrite masked_field by apply policy_mask_is_u32.
      apply policy_value_in_mask. }
    split; [exact Hland|].
    unfold FIELD_GET. rewrite Hland.
    destruct d; cbn; destruct (phy_interface_mode_is_rgmii m); reflexivity.
  - intros keep Hccf Hd. apply land_lor_zero in Hd. destruct Hd as [Hp Hi].
    rewrite Hw3, meson8b_init_prg_eth_keeps;
      [|exact Hccf | intros _; exact Hi].
    rewrite masked_keeps; [|apply policy_mask_is_u32 | exact Hp].
    rewrite (read_back_regs w1 w PRG_ETH0 Hregs). reflexivity.
Qed.

Lemma plain_not_unsupported evs :
  Forall plain_event evs -> ~ In (EvDevErr UnsupportedPhyMode) evs.
Proof.
  intros Hall Hin. rewrite Forall_forall in Hall.
  destruct (Hall _ Hin) as [_ H]. apply H. reflexivity.
Qed.

Lemma clock_setup_no_access evs :
  Forall clock_setup_event evs -> existsb is_register_access evs = false.
Proof.
  induction 1 as [|e evs He _ IH]; [reflexivity|].
  cbn [existsb]. rewrite IH. destruct e; try contradiction; reflexivity.
Qed.

Lemma startup_no_access evs :
  Forall startup_event evs ->
  existsb is_register_access evs = false /\
  ~ In (EvDevErr UnsupportedPhyMode) evs.
Proof.
  induction 1 as [|e evs He _ [IH1 IH2]].
  - split; [reflexivity | intros []].
  - split.
    + cbn [existsb]. rewrite IH1.
      destruct He as [->|[->| ->]]; reflexivity.
    + intros [Hin|Hin]; [|exact (IH2 Hin)].
      destruct He as [->|[->| ->]]; discriminate Hin.
Qed.

(** X17.  A phy-mode outside the five never reaches [meson8b_init_prg_eth]:
    the [set_phy_mode] handler rejects it first, so probe never logs
    "unsupported phy-mode", on any platform.  With such a mode probe fails
    and has not read or written a register. *)
Theorem probe_unsupported_phy_mode ccf pdev w :
  let r := meson8b_dwmac_probe ccf pdev w in
  exists evs,
    trace (snd r) = trace w ++ evs /\
    ~ In (EvDevErr UnsupportedPhyMode) evs /\
    forall d m,
      prologue_ok pdev d m -> supported_mode m = false ->
      fst r <> Ok tt /\ regs (snd r) = regs w /\
      existsb is_register_access evs = false.
Proof.
  intros r. subst r.
  destruct (probe_startup ccf pdev w)
    as [[d0 [m0 [Hpro Hrx]]] | [Hf [Hr [evs [He Hs]]]]].
  2:{ exists evs. split; [exact He|].
      destruct (startup_no_access evs Hs) as [Ha Hn].
      split; [exact Hn|]. intros d m _ _. repeat split; assumption. }
  assert (Hsame : forall d m, prologue_ok pdev d m -> m = m0).
  { intros d m [_ [_ [_ [_ [_ Hpm]]]]].
    destruct Hpro as [_ [_ [_ [_ [_ Hpm0]]]]]. congruence. }
  rewrite (probe_resolved_run ccf pdev d0 m0 w Hpro Hrx).
  destruct (devm_clk_get_optional pdev "timing-adjustment") as [adj|e].
  2:{ eexists. split; [reflexivity|]. split.
      - intros Hin. in_split Hin; discriminate Hin.
      - intros d m _ _. split; [discriminate|]. split; reflexivity. }
  set (w0 := log (EvDevmClkGetOptional "timing-adjustment") w) in *.
  pose proof (probe_tail_cases ccf pdev
                (mk_dwmac d0 m0 None (dt_tx_delay_ns pdev)
                   (dt_rx_delay_ns pdev) adj) w0) as Hcase.
  cbv zeta in Hcase.
  cbn [data phy_mode tx_delay_ns rx_delay_ns timing_adj_clk] in Hcase.
  destruct Hcase as [evs1 [Hp [Hc Hcase]]].
  pose proof (plain_not_unsupported evs1 Hp) as Hn1.
  pose proof (clock_setup_no_access evs1 Hc) as Ha1.
  set (w1 := mk_world (regs w0) (trace w0 ++ evs1)) in *.
  destruct Hcase as [[e [Hr _]] | [c [_ [[_ Hr] | [Hsup Hr]]]]].
  - rewrite Hr.
    exists (EvDevmClkGetOptional "timing-adjustment"
              :: evs1 ++ [EvStmmacRemoveConfigDt]).
    split; [unfold log, w1, w0, log; cbn [snd trace];
            rewrite <- !app_assoc; reflexivity|].
    split.
    + intros Hin. in_split Hin; try discriminate Hin. exact (Hn1 Hin).
    + intros d m _ _. split; [discriminate|]. split; [reflexivity|].
      cbn [existsb is_register_access orb]. rewrite existsb_app, Ha1.
      reflexivity.
  - rewrite Hr.
    exists (EvDevmClkGetOptional "timing-adjustment"
              :: evs1 ++ [EvDevErr "fail to set phy-mode %s\n";
                          EvStmmacRemoveConfigDt]).
    split; [unfold log, w1, w0, log; cbn [snd trace];
            rewrite <- !app_assoc; reflexivity|].
    split.
    + intros Hin. in_split Hin; try discriminate Hin. exact (Hn1 Hin).
    + intros d m _ _. split; [discriminate|]. split; [reflexivity|].
      cbn [existsb is_register_access orb]. rewrite existsb_app, Ha1.
      reflexivity.
  - set (d1 := mk_dwmac d0 m0 (Some c) (dt_tx_delay_ns pdev)
                 (dt_rx_delay_ns pdev) adj) in *.
    set (w2 := masked w1 PRG_ETH0 (policy_mask d0) (policy_value d0 m0)) in *.
    destruct (meson8b_init_prg_eth_plain ccf d1 Hsup w2) as [evs3 [He3 Hp3]].
    pose proof (plain_not_unsupported evs3 Hp3) as Hn3.
    assert (Hw2 : trace w2 = trace w ++
                    EvDevmClkGetOptional "timing-adjustment" :: evs1 ++
                    [EvReadl PRG_ETH0 (read_back w1 PRG_ETH0);
                     EvWritel (rmw (read_back w1 PRG_ETH0) (policy_mask d0)
                                 (policy_value d0 m0)) PRG_ETH0]).
    { unfold w2, masked, w1, w0, log. cbn [trace].
      rewrite <- !app_assoc. reflexivity. }
    assert (Hno : forall d m,
              prologue_ok pdev d m -> supported_mode m = false -> False).
    { intros d m Hp' Hu. rewrite (Hsame d m Hp') in Hu. congruence. }
    destruct (meson8b_init_prg_eth ccf d1 w2) as [[[]|e] w3];
      cbn [snd] in He3; rewrite Hr.
    + destruct (stmmac_dvr_probe pdev d1 =? 0);
        (eexists; split;
         [ unfold log; cbn [snd trace];
           rewrite He3, Hw2, <- !app_assoc; cbn [app]; reflexivity
         | split;
           [ intros Hin; in_split Hin; try discriminate Hin;
             [exact (Hn1 Hin) | exact (Hn3 Hin)]
           | intros d m Hp' Hu; exfalso; exact (Hno d m Hp' Hu) ] ]).
    + eexists. split.
      * unfold log. cbn [snd trace].
        rewrite He3, Hw2, <- !app_assoc. cbn [app]. reflexivity.
      * split.
        -- intros Hin. in_split Hin; try discriminate Hin;
             [exact (Hn1 Hin) | exact (Hn3 Hin)].
        -- intros d m Hp' Hu. exfalso. exact (Hno d m Hp' Hu).
Qed.

(** X18.  Probe sees the two delay properties only through the 32-bit
    values it stores, with 2 ns standing in for an absent tx delay and 0 ns
    for an absent rx delay: device trees that agree on those values (and on
    everything else) make probe behave identically.  So an absent
    "amlogic,tx-delay-ns" is the same as 2 and an absent
    "amlogic,rx-delay-ns" the same as 0, which passes the rx check. *)
Theorem probe_delay_defaults ccf pdev tx rx tx' rx' w :
  dt_tx_delay_ns (with_delays pdev tx rx)
  = dt_tx_delay_ns (with_delays pdev tx' rx') ->
  dt_rx_delay_ns (with_delays pdev tx rx)
  = dt_rx_delay_ns (with_delays pdev tx' rx') ->
  meson8b_dwmac_probe ccf (with_delays pdev tx rx) w
  = meson8b_dwmac_probe ccf (with_delays pdev tx' rx') w /\
  dt_tx_delay_ns (with_delays pdev None rx) = 2 /\
  dt_rx_delay_ns (with_delays pdev tx None) = 0.
Proof.
  intros Htx Hrx. split; [|split; reflexivity].
  unfold dt_tx_delay_ns, dt_rx_delay_ns in Htx, Hrx.
  cbn [of_tx_delay_ns of_rx_delay_ns with_delays] in Htx, Hrx.
  unfold meson8b_dwmac_probe, meson8b_dwmac_probe_body.
  cbn [stmmac_get_platform_resources stmmac_probe_config_dt devm_kzalloc_dwmac
       of_device_get_match_data devm_platform_ioremap_resource of_get_phy_mode
       of_tx_delay_ns of_rx_delay_ns devm_clk_get_optional with_delays].
  rewrite Htx, Hrx. reflexivity.
Qed.

(** ** The order of probe's effects *)

Lemma existsb_false_of_Forall (f : event -> bool) evs :
  Forall (fun e => f e = false) evs -> existsb f evs = false.
Proof.
  induction 1 as [|e evs He _ IH]; [reflexivity|].
  cbn [existsb]. rewrite He, IH. reflexivity.
Qed.

Lemma clock_setup_not_driving evs :
  Forall clock_setup_event evs -> existsb drives_hardware evs = false.
Proof.
  induction 1 as [|e evs He _ IH]; [reflexivity|].
  cbn [existsb]. rewrite IH. destruct e; try contradiction; reflexivity.
Qed.

Lemma startup_not_driving evs :
  Forall startup_event evs -> existsb drives_hardware evs = false.
Proof.
  induction 1 as [|e evs He _ IH]; [reflexivity|].
  cbn [existsb]. rewrite IH.
  destruct He as [->|[->| ->]]; reflexivity.
Qed.

Lemma meson8b_init_prg_eth_builds_nothing ccf dwmac :
  emits (fun e => builds_clock e = false) (meson8b_init_prg_eth ccf dwmac).
Proof.
  unfold meson8b_init_prg_eth, meson8b_devm_clk_prepare_enable, dev_err.
  apply emits_bind;
    [destruct (phy_mode dwmac); emits_with reflexivity | intros dc].
  apply emits_bind; [|intros ?].
  { apply emits_if; [|apply emits_pure].
    destruct (timing_adj_clk dwmac); emits_with reflexivity. }
  emits_with reflexivity.
Qed.

Lemma existsb_app_false (f : event -> bool) l1 l2 :
  existsb f l1 = false -> existsb f l2 = false ->
  existsb f (l1 ++ l2) = false.
Proof. intros H1 H2. rewrite existsb_app, H1, H2. reflexivity. Qed.

(** X19.  Probe builds before it touches.  Its log splits in two: first
    the clock lookups and registrations (the optional timing-adjustment
    clock, the mux parents, the four clocks of the TX chain), during which
    no register is accessed, no clock is driven, no release action is
    registered and the MAC core is not called; then the programming of
    PRG_ETH0 and the hand-over, during which no clock is looked up or
    registered any more. *)
Theorem probe_builds_clocks_first ccf pdev w :
  let r := meson8b_dwmac_probe ccf pdev w in
  exists pre post,
    trace (snd r) = trace w ++ pre ++ post /\
    existsb drives_hardware pre = false /\
    existsb builds_clock post = false.
Proof.
  intros r. subst r.
  destruct (probe_startup ccf pdev w)
    as [[d [m [Hpro Hrx]]] | [_ [_ [evs [He Hs]]]]].
  2:{ exists evs, []. rewrite app_nil_r. split; [exact He|].
      split; [apply startup_not_driving; exact Hs | reflexivity]. }
  rewrite (probe_resolved_run ccf pdev d m w Hpro Hrx).
  destruct (devm_clk_get_optional pdev "timing-adjustment") as [adj|e].
  2:{ exists [EvDevmClkGetOptional "timing-adjustment"; EvStmmacRemoveConfigDt],
        [].
      rewrite app_nil_r. repeat split. }
  set (w0 := log (EvDevmClkGetOptional "timing-adjustment") w).
  pose proof (probe_tail_cases ccf pdev
                (mk_dwmac d m None (dt_tx_delay_ns pdev)
                   (dt_rx_delay_ns pdev) adj) w0) as Hcase.
  cbv zeta in Hcase.
  cbn [data phy_mode tx_delay_ns rx_delay_ns timing_adj_clk] in Hcase.
  destruct Hcase as [evs1 [_ [Hsetup Hcase]]].
  apply clock_setup_not_driving in Hsetup.
  destruct Hcase as [[e [Hr _]] | [c [_ [[_ Hr] | [_ Hr]]]]].
  - rewrite Hr.
    exists ([EvDevmClkGetOptional "timing-adjustment"] ++ evs1
            ++ [EvStmmacRemoveConfigDt]), [].
    unfold w0, log. cbn [snd regs trace]. rewrite app_nil_r, <- !app_assoc.
    split; [reflexivity|]. split; [|reflexivity].
    cbn [app existsb drives_hardware orb].
    apply existsb_app_false; [exact Hsetup | reflexivity].
  - rewrite Hr.
    exists ([EvDevmClkGetOptional "timing-adjustment"] ++ evs1),
      [EvDevErr "fail to set phy-mode %s\n"; EvStmmacRemoveConfigDt].
    unfold w0, log. cbn [snd regs trace]. rewrite <- !app_assoc.
    split; [reflexivity|]. split; [|reflexivity].
    cbn [app existsb drives_hardware orb]. exact Hsetup.
  - set (w1 := mk_world (regs w0) (trace w0 ++ evs1)) in *.
    set (d1 := mk_dwmac d m (Some c) (dt_tx_delay_ns pdev)
                 (dt_rx_delay_ns pdev) adj) in *.
    set (w2 := masked w1 PRG_ETH0 (policy_mask d) (policy_value d m)) in *.
    destruct (meson8b_init_prg_eth_builds_nothing ccf d1 w2)
      as [evs3 [H3 Hall3]].
    apply existsb_false_of_Forall in Hall3.
    destruct (meson8b_init_prg_eth ccf d1 w2) as [[[]|e] w3];
      cbn [snd] in H3; rewrite Hr.
    + exists ([EvDevmClkGetOptional "timing-adjustment"] ++ evs1),
        ([EvReadl PRG_ETH0 (read_back w1 PRG_ETH0);
          EvWritel (rmw (read_back w1 PRG_ETH0) (policy_mask d)
                      (policy_value d m)) PRG_ETH0]
         ++ evs3 ++ [EvStmmacDvrProbe d1 (stmmac_dvr_probe pdev d1)]
         ++ (if stmmac_dvr_probe pdev d1 =? 0
             then [] else [EvStmmacRemoveConfigDt])).
      split.
      * destruct (stmmac_dvr_probe pdev d1 =? 0);
          unfold log; cbn [snd regs trace]; rewrite H3;
          unfold w2, masked, w1, w0, log; cbn [regs trace];
          rewrite <- !app_assoc; try rewrite app_nil_r; reflexivity.
      * split; [cbn [app existsb drives_hardware orb]; exact Hsetup|].
        cbn [app existsb builds_clock orb].
        apply existsb_app_false; [exact Hall3|].
        destruct (stmmac_dvr_probe pdev d1 =? 0); reflexivity.
    + exists ([EvDevmClkGetOptional "timing-adjustment"] ++ evs1),
        ([EvReadl PRG_ETH0 (read_back w1 PRG_ETH0);
          EvWritel (rmw (read_back w1 PRG_ETH0) (policy_mask d)
                      (policy_value d m)) PRG_ETH0]
         ++ evs3 ++ [EvStmmacRemoveConfigDt]).
      split.
      * unfold log; cbn [snd regs trace]; rewrite H3;
          unfold w2, masked, w1, w0, log; cbn [regs trace];
          rewrite <- !app_assoc; reflexivity.
      * split; [cbn [app existsb drives_hardware orb]; exact Hsetup|].
        cbn [app existsb builds_clock orb].
        apply existsb_app_false; [exact Hall3 | reflexivity].
Qed.

(** ** Worked instances of the further properties *)

Lemma mask_bits_last_write_wins_witness :
  let dwmac := board_dwmac meson8b_dwmac_data_axg
                 PHY_INTERFACE_MODE_RGMII 2 0 None in
  let twice := (meson8b_dwmac_mask_bits dwmac PRG_ETH0
                  PRG_ETH0_EXT_PHY_MODE_MASK 4 ;;
                meson8b_dwmac_mask_bits dwmac PRG_ETH0
                  PRG_ETH0_EXT_PHY_MODE_MASK 1) world_seeded in
  is_u32 PRG_ETH0_EXT_PHY_MODE_MASK /\
  fst twice = Ok tt /\
  regs (snd twice) PRG_ETH0
  = regs (snd (meson8b_dwmac_mask_bits dwmac PRG_ETH0
                 PRG_ETH0_EXT_PHY_MODE_MASK 1 world_seeded)) PRG_ETH0.
Proof.
  intros dwmac twice.
  assert (Hm : is_u32 PRG_ETH0_EXT_PHY_MODE_MASK)
    by (apply is_u32_const; reflexivity).
  split; [exact Hm|].
  destruct (mask_bits_last_write_wins dwmac PRG_ETH0
              PRG_ETH0_EXT_PHY_MODE_MASK 4 1 world_seeded Hm)
    as [Hok [Heq _]].
  split; [exact Hok | exact (Heq PRG_ETH0)].
Defined.

Lemma mask_bits_disjoint_commute_witness :
  let dwmac := board_dwmac meson8b_dwmac_data_axg
                 PHY_INTERFACE_MODE_RGMII 2 0 None in
  let ab := (meson8b_dwmac_mask_bits dwmac PRG_ETH0
               PRG_ETH0_TXDLY_MASK 0x20 ;;
             meson8b_dwmac_mask_bits dwmac PRG_ETH0
               PRG_ETH0_INVERTED_RMII_CLK 0) world_seeded in
  let ba := (meson8b_dwmac_mask_bits dwmac PRG_ETH0
               PRG_ETH0_INVERTED_RMII_CLK 0 ;;
             meson8b_dwmac_mask_bits dwmac PRG_ETH0
               PRG_ETH0_TXDLY_MASK 0x20) world_seeded in
  Z.land PRG_ETH0_TXDLY_MASK PRG_ETH0_INVERTED_RMII_CLK = 0 /\
  regs (snd ab) PRG_ETH0 = regs (snd ba) PRG_ETH0 /\
  Z.land (regs (snd ab) PRG_ETH0) PRG_ETH0_TXDLY_MASK = 0x20.
Proof.
  intros dwmac ab ba.
  assert (H1 : is_u32 PRG_ETH0_TXDLY_MASK)
    by (apply is_u32_const; reflexivity).
  assert (H2 : is_u32 PRG_ETH0_INVERTED_RMII_CLK)
    by (apply is_u32_const; reflexivity).
  assert (Hd : Z.land PRG_ETH0_TXDLY_MASK PRG_ETH0_INVERTED_RMII_CLK = 0)
    by reflexivity.
  split; [exact Hd|].
  destruct (mask_bits_disjoint_commute dwmac PRG_ETH0
              PRG_ETH0_TXDLY_MASK 0x20 PRG_ETH0_INVERTED_RMII_CLK 0
              world_seeded H1 H2 Hd) as [Heq [Hf _]].
  split; [exact (Heq PRG_ETH0) | exact Hf].
Defined.

Lemma register_clk_name_bounded_witness :
  let short := board_pdev meson8b_dwmac_data_axg None None None None in
  let long := with_delays
                {| dev_name := "ff3f0000.ethernet-controller-on-a-long-bus";
                   stmmac_get_platform_resources := 0;
                   stmmac_probe_config_dt := IS_OK tt;
                   devm_kzalloc_dwmac := true;
                   of_device_get_match_data := None;
                   devm_platform_ioremap_resource := IS_OK tt;
                   of_get_phy_mode := None;
                   of_tx_delay_ns := None;
                   of_rx_delay_ns := None;
                   devm_clk_get_optional := fun _ => IS_OK None;
                   devm_kzalloc_clk_configs := true;
                   devm_clk_get := fun n => IS_OK n;
                   devm_clk_register := fun n _ _ _ => IS_OK n;
                   stmmac_dvr_probe := fun _ => 0 |} None None in
  let dwmac := board_dwmac meson8b_dwmac_data_axg
                 PHY_INTERFACE_MODE_RGMII 2 0 None in
  fst (meson8b_dwmac_register_clk short dwmac "m250_sel" []
         (hw_clk_fixed_factor 1 2) world0)
  = Ok (IS_OK "c9410000.ethernet#m250_sel") /\
  fst (meson8b_dwmac_register_clk long dwmac "m250_sel" []
         (hw_clk_fixed_factor 1 2) world0)
  = fst (meson8b_dwmac_register_clk long dwmac "rgmii_tx_en" []
           (hw_clk_fixed_factor 1 2) world0).
Proof.
  intros short long dwmac. split.
  - destruct (register_clk_name_bounded short dwmac "m250_sel" []
                (hw_clk_fixed_factor 1 2) world0)
      as [name [_ [Hr [_ [_ [Hfit _]]]]]].
    rewrite Hr, (Hfit ltac:(cbn; lia)). reflexivity.
  - destruct (register_clk_name_bounded long dwmac "m250_sel" []
                (hw_clk_fixed_factor 1 2) world0)
      as [n1 [_ [Hr1 [_ [_ [_ Hl1]]]]]].
    destruct (register_clk_name_bounded long dwmac "rgmii_tx_en" []
                (hw_clk_fixed_factor 1 2) world0)
      as [n2 [_ [Hr2 [_ [_ [_ Hl2]]]]]].
    rewrite Hr1, Hr2, (Hl1 ltac:(cbn; lia)), (Hl2 ltac:(cbn; lia)).
    reflexivity.
Defined.

Lemma init_rgmii_tx_clk_chain_witness :
  let pdev := board_pdev meson8b_dwmac_data_axg
                (Some PHY_INTERFACE_MODE_RGMII) (Some 2) (Some 0) None in
  let dwmac := mk_dwmac meson8b_dwmac_data_axg PHY_INTERFACE_MODE_RGMII
                 None 2 0 None in
  let r := meson8b_init_rgmii_tx_clk pdev dwmac world_seeded in
  devm_clk_get pdev "clkin0" = IS_OK "fclk_div2" /\
  devm_clk_get pdev "clkin1" = IS_OK "mpll2" /\
  fst r = Ok (board_dwmac meson8b_dwmac_data_axg
                PHY_INTERFACE_MODE_RGMII 2 0 None) /\
  regs (snd r) = regs world_seeded /\
  List.length (trace (snd r)) = 6%nat.
Proof.
  intros pdev dwmac r.
  split; [reflexivity|]. split; [reflexivity|].
  pose proof (init_rgmii_tx_clk_chain pdev dwmac world_seeded
                "fclk_div2" "mpll2"
                "c9410000.ethernet#m250_sel" "c9410000.ethernet#m250_div"
                "c9410000.ethernet#fixed_div2" "c9410000.ethernet#rgmii_tx_en"
                eq_refl eq_refl eq_refl eq_refl eq_refl eq_refl eq_refl) as H.
  unfold r. rewrite H. repeat split.
Defined.

Lemma init_rgmii_tx_clk_missing_parent_witness :
  let dwmac := mk_dwmac meson8b_dwmac_data_axg PHY_INTERFACE_MODE_RGMII
                 None 2 0 None in
  let deferred := board_pdev_without "clkin1" (- EPROBE_DEFER) in
  let absent := board_pdev_without "clkin0" (- 2) in
  (exists evs,
     fst (meson8b_init_rgmii_tx_clk deferred dwmac world0)
     = Err (- EPROBE_DEFER) /\
     trace (snd (meson8b_init_rgmii_tx_clk deferred dwmac world0)) = evs /\
     ~ In (EvDevErr "Missing clock %s\n") evs) /\
  (exists evs,
     fst (meson8b_init_rgmii_tx_clk absent dwmac world0) = Err (- 2) /\
     trace (snd (meson8b_init_rgmii_tx_clk absent dwmac world0)) = evs /\
     In (EvDevErr "Missing clock %s\n") evs).
Proof.
  intros dwmac deferred absent. split.
  - destruct (init_rgmii_tx_clk_missing_parent deferred dwmac world0 eq_refl
                (or_intror (ex_intro _ (- EPROBE_DEFER) eq_refl)))
      as [name [e [evs [Hname [Hget [Hf [_ [Ht [_ Hlog]]]]]]]]].
    assert (He : e = - EPROBE_DEFER).
    { destruct Hname as [-> | [-> _]]; [discriminate Hget|].
      inversion Hget. reflexivity. }
    exists evs. split; [rewrite Hf, He; reflexivity|].
    split; [exact Ht|].
    intros Hin. apply (proj1 Hlog Hin). exact He.
  - destruct (init_rgmii_tx_clk_missing_parent absent dwmac world0 eq_refl
                (or_introl (ex_intro _ (- 2) eq_refl)))
      as [name [e [evs [Hname [Hget [Hf [_ [Ht [_ Hlog]]]]]]]]].
    assert (He : e = - 2).
    { destruct Hname as [-> | [_ [p0 Hp0]]]; [|discriminate Hp0].
      inversion Hget. reflexivity. }
    exists evs. split; [rewrite Hf, He; reflexivity|].
    split; [exact Ht|].
    apply (proj2 Hlog). rewrite He. discriminate.
Defined.

Lemma devm_actions_target_tx_clk_witness :
  let dwmac := board_dwmac meson8b_dwmac_data_axg
                 PHY_INTERFACE_MODE_RGMII 2 2 (Some "timing-adjustment") in
  let r := meson8b_init_prg_eth board_ccf dwmac world_seeded in
  fst r = Ok tt /\
  In (EvClkPrepareEnable (Some "timing-adjustment") 0) (trace (snd r)) /\
  ~ In (EvDevmAddAction (Some "timing-adjustment")) (trace (snd r)).
Proof.
  intros dwmac r.
  destruct (devm_actions_target_tx_clk board_ccf dwmac world_seeded)
    as [evs [Hevs [_ [Hno Hen]]]].
  fold r in Hevs, Hen. cbn [world_seeded trace app] in Hevs.
  assert (Hok : fst r = Ok tt) by (vm_compute; reflexivity).
  split; [exact Hok|]. rewrite Hevs. split.
  - apply Hen; [exact Hok | reflexivity].
  - apply Hno. discriminate.
Defined.

Lemma timing_adj_enable_failure_witness :
  let dwmac := board_dwmac meson8b_dwmac_data_axg
                 PHY_INTERFACE_MODE_RGMII 2 2 (Some "timing-adjustment") in
  meson8b_init_prg_eth (fixed_ccf 0 0 (- ENOMEM)) dwmac world_seeded
  = (Err (- ENOMEM),
     mk_world (regs world_seeded)
       [EvClkPrepareEnable (Some "timing-adjustment") (- ENOMEM);
        EvDevErr "Failed to enable the timing-adjustment clock\n"]).
Proof.
  intros dwmac.
  apply (timing_adj_enable_failure (fixed_ccf 0 0 (- ENOMEM)) dwmac world_seeded
           "timing-adjustment" (- ENOMEM));
    [reflexivity | reflexivity | reflexivity | reflexivity | discriminate].
Defined.

Lemma tx_clk_failure_aborts_witness :
  let dwmac := board_dwmac meson8b_dwmac_data_axg
                 PHY_INTERFACE_MODE_RGMII 2 0 None in
  let tx := Some board_tx_clk in
  let r := meson8b_init_prg_eth (fixed_ccf (- EINVAL) 0 0) dwmac
             world_seeded in
  let r' := meson8b_init_prg_eth (fixed_ccf 0 (- ENOMEM) 0) dwmac
              world_seeded in
  (fst r = Err (- EINVAL) /\
   trace (snd r)
   = [EvReadl PRG_ETH0 0x80000808; EvWritel 0x80000828 PRG_ETH0;
      EvReadl PRG_ETH0 0x80000828; EvWritel 0x80000028 PRG_ETH0;
      EvClkSetRate tx 125000000 (- EINVAL);
      EvDevErr "failed to set RGMII TX clock\n"]) /\
  (fst r' = Err (- ENOMEM) /\
   trace (snd r')
   = [EvReadl PRG_ETH0 0x80000808; EvWritel 0x80000828 PRG_ETH0;
      EvReadl PRG_ETH0 0x80000828; EvWritel 0x80000028 PRG_ETH0;
      EvClkSetRate tx 125000000 0; EvClkPrepareEnable tx (- ENOMEM);
      EvDevErr "failed to enable the RGMII TX clock\n"]).
Proof.
  intros dwmac tx r r'. split.
  - destruct (tx_clk_failure_aborts (fixed_ccf (- EINVAL) 0 0) dwmac
                world_seeded world_seeded 0x20 eq_refl eq_refl eq_refl)
      as [_ [Hsr _]].
    destruct (Hsr ltac:(discriminate)) as [Hf Ht].
    split; [exact Hf | exact Ht].
  - destruct (tx_clk_failure_aborts (fixed_ccf 0 (- ENOMEM) 0) dwmac
                world_seeded world_seeded 0x20 eq_refl eq_refl eq_refl)
      as [_ [_ Hen]].
    destruct (Hen eq_refl ltac:(discriminate)) as [Hf Ht].
    split; [exact Hf | exact Ht].
Defined.

Lemma init_prg_eth_frame_witness :
  let dwmac := board_dwmac meson8b_dwmac_data_axg
                 PHY_INTERFACE_MODE_RGMII_TXID 4 2
                 (Some "timing-adjustment") in
  let r := meson8b_init_prg_eth board_ccf dwmac world_seeded in
  let keep := Z.lor (GENMASK 31 25) (GENMASK 3 0) in
  ccf_preserves board_ccf PRG_ETH0 keep /\
  fst r = Ok tt /\
  Z.land (read_back (snd r) PRG_ETH0) keep = 0x80000008.
Proof.
  intros dwmac r keep.
  assert (Hccf : ccf_preserves board_ccf PRG_ETH0 keep)
    by (apply board_ccf_preserves; reflexivity).
  split; [exact Hccf|]. split; [vm_compute; reflexivity|].
  exact (eq_trans
           (init_prg_eth_frame board_ccf dwmac world_seeded PRG_ETH0 keep
              Hccf (fun _ => eq_refl))
           eq_refl).
Defined.

Lemma init_prg_eth_image_independent_witness :
  let dwmac := board_dwmac meson8b_dwmac_data_axg
                 PHY_INTERFACE_MODE_RGMII 2 0 None in
  let r := meson8b_init_prg_eth board_ccf dwmac world0 in
  let r' := meson8b_init_prg_eth board_ccf dwmac world_seeded in
  fst r = Ok tt /\ fst r' = Ok tt /\
  regs (snd r) PRG_ETH0 <> regs (snd r') PRG_ETH0 /\
  Z.land (read_back (snd r) PRG_ETH0) PRG_ETH0_INIT_WRITTEN
  = Z.land (read_back (snd r') PRG_ETH0) PRG_ETH0_INIT_WRITTEN.
Proof.
  intros dwmac r r'.
  assert (Hccf : ccf_preserves board_ccf PRG_ETH0 PRG_ETH0_INIT_WRITTEN)
    by (apply board_ccf_preserves; reflexivity).
  assert (Hok : fst r = Ok tt) by (vm_compute; reflexivity).
  assert (Hok' : fst r' = Ok tt) by (vm_compute; reflexivity).
  split; [exact Hok|]. split; [exact Hok'|].
  split; [vm_compute; discriminate|].
  exact (proj1 (proj2 (proj2
           (init_prg_eth_image_independent board_ccf dwmac world0
              world_seeded Hccf Hok Hok')))).
Defined.

Lemma timing_adj_clk_use_witness :
  let with_rx := board_dwmac meson8b_dwmac_data_axg
                   PHY_INTERFACE_MODE_RGMII 2 2 (Some "timing-adjustment") in
  let without_rx := board_dwmac meson8b_dwmac_data_axg
                      PHY_INTERFACE_MODE_RMII 0 0
                      (Some "timing-adjustment") in
  (exists ret rest,
     trace (snd (meson8b_init_prg_eth board_ccf with_rx world0))
     = EvClkPrepareEnable (Some "timing-adjustment") ret :: rest) /\
  Forall (fun e => is_clk_call e = false)
    (trace (snd (meson8b_init_prg_eth board_ccf without_rx world0))).
Proof.
  intros with_rx without_rx. split.
  - destruct (timing_adj_clk_use board_ccf with_rx world0)
      as [evs [Hevs [_ Hfirst]]].
    cbn [world0 trace app] in Hevs. rewrite Hevs.
    exact (Hfirst eq_refl eq_refl "timing-adjustment" eq_refl).
  - destruct (timing_adj_clk_use board_ccf without_rx world0)
      as [evs [Hevs [Hother _]]].
    cbn [world0 trace app] in Hevs. rewrite Hevs.
    apply Hother; [discriminate | reflexivity].
Defined.

Lemma probe_handoff_witness :
  let pdev := board_pdev meson8b_dwmac_data_axg
                (Some PHY_INTERFACE_MODE_RGMII) (Some 2) (Some 0) None in
  let d := board_dwmac meson8b_dwmac_data_axg
             PHY_INTERFACE_MODE_RGMII 2 0 None in
  let r := meson8b_dwmac_probe board_ccf pdev world0 in
  In (EvStmmacDvrProbe d 0) (trace (snd r)) /\
  fst r = Ok tt.
Proof.
  intros pdev d r.
  assert (Hin : In (EvStmmacDvrProbe d 0) (trace (snd r))).
  { vm_compute. repeat first [left; reflexivity | right]. }
  split; [exact Hin|].
  exact (proj2 (proj2 (proj2 (proj2 (proj2 (proj2 (proj2 (proj2 (proj2 (proj2
           (probe_handoff board_ccf pdev world0 (trace (snd r)) d 0
              eq_refl Hin))))))))))).
Defined.

Lemma probe_register_image_witness :
  let pdev := board_pdev meson8b_dwmac_data_axg
                (Some PHY_INTERFACE_MODE_RMII) None None None in
  let r := meson8b_dwmac_probe board_ccf pdev world_seeded in
  fst r = Ok tt /\
  FIELD_GET (GENMASK 2 0) (read_back (snd r) PRG_ETH0) = 4 /\
  Z.land (read_back (snd r) PRG_ETH0) (GENMASK 31 25) = 0x80000000.
Proof.
  intros pdev r.
  assert (Hok : fst r = Ok tt) by (vm_compute; reflexivity).
  destruct (probe_register_image board_ccf pdev world_seeded
              meson8b_dwmac_data_axg PHY_INTERFACE_MODE_RMII
              eq_refl eq_refl Hok) as [_ [Hfield Hkeep]].
  split; [exact Hok|]. split.
  - apply Hfield. apply board_ccf_preserves; reflexivity.
  - apply (Hkeep (GENMASK 31 25));
      [apply board_ccf_preserves; reflexivity | reflexivity].
Defined.

Lemma probe_unsupported_phy_mode_witness :
  let pdev := board_pdev meson8b_dwmac_data_meson8b
                (Some PHY_INTERFACE_MODE_SGMII) None None None in
  let r := meson8b_dwmac_probe board_ccf pdev world_seeded in
  fst r <> Ok tt /\ regs (snd r) = regs world_seeded /\
  ~ In (EvDevErr UnsupportedPhyMode) (trace (snd r)).
Proof.
  intros pdev r.
  destruct (probe_unsupported_phy_mode board_ccf pdev world_seeded)
    as [evs [Hevs [Hno Hrej]]].
  fold r in Hevs, Hrej. cbn [world_seeded trace app] in Hevs.
  destruct (Hrej meson8b_dwmac_data_meson8b PHY_INTERFACE_MODE_SGMII
              (board_pdev_prologue_ok _ _ _ _ _) eq_refl)
    as [Hf [Hr _]].
  split; [exact Hf|]. split; [exact Hr|]. rewrite Hevs. exact Hno.
Defined.

Lemma probe_delay_defaults_witness :
  let pdev := board_pdev meson8b_dwmac_data_axg
                (Some PHY_INTERFACE_MODE_RGMII) None None None in
  meson8b_dwmac_probe board_ccf (with_delays pdev None None) world_seeded
  = meson8b_dwmac_probe board_ccf (with_delays pdev (Some 2) (Some 0))
      world_seeded.
Proof.
  intros pdev.
  exact (proj1 (probe_delay_defaults board_ccf pdev None None
                  (Some 2) (Some 0) world_seeded eq_refl eq_refl)).
Defined.

(** * The delay fields, from [dwmac] to the register *)

Lemma land_sub_disjoint a mask sub :
  Z.land sub mask = sub -> Z.land a mask = 0 -> Z.land a sub = 0.
Proof.
  intros Hsub Ha.
  rewrite <- Hsub, (Z.land_comm sub mask), Z.land_assoc, Ha.
  apply Z.land_0_l.
Qed.

(** After a successful run every part of the delay/adjust fields that the
    clock framework leaves alone holds what the delay/adjust write put
    there. *)
Lemma meson8b_init_prg_eth_delay_sub ccf dwmac w dv sub :
  ccf_preserves ccf PRG_ETH0 sub ->
  Z.land sub PRG_ETH0_DELAY_ADJ_MASK = sub ->
  combine_by_mode (phy_mode dwmac) (tx_dly_config dwmac) (rx_dly_config dwmac)
  = Some dv ->
  fst (meson8b_init_prg_eth ccf dwmac w) = Ok tt ->
  Z.land (read_back (snd (meson8b_init_prg_eth ccf dwmac w)) PRG_ETH0) sub
  = Z.land dv sub.
Proof.
  intros Hccf Hsub Hdv Hok.
  assert (HM : is_u32 PRG_ETH0_DELAY_ADJ_MASK)
    by (apply is_u32_const; reflexivity).
  assert (H12 : is_u32 PRG_ETH0_TX_AND_PHY_REF_CLK)
    by (apply is_u32_const; reflexivity).
  destruct (meson8b_init_prg_eth_ok_inv ccf dwmac w Hok)
    as [dv' [w1 [w3 [Hdv' [_ [Hsetup Hsnd]]]]]].
  assert (dv' = dv) by congruence. subst dv'.
  rewrite Hsnd, masked_keeps;
    [| exact H12 | apply (land_sub_disjoint _ _ _ Hsub); reflexivity].
  replace w3
    with (snd (setup_tx_clk ccf dwmac
                 (masked w1 PRG_ETH0 PRG_ETH0_DELAY_ADJ_MASK dv)))
    by (rewrite Hsetup; reflexivity).
  rewrite setup_tx_clk_keeps;
    [| exact Hccf | apply (land_sub_disjoint _ _ _ Hsub); reflexivity].
  rewrite masked_read_back by exact HM.
  apply rmw_inside_sub. exact Hsub.
Qed.

Lemma FIELD_GET_of_land mask x y :
  Z.land x mask = Z.land y mask -> FIELD_GET mask x = FIELD_GET mask y.
Proof. unfold FIELD_GET. intros ->. reflexivity. Qed.

(** A register whose bits 6:5 hold ns / 2, for ns one of 0, 2, 4, 6, unpacks
    to ns / 2 and decodes to ns. *)
Lemma tx_field_decodes v ns :
  In ns [0; 2; 4; 6] ->
  Z.land v PRG_ETH0_TXDLY_MASK = Z.shiftl (ns / 2) 5 ->
  0 <= ns / 2 < 2 ^ 2 /\
  FIELD_GET PRG_ETH0_TXDLY_MASK v = ns / 2 /\
  decode_tx_delay v = ns.
Proof.
  intros Hin Hv. unfold decode_tx_delay, FIELD_GET. rewrite Hv.
  cbn [In] in Hin.
  destruct Hin as [<- | [<- | [<- | [<- | []]]]];
    (split; [vm_compute; split; congruence|]); split; reflexivity.
Qed.

(** The transmit bits inside the combined delay value of the two modes that
    carry them. *)
Lemma tx_bits_of_combined dwmac dv :
  phy_mode dwmac = PHY_INTERFACE_MODE_RGMII \/
  phy_mode dwmac = PHY_INTERFACE_MODE_RGMII_RXID ->
  combine_by_mode (phy_mode dwmac) (tx_dly_config dwmac) (rx_dly_config dwmac)
  = Some dv ->
  Z.land dv PRG_ETH0_TXDLY_MASK = tx_dly_config dwmac.
Proof.
  intros Hmode Hdv.
  destruct Hmode as [Hm | Hm]; rewrite Hm in Hdv;
    cbv beta iota delta [combine_by_mode] in Hdv;
    inversion Hdv as [Hdv']; clear Hdv.
  - rewrite Z.land_lor_distr_l, tx_dly_config_in_mask.
    unfold rx_dly_config. destruct (rx_delay_ns dwmac =? 2).
    + replace (Z.land (Z.lor PRG_ETH0_ADJ_ENABLE PRG_ETH0_ADJ_SETUP)
                 PRG_ETH0_TXDLY_MASK) with 0 by reflexivity.
      apply Z.lor_0_r.
    + rewrite Z.land_0_l. apply Z.lor_0_r.
  - apply tx_dly_config_in_mask.
Qed.

Lemma tx_dly_config_of_valid dwmac :
  In (tx_delay_ns dwmac) [0; 2; 4; 6] ->
  tx_dly_config dwmac = Z.shiftl (tx_delay_ns dwmac / 2) 5.
Proof.
  intros Hin. unfold tx_dly_config. cbn [In] in Hin.
  destruct Hin as [<- | [<- | [<- | [<- | []]]]]; reflexivity.
Qed.

(** The combined delay value of the modes that do not re-time the receive
    path has adjust-enable and adjust-setup clear. *)
Lemma retiming_off_of_combined dwmac dv :
  In (phy_mode dwmac)
     [PHY_INTERFACE_MODE_RGMII_RXID; PHY_INTERFACE_MODE_RGMII_ID;
      PHY_INTERFACE_MODE_RMII] ->
  combine_by_mode (phy_mode dwmac) (tx_dly_config dwmac) (rx_dly_config dwmac)
  = Some dv ->
  Z.land dv (Z.lor PRG_ETH0_ADJ_ENABLE PRG_ETH0_ADJ_SETUP) = 0.
Proof.
  intros Hmode Hdv. cbn [In] in Hmode.
  destruct Hmode as [Hm | [Hm | [Hm | []]]]; rewrite <- Hm in Hdv;
    cbv beta iota delta [combine_by_mode] in Hdv;
    inversion Hdv as [Hdv']; clear Hdv; try reflexivity.
  rewrite <- tx_dly_config_in_mask, <- Z.land_assoc.
  replace (Z.land PRG_ETH0_TXDLY_MASK
             (Z.lor PRG_ETH0_ADJ_ENABLE PRG_ETH0_ADJ_SETUP)) with 0
    by reflexivity.
  apply Z.land_0_r.
Qed.

(** C4.  The code demands the timing-adjustment clock for a re-timing it
    switches off.  In RGMII_RXID, RGMII_ID and RMII with rx delay 2 ns the
    delay/adjust value the switch selects has adjust-enable and adjust-setup
    clear, yet the guard looks at [rx_dly_config], not at that value:
    without the clock [meson8b_init_prg_eth] fails with the missing-clock
    error and writes nothing, where the claim has it succeed; with the clock
    it enables the clock first and then writes the two bits as zero, so they
    read back zero after a successful run. *)
Theorem timing_clock_demanded_without_retiming ccf dwmac w :
  In (phy_mode dwmac)
     [PHY_INTERFACE_MODE_RGMII_RXID; PHY_INTERFACE_MODE_RGMII_ID;
      PHY_INTERFACE_MODE_RMII] ->
  rx_delay_ns dwmac = 2 ->
  let r := meson8b_init_prg_eth ccf dwmac w in
  let retiming := Z.lor (BIT 13) (BIT 14) in
  (timing_adj_clk dwmac = None ->
   r = (Err (- EINVAL), log (EvDevErr MissingTimingAdjustmentClock) w) /\
   regs (snd r) = regs w) /\
  (forall c, timing_adj_clk dwmac = Some c -> fst r = Ok tt ->
   exists old v rest,
     trace (snd r)
     = trace w ++ EvClkPrepareEnable (Some c) 0
         :: EvDevmAddAction (rgmii_tx_clk dwmac)
         :: EvReadl PRG_ETH0 old :: EvWritel v PRG_ETH0 :: rest /\
     Z.land v retiming = 0 /\
     (ccf_preserves ccf PRG_ETH0 retiming ->
      Z.land (read_back (snd r) PRG_ETH0) retiming = 0)).
Proof.
  intros Hmode Hrx r retiming.
  replace retiming with (Z.lor PRG_ETH0_ADJ_ENABLE PRG_ETH0_ADJ_SETUP)
    by reflexivity.
  clear retiming.
  assert (Hs : supported_mode (phy_mode dwmac) = true).
  { cbn [In] in Hmode.
    destruct Hmode as [<- | [<- | [<- | []]]]; reflexivity. }
  split.
  - intros Hc. subst r.
    rewrite (meson8b_init_prg_eth_missing_clk ccf dwmac w Hs Hrx Hc).
    split; reflexivity.
  - intros c Hc Hok.
    destruct (meson8b_init_prg_eth_ok_inv ccf dwmac w Hok)
      as [dv [w1 [w3 [Hdv [Hgate _]]]]].
    destruct (meson8b_init_prg_eth_delay_write ccf dwmac w w1 dv Hdv Hgate)
      as [rest Hrest].
    pose proof (retiming_off_of_combined dwmac dv Hmode Hdv) as Hoff.
    rewrite enable_timing_adj_run in Hgate.
    apply Z.eqb_eq in Hrx. rewrite Hrx, Hc in Hgate. cbv zeta in Hgate.
    destruct (fst (ccf_prepare_enable ccf (Some c) w) =? 0);
      [|discriminate Hgate].
    inversion Hgate as [Hw1]. clear Hgate.
    exists (read_back w1 PRG_ETH0),
      (rmw (read_back w1 PRG_ETH0) PRG_ETH0_DELAY_ADJ_MASK dv), rest.
    split.
    + fold r in Hrest. rewrite Hrest, <- Hw1. cbn [trace].
      rewrite <- app_assoc. reflexivity.
    + split.
      * rewrite rmw_inside_sub by reflexivity. exact Hoff.
      * intros Hccf. subst r.
        rewrite (meson8b_init_prg_eth_delay_sub ccf dwmac w dv _ Hccf
                   eq_refl Hdv Hok).
        exact Hoff.
Qed.

(** C5.  For ns in {0, 2, 4, 6}, in the modes that carry the transmit bits
    (RGMII and RGMII_RXID), [meson8b_init_prg_eth] encodes the delay as
    ns / 2, a 2-bit value, at bits 6:5 of the value it writes in its first
    register write; unpacking the field of that value and applying the
    register comment's 2 ns per step gives ns back, and so does the register
    when the function has returned (the clock framework leaving bits 6:5
    alone). *)
Theorem tx_delay_roundtrip ccf dwmac w :
  In (tx_delay_ns dwmac) [0; 2; 4; 6] ->
  phy_mode dwmac = PHY_INTERFACE_MODE_RGMII \/
  phy_mode dwmac = PHY_INTERFACE_MODE_RGMII_RXID ->
  ccf_succeeds ccf -> timing_adj_available dwmac ->
  let ns := tx_delay_ns dwmac in
  let r := meson8b_init_prg_eth ccf dwmac w in
  0 <= ns / 2 < 2 ^ 2 /\
  fst r = Ok tt /\
  (exists pre old v rest,
     trace (snd r)
     = trace w ++ pre ++ EvReadl PRG_ETH0 old :: EvWritel v PRG_ETH0 :: rest /\
     no_write pre /\
     Z.land v (GENMASK 6 5) = Z.shiftl (ns / 2) 5 /\
     FIELD_GET (GENMASK 6 5) v = ns / 2 /\
     decode_tx_delay v = ns) /\
  (ccf_preserves ccf PRG_ETH0 (GENMASK 6 5) ->
   Z.land (read_back (snd r) PRG_ETH0) (GENMASK 6 5) = Z.shiftl (ns / 2) 5 /\
   FIELD_GET (GENMASK 6 5) (read_back (snd r) PRG_ETH0) = ns / 2 /\
   decode_tx_delay (read_back (snd r) PRG_ETH0) = ns).
Proof.
  intros Hin Hmode Hccf Hav ns r.
  change (GENMASK 6 5) with PRG_ETH0_TXDLY_MASK.
  assert (Hs : supported_mode (phy_mode dwmac) = true)
    by (destruct Hmode as [-> | ->]; reflexivity).
  pose proof (meson8b_init_prg_eth_ok ccf dwmac w Hccf Hs Hav) as Hok.
  destruct (meson8b_init_prg_eth_ok_inv ccf dwmac w Hok)
    as [dv [w1 [w3 [Hdv [Hgate _]]]]].
  destruct (meson8b_init_prg_eth_delay_write ccf dwmac w w1 dv Hdv Hgate)
    as [rest Hrest].
  destruct (enable_timing_adj_trace ccf dwmac w) as [pre [Hpre Hnw]].
  rewrite Hgate in Hpre. cbn [snd] in Hpre.
  assert (Hland : Z.land dv PRG_ETH0_TXDLY_MASK = Z.shiftl (ns / 2) 5).
  { rewrite (tx_bits_of_combined dwmac dv Hmode Hdv).
    apply tx_dly_config_of_valid. exact Hin. }
  assert (Hv : Z.land (rmw (read_back w1 PRG_ETH0) PRG_ETH0_DELAY_ADJ_MASK dv)
                 PRG_ETH0_TXDLY_MASK = Z.shiftl (ns / 2) 5).
  { rewrite rmw_inside_sub by reflexivity. exact Hland. }
  destruct (tx_field_decodes _ ns Hin Hv) as [Hrange [Hfield Hdec]].
  split; [exact Hrange|]. split; [exact Hok|]. split.
  - exists pre, (read_back w1 PRG_ETH0),
      (rmw (read_back w1 PRG_ETH0) PRG_ETH0_DELAY_ADJ_MASK dv), rest.
    split.
    { fold r in Hrest. rewrite Hrest, Hpre, <- app_assoc. reflexivity. }
    split; [exact Hnw|]. split; [exact Hv|].
    split; [exact Hfield | exact Hdec].
  - intros Hkeep.
    assert (Hfin : Z.land (read_back (snd r) PRG_ETH0) PRG_ETH0_TXDLY_MASK
                   = Z.shiftl (ns / 2) 5).
    { subst r.
      rewrite (meson8b_init_prg_eth_delay_sub ccf dwmac w dv _ Hkeep
                 eq_refl Hdv Hok).
      exact Hland. }
    split; [exact Hfin|].
    destruct (tx_field_decodes _ ns Hin Hfin) as [_ H]. exact H.
Qed.

Lemma clock_setup_no_write evs :
  Forall clock_setup_event evs -> no_write evs.
Proof.
  unfold no_write.
  induction 1 as [|e evs He _ IH]; [reflexivity|].
  cbn [forallb]. rewrite IH. destruct e; try contradiction; reflexivity.
Qed.

(** A successful probe, step by step: the optional clock lookup, the
    construction of the TX clock, the interface-mode write, then
    [meson8b_init_prg_eth] and the hand-over. *)
Lemma probe_ok_trace ccf pdev w :
  fst (meson8b_dwmac_probe ccf pdev w) = Ok tt ->
  exists d m adj c evs1 w3,
    prologue_ok pdev d m /\
    devm_clk_get_optional pdev "timing-adjustment" = IS_OK adj /\
    Forall clock_setup_event evs1 /\
    let w1 := mk_world (regs w)
                ((trace w ++ [EvDevmClkGetOptional "timing-adjustment"])
                 ++ evs1) in
    let d1 := mk_dwmac d m (Some c) (dt_tx_delay_ns pdev)
                (dt_rx_delay_ns pdev) adj in
    meson8b_init_prg_eth ccf d1
      (masked w1 PRG_ETH0 (policy_mask d) (policy_value d m)) = (Ok tt, w3) /\
    snd (meson8b_dwmac_probe ccf pdev w) = log (EvStmmacDvrProbe d1 0) w3.
Proof.
  intros Hok.
  destruct (probe_startup ccf pdev w) as [[d [m [Hpro Hrx]]] | [Hf _]];
    [|contradiction].
  rewrite (probe_resolved_run ccf pdev d m w Hpro Hrx) in Hok |- *.
  destruct (devm_clk_get_optional pdev "timing-adjustment") as [adj|e] eqn:Hadj;
    [|discriminate Hok].
  set (w0 := log (EvDevmClkGetOptional "timing-adjustment") w) in *.
  pose proof (probe_tail_cases ccf pdev
                (mk_dwmac d m None (dt_tx_delay_ns pdev)
                   (dt_rx_delay_ns pdev) adj) w0) as Hcase.
  cbv zeta in Hcase.
  cbn [data phy_mode tx_delay_ns rx_delay_ns timing_adj_clk] in Hcase.
  destruct Hcase as [evs1 [_ [Hsetup Hcase]]].
  destruct Hcase as [[e [Hr _]] | [c [_ [[_ Hr] | [Hsup Hr]]]]];
    try (rewrite Hr in Hok; discriminate Hok).
  exists d, m, adj, c, evs1.
  destruct (meson8b_init_prg_eth ccf _ _) as [[[]|e] w3] eqn:Einit;
    [|rewrite Hr in Hok; discriminate Hok].
  exists w3. rewrite Hr in Hok |- *.
  destruct (stmmac_dvr_probe pdev _ =? 0) eqn:Eret; [|discriminate Hok].
  apply Z.eqb_eq in Eret. rewrite Eret.
  split; [exact Hpro|]. split; [reflexivity|]. split; [exact Hsetup|].
  cbv zeta. split; [exact Einit | reflexivity].
Qed.

(** C6 (as the code has it).  Probe never checks the tx delay: whatever
    32-bit value the device tree gives (2 when it gives none), on a board
    where everything else is in order (a supported mode, rx delay 0 or 2,
    the timing-adjustment clock there when the rx delay is 2, clocks and
    kernel services that succeed) probe succeeds and never logs a delay
    rejection.  The value reaches the encoding unchanged: the MAC core is
    handed that very value in [dwmac->tx_delay_ns], and the second register
    write of probe, the delay/adjust write, carries in bits 6:5 the
    truncation [(tx_delay_ns >> 1) mod 4] in RGMII and RGMII_RXID and zero
    in the other modes, which is what the register still holds when probe
    returns. *)
Theorem tx_delay_not_validated ccf pdev d m w :
  prologue_ok pdev d m -> services_ok pdev -> ccf_succeeds ccf ->
  supported_mode m = true ->
  dt_rx_delay_ns pdev = 0 \/ dt_rx_delay_ns pdev = 2 ->
  let r := meson8b_dwmac_probe ccf pdev w in
  let field := match m with
               | PHY_INTERFACE_MODE_RGMII
               | PHY_INTERFACE_MODE_RGMII_RXID =>
                   (dt_tx_delay_ns pdev / 2) mod 4
               | _ => 0
               end in
  fst r = Ok tt /\
  (exists evs, trace (snd r) = trace w ++ evs /\ Forall not_delay_error evs) /\
  (exists dwmac setup gate old v rest,
     trace (snd r)
     = trace w ++ setup
       ++ [EvReadl PRG_ETH0 (read_back w PRG_ETH0);
           EvWritel (rmw (read_back w PRG_ETH0) (policy_mask d)
                       (policy_value d m)) PRG_ETH0]
       ++ gate
       ++ [EvReadl PRG_ETH0 old; EvWritel v PRG_ETH0]
       ++ rest ++ [EvStmmacDvrProbe dwmac 0] /\
     no_write setup /\ no_write gate /\
     tx_delay_ns dwmac = dt_tx_delay_ns pdev /\
     FIELD_GET (GENMASK 6 5) v = field) /\
  (ccf_preserves ccf PRG_ETH0 (GENMASK 6 5) ->
   FIELD_GET (GENMASK 6 5) (read_back (snd r) PRG_ETH0) = field).
Proof.
  intros Hpro Hsv Hccf Hs Hrx r field.
  change (GENMASK 6 5) with PRG_ETH0_TXDLY_MASK.
  destruct (probe_succeeds ccf pdev d m w Hpro Hsv Hccf Hs Hrx) as [Hok Hnd].
  fold r in Hok, Hnd.
  split; [exact Hok|]. split; [exact Hnd|].
  destruct (probe_ok_trace ccf pdev w Hok)
    as [d' [m' [adj [c [evs1 [w3 [Hpro' [_ [Hsetup [Hinit Hsnd]]]]]]]]]].
  assert (d' = d /\ m' = m) as [-> ->].
  { destruct Hpro as [_ [_ [_ [Hmd [_ Hpm]]]]].
    destruct Hpro' as [_ [_ [_ [Hmd' [_ Hpm']]]]]. split; congruence. }
  fold r in Hsnd.
  set (w1 := mk_world (regs w)
               ((trace w ++ [EvDevmClkGetOptional "timing-adjustment"])
                ++ evs1)) in *.
  set (d1 := mk_dwmac d m (Some c) (dt_tx_delay_ns pdev)
               (dt_rx_delay_ns pdev) adj) in *.
  set (w2 := masked w1 PRG_ETH0 (policy_mask d) (policy_value d m)) in *.
  assert (Hok3 : fst (meson8b_init_prg_eth ccf d1 w2) = Ok tt)
    by (rewrite Hinit; reflexivity).
  destruct (meson8b_init_prg_eth_ok_inv ccf d1 w2 Hok3)
    as [dv [wg [w3' [Hdv [Hgate _]]]]].
  destruct (meson8b_init_prg_eth_delay_write ccf d1 w2 wg dv Hdv Hgate)
    as [rest Hrest].
  rewrite Hinit in Hrest. cbn [snd] in Hrest.
  destruct (enable_timing_adj_trace ccf d1 w2) as [gate [Hg Hnw]].
  rewrite Hgate in Hg. cbn [snd] in Hg.
  assert (Hfield : forall old,
            FIELD_GET PRG_ETH0_TXDLY_MASK
              (rmw old PRG_ETH0_DELAY_ADJ_MASK dv) = field).
  { intros old. rewrite (tx_field_of_combined d1 dv old Hdv).
    cbn [d1 phy_mode tx_delay_ns]. unfold field, shr32.
    rewrite (u32_small _ (dt_tx_delay_ns_is_u32 pdev)).
    rewrite Z.shiftr_div_pow2 by lia. reflexivity. }
  split.
  - exists d1, (EvDevmClkGetOptional "timing-adjustment" :: evs1), gate,
      (read_back wg PRG_ETH0),
      (rmw (read_back wg PRG_ETH0) PRG_ETH0_DELAY_ADJ_MASK dv), rest.
    split.
    { rewrite Hsnd. unfold log. cbn [trace]. rewrite Hrest, Hg.
      unfold w2, masked, w1. cbn [trace].
      rewrite <- !app_assoc. reflexivity. }
    split.
    { unfold no_write. cbn [forallb is_write negb andb].
      apply clock_setup_no_write. exact Hsetup. }
    split; [exact Hnw|]. split; [reflexivity | apply Hfield].
  - intros Hkeep. rewrite Hsnd, read_back_log.
    rewrite <- (Hfield 0). apply FIELD_GET_of_land.
    replace w3 with (snd (meson8b_init_prg_eth ccf d1 w2))
      by (rewrite Hinit; reflexivity).
    rewrite (meson8b_init_prg_eth_delay_sub ccf d1 w2 dv _ Hkeep
               eq_refl Hdv Hok3).
    rewrite rmw_inside_sub by reflexivity. reflexivity.
Qed.

Lemma timing_clock_demanded_without_retiming_witness :
  let absent := board_dwmac meson8b_dwmac_data_meson8b
                  PHY_INTERFACE_MODE_RGMII_RXID 2 2 None in
  let present := board_dwmac meson8b_dwmac_data_meson8b
                   PHY_INTERFACE_MODE_RGMII_RXID 2 2
                   (Some "timing-adjustment") in
  let r := meson8b_init_prg_eth board_ccf present world_seeded in
  meson8b_init_prg_eth board_ccf absent world_seeded
  = (Err (- EINVAL),
     log (EvDevErr MissingTimingAdjustmentClock) world_seeded) /\
  fst r = Ok tt /\
  In (EvClkPrepareEnable (Some "timing-adjustment") 0) (trace (snd r)) /\
  Z.land (read_back (snd r) PRG_ETH0) (Z.lor (BIT 13) (BIT 14)) = 0.
Proof.
  intros absent present r.
  assert (Hmode : forall adj,
            In (phy_mode (board_dwmac meson8b_dwmac_data_meson8b
                            PHY_INTERFACE_MODE_RGMII_RXID 2 2 adj))
               [PHY_INTERFACE_MODE_RGMII_RXID; PHY_INTERFACE_MODE_RGMII_ID;
                PHY_INTERFACE_MODE_RMII])
    by (intros adj; left; reflexivity).
  split.
  - destruct (timing_clock_demanded_without_retiming board_ccf absent
                world_seeded (Hmode None) eq_refl) as [H _].
    exact (proj1 (H eq_refl)).
  - assert (Hok : fst r = Ok tt) by (vm_compute; reflexivity).
    split; [exact Hok|].
    destruct (timing_clock_demanded_without_retiming board_ccf present
                world_seeded (Hmode (Some "timing-adjustment")) eq_refl)
      as [_ H].
    destruct (H "timing-adjustment" eq_refl Hok)
      as [old [v [rest [Htr [_ Hfin]]]]].
    split.
    + fold r in Htr. rewrite Htr. left. reflexivity.
    + apply Hfin. apply board_ccf_preserves; reflexivity.
Defined.

Lemma tx_delay_roundtrip_witness :
  let dwmac := board_dwmac meson8b_dwmac_data_axg
                 PHY_INTERFACE_MODE_RGMII 6 0 None in
  let r := meson8b_init_prg_eth board_ccf dwmac world_seeded in
  In (tx_delay_ns dwmac) [0; 2; 4; 6] /\
  fst r = Ok tt /\
  Z.land (read_back (snd r) PRG_ETH0) (GENMASK 6 5) = 0x60 /\
  FIELD_GET (GENMASK 6 5) (read_back (snd r) PRG_ETH0) = 3 /\
  decode_tx_delay (read_back (snd r) PRG_ETH0) = 6.
Proof.
  intros dwmac r.
  assert (Hin : In (tx_delay_ns dwmac) [0; 2; 4; 6])
    by (right; right; right; left; reflexivity).
  split; [exact Hin|].
  assert (Hav : timing_adj_available dwmac)
    by (intros [Hrx _]; discriminate Hrx).
  destruct (tx_delay_roundtrip board_ccf dwmac world_seeded Hin
              (or_introl eq_refl) board_ccf_succeeds Hav)
    as [_ [Hok [_ Hfin]]].
  split; [exact Hok|].
  apply Hfin. apply board_ccf_preserves; reflexivity.
Defined.

Lemma tx_delay_not_validated_witness :
  let pdev := board_pdev meson8b_dwmac_data_meson8b
                (Some PHY_INTERFACE_MODE_RGMII) (Some 14) (Some 0) None in
  let r := meson8b_dwmac_probe board_ccf pdev world0 in
  ~ In (dt_tx_delay_ns pdev) [0; 2; 4; 6] /\
  devm_clk_get_optional pdev "timing-adjustment" = IS_OK None /\
  fst r = Ok tt /\
  FIELD_GET (GENMASK 6 5) (read_back (snd r) PRG_ETH0) = 3.
Proof.
  intros pdev r. split.
  { intros H. vm_compute in H.
    repeat (destruct H as [H|H]; [discriminate H|]). exact H. }
  split; [reflexivity|].
  assert (Hsv : services_ok pdev).
  { apply board_pdev_services_ok. intros H. discriminate H. }
  destruct (tx_delay_not_validated board_ccf pdev meson8b_dwmac_data_meson8b
              PHY_INTERFACE_MODE_RGMII world0
              (board_pdev_prologue_ok _ _ _ _ _) Hsv
              board_ccf_succeeds eq_refl (or_introl eq_refl))
    as [Hok [_ [_ Hfin]]].
  split; [exact Hok|].
  apply Hfin. apply board_ccf_preserves; reflexivity.
Defined.
